(** * Avalia: composite agile-maturity scoring and commit-frequency alerts

    A shallow embedding of the scoring core of the two scripts
    [aval-repos-novos.py] (repository analysis) and [aval-usuario.py]
    (per-user analysis), with the properties of their specification.

    Modelling conventions.
    - A Python [float] is a rational ([Q], compared with [==]).  The
      modules [Repos] and [Usuario] compute in exact arithmetic, with
      constants such as [0.7] the decimal fractions the source writes;
      the module [Binary64] rounds every operation to the nearest
      binary64 number, and [Composite64] states the composite score
      in it.
    - A Python [int] is a [Z]; list lengths are [nat].
    - A Python [str] is the [string] of the bytes of its UTF-8
      encoding; [py_len] counts its characters and [slice_to] cuts
      between them.  [strip], [\d] and [\s] act on ASCII characters
      only, which is what Python does on a text whose other characters
      are the accented letters of Latin-1 ([Notions.latin_text]).
      [lower] changes the ASCII letters only; on such a text an ASCII
      stem occurs in its result where it occurs in Python's.
    - A dict whose set of keys depends on the path that built it is a
      [gmap string pyval]; a dict built with the same literal keys at
      every site is a record.
    - Exceptions are values of [exn] in the [result] monad.
    - What the scripts fetch from GitHub, OpenAI and the clock is an
      explicit argument. *)

From Stdlib Require Import ZArith QArith Qround Qminmax Qabs Qpower Lqa Lia Ascii String List.
From stdpp Require Import base gmap strings list pretty.

Local Open Scope string_scope.

(** ** Python primitives *)

Module Py.

Inductive exn : Type :=
| KeyError (key : string)
| ZeroDivisionError.

Inductive result (A : Type) : Type :=
| Ok (a : A)
| Raise (e : exn).
Arguments Ok {A} a.
Arguments Raise {A} e.

#[global] Instance result_ret : MRet result := fun A a => Ok a.

#[global] Instance result_bind : MBind result := fun A B k r =>
  match r with
  | Ok a => k a
  | Raise e => Raise e
  end.

(** Values stored in a dict. *)
Inductive pyval : Type :=
| PInt (z : Z)
| PFloat (q : Q)
| PStr (s : string).

(** [d[key]] *)
Definition getitem (d : gmap string pyval) (key : string) : result pyval :=
  match d !! key with
  | Some v => Ok v
  | None => Raise (KeyError key)
  end.

(** The numeric value of an int or a float operand. *)
Definition as_Q (v : pyval) : Q :=
  match v with
  | PInt z => inject_Z z
  | PFloat q => q
  | PStr _ => 0
  end.

Definition Qltb (a b : Q) : bool := negb (Qle_bool b a).

(** [min(a, b)] and [max(a, b)]: the first argument wins a tie. *)
Definition py_min (a b : Q) : Q := if Qltb b a then b else a.
Definition py_max (a b : Q) : Q := if Qltb a b then b else a.

(** [a / b], true division. *)
Definition truediv (a b : Q) : result Q :=
  if Qeq_bool b 0 then Raise ZeroDivisionError else Ok (Qred (a / b)).

(** Nearest integer, ties to the even one. *)
Definition round_half_even (q : Q) : Z :=
  let f := Qfloor q in
  match Qcompare (q - inject_Z f) (1 # 2) with
  | Lt => f
  | Gt => (f + 1)%Z
  | Eq => if Z.even f then f else (f + 1)%Z
  end.

Definition pow10 (n : nat) : Q := inject_Z (10 ^ Z.of_nat n).

(** [round(q, ndigits)] *)
Definition py_round (q : Q) (ndigits : nat) : Q :=
  Qred (inject_Z (round_half_even (q * pow10 ndigits)) / pow10 ndigits).

(** *** Characters and strings *)

Definition code (c : ascii) : N := N_of_ascii c.

Definition is_digit (c : ascii) : bool :=
  (48 <=? code c)%N && (code c <=? 57)%N.

Definition is_space (c : ascii) : bool :=
  ((9 <=? code c)%N && (code c <=? 13)%N)
  || ((28 <=? code c)%N && (code c <=? 32)%N).

Definition lower_char (c : ascii) : ascii :=
  if (65 <=? code c)%N && (code c <=? 90)%N
  then ascii_of_N (code c + 32) else c.

Fixpoint lower (s : string) : string :=
  match s with
  | "" => ""
  | String c s' => String (lower_char c) (lower s')
  end.

(** [sub in s] *)
Fixpoint contains (sub s : string) : bool :=
  String.prefix sub s
  || match s with
     | "" => false
     | String _ s' => contains sub s'
     end.

(** [s.split(sep)] for a one-character separator. *)
Fixpoint split (sep : ascii) (s : string) : list string :=
  match s with
  | "" => [""]
  | String c s' =>
      if Ascii.eqb c sep then "" :: split sep s'
      else match split sep s' with
           | [] => [String c ""]
           | w :: ws => String c w :: ws
           end
  end.

Fixpoint lstrip_by (p : ascii -> bool) (s : string) : string :=
  match s with
  | "" => ""
  | String c s' => if p c then lstrip_by p s' else s
  end.

Fixpoint rstrip_by (p : ascii -> bool) (s : string) : string :=
  match s with
  | "" => ""
  | String c s' =>
      match rstrip_by p s' with
      | "" => if p c then "" else String c ""
      | t => String c t
      end
  end.

Definition strip_by (p : ascii -> bool) (s : string) : string :=
  rstrip_by p (lstrip_by p s).

(** [s.strip()] *)
Definition strip : string -> string := strip_by is_space.

Fixpoint mem_char (c : ascii) (chars : string) : bool :=
  match chars with
  | "" => false
  | String d chars' => Ascii.eqb c d || mem_char c chars'
  end.

(** [s.strip(chars)] *)
Definition strip_chars (chars : string) : string -> string :=
  strip_by (fun c => mem_char c chars).

(** [sep.join(parts)] *)
Fixpoint join (sep : string) (parts : list string) : string :=
  match parts with
  | [] => ""
  | [p] => p
  | p :: ps => p ++ sep ++ join sep ps
  end.

(** A byte that continues a character of a UTF-8 text. *)
Definition is_continuation (c : ascii) : bool :=
  (128 <=? code c)%N && (code c <? 192)%N.

(** [len(s)]: the characters of a UTF-8 text, one for each byte that
    starts a character. *)
Fixpoint py_len (s : string) : nat :=
  match s with
  | "" => 0
  | String c s' => (if is_continuation c then 0 else 1) + py_len s'
  end.

(** [s[:n]]: the first [n] characters, each with the bytes that
    continue it. *)
Fixpoint slice_to (n : nat) (s : string) : string :=
  match s with
  | "" => ""
  | String c s' =>
      if is_continuation c then String c (slice_to n s')
      else match n with
           | O => ""
           | S n' => String c (slice_to n' s')
           end
  end.

(** Truth value of a string: non-empty. *)
Definition truthy (s : string) : bool := negb (String.eqb s "").

(** *** The numeral pattern: digits, an optional dot, digits *)

Fixpoint span_digits (s : string) : string * string :=
  match s with
  | "" => ("", "")
  | String c s' =>
      if is_digit c
      then let '(ds, r) := span_digits s' in (String c ds, r)
      else ("", s)
  end.

(** The text matched at a position that starts with a digit. *)
Definition match_number (s : string) : string :=
  let '(ds, r) := span_digits s in
  match r with
  | String "." r' => ds ++ "." ++ fst (span_digits r')
  | _ => ds
  end.

(** [re.search] of the numeral pattern in [s], giving [group(1)]. *)
Fixpoint search_number (s : string) : option string :=
  match s with
  | "" => None
  | String c s' => if is_digit c then Some (match_number s) else search_number s'
  end.

Fixpoint digits_value (acc : N) (s : string) : N :=
  match s with
  | "" => acc
  | String c s' => digits_value (acc * 10 + (code c - 48))%N s'
  end.

(** [float(g)] for a text [g] matched by the pattern. *)
Definition float_of_match (g : string) : Q :=
  let '(ds, r) := span_digits g in
  let fs := match r with String _ fs => fs | "" => "" end in
  Qred (inject_Z (Z.of_N (digits_value 0 ds))
        + inject_Z (Z.of_N (digits_value 0 fs)) / pow10 (String.length fs)).

(** *** Fixed-point formatting, [f"{q:.{nd}f}"], for [0 <= q] *)

Fixpoint zeros (n : nat) : string :=
  match n with
  | O => ""
  | S n' => String "0" (zeros n')
  end.

Definition pad_zeros (width : nat) (s : string) : string :=
  zeros (width - String.length s) ++ s.

Definition format_f (nd : nat) (q : Q) : string :=
  let scaled := round_half_even (q * pow10 nd) in
  let unit := (10 ^ Z.of_nat nd)%Z in
  match nd with
  | O => pretty scaled
  | _ => pretty (scaled / unit)%Z ++ "." ++ pad_zeros nd (pretty (scaled mod unit)%Z)
  end.

(** *** Dates ([datetime]) *)

Record date := { year : Z; month : Z; day : Z }.

(** A UTC instant: a calendar date and the microseconds elapsed since
    its midnight, [0 <= micros < 86400000000]. *)
Record datetime := { on_date : date; micros : Z }.

Definition is_leap (y : Z) : bool :=
  (y mod 4 =? 0)%Z && (negb (y mod 100 =? 0)%Z || (y mod 400 =? 0)%Z).

Definition days_before_year (y : Z) : Z :=
  ((y - 1) * 365 + (y - 1) / 4 - (y - 1) / 100 + (y - 1) / 400)%Z.

Definition days_before_month (y m : Z) : Z :=
  (nth (Z.to_nat m) [0; 0; 31; 59; 90; 120; 151; 181; 212; 243; 273; 304; 334] 0
   + (if (2 <? m)%Z && is_leap y then 1 else 0))%Z.

(** [d.toordinal()], proleptic Gregorian. *)
Definition toordinal (d : date) : Z :=
  (days_before_year (year d) + days_before_month (year d) (month d) + day d)%Z.

Definition micros_per_day : Z := 86400000000.

(** [(a - b).days]: whole days, rounded down. *)
Definition timedelta_days (a b : datetime) : Z :=
  (toordinal (on_date a) - toordinal (on_date b)
   + (micros a - micros b) / micros_per_day)%Z.

(** [strptime(s, "%Y-%m-%d").replace(tzinfo=utc)] of a well-formed [s]. *)
Definition midnight (d : date) : datetime := {| on_date := d; micros := 0 |}.

Definition two_digits (z : Z) : string := pad_zeros 2 (pretty z).

(** [d.strftime('%Y-%m-%d')] *)
Definition strftime_ymd (d : datetime) : string :=
  pad_zeros 4 (pretty (year (on_date d))) ++ "-" ++ two_digits (month (on_date d))
  ++ "-" ++ two_digits (day (on_date d)).

(** [d.strftime('%Y-%m-%d %H:%M:%S')] *)
Definition strftime_ymd_hms (d : datetime) : string :=
  let secs := (micros d / 1000000)%Z in
  strftime_ymd d ++ " " ++ two_digits (secs / 3600) ++ ":"
  ++ two_digits (secs / 60 mod 60) ++ ":" ++ two_digits (secs mod 60).

(** *** The chat-completion request *)

Record chat_message := { role : string; content : string }.

End Py.

Import Py.

(** ** [aval-repos-novos.py]: repository metrics and the composite score *)

Module Repos.

(** [AGILE_METRICS_WEIGHTS] *)
Record weight_table := {
  development_velocity : Q;
  collaboration_index : Q;
  code_quality : Q;
  documentation_maturity : Q;
  project_structure : Q;
  community_engagement : Q
}.

Definition AGILE_METRICS_WEIGHTS : weight_table := {|
  development_velocity := 25 # 100;
  collaboration_index := 20 # 100;
  code_quality := 20 # 100;
  documentation_maturity := 15 # 100;
  project_structure := 10 # 100;
  community_engagement := 10 # 100
|}.

(** The dict every qualitative analysis returns. *)
Record qualitative := {
  score : Q;
  analysis : string;
  recommendations : list string
}.

(** [AgileRepositoryAnalyzer].  [client messages max_tokens] is the
    content of the first choice of the chat completion, [None] when
    the request raises. *)
Record AgileRepositoryAnalyzer := {
  enabled : bool;
  client : list chat_message -> Z -> option string
}.

Definition _call_openai (self : AgileRepositoryAnalyzer)
    (messages : list chat_message) (max_tokens : Z) : option string :=
  if negb (enabled self) then None
  else strip <$> client self messages max_tokens.

Definition keywords : list string := ["recomend"; "sugest"; "melhor"; "deve"].

Definition mentions_keyword (line : string) : bool :=
  existsb (fun keyword => contains keyword (lower line)) keywords.

(** The class of leading list markers: digits, dot, dash, asterisk
    and white space. *)
Definition is_marker (c : ascii) : bool :=
  is_digit c || mem_char c ".-*" || is_space c.

Definition clean (line : string) : string := strip (lstrip_by is_marker line).

Definition keep (clean_line : string) : bool :=
  truthy clean_line && (10 <? py_len clean_line)%nat.

Definition _extract_recommendations (text : string) : list string :=
  let lines := split "010" text in
  let recommendations :=
    filter (fun clean_line => keep clean_line = true)
           (map clean (filter (fun line => mentions_keyword line = true) lines)) in
  take 2 recommendations.

Definition unavailable : qualitative :=
  {| score := 1 # 2; analysis := "Análise não disponível"; recommendations := [] |}.

(** Lines 94-101 and 124-131: the reply turned into a result. *)
Definition of_reply (reply : option string) : qualitative :=
  match reply with
  | Some result =>
      if truthy result then
        let score := match search_number result with
                     | Some g => float_of_match g
                     | None => 1 # 2
                     end in
        {| score := py_max 0 (py_min 1 score);
           analysis := result;
           recommendations := _extract_recommendations result |}
      else unavailable
  | None => unavailable
  end.

Definition bullet (msg : string) : string := "- " ++ msg.

Definition analyze_commit_quality (self : AgileRepositoryAnalyzer)
    (commit_messages : list string) : qualitative :=
  if bool_decide (commit_messages = []) || negb (enabled self) then unavailable
  else
    let messages_text := join (String "010" "") (map bullet (take 10 commit_messages)) in
    let prompt_messages := [
      {| role := "system";
         content := "Analise as mensagens de commit para práticas ágeis. "
                    ++ "Forneça: 1) Pontuação 0.0-1.0 2) Análise breve 3) 2 recomendações" |};
      {| role := "user";
         content := "Mensagens de commit:" ++ String "010" messages_text |} ] in
    of_reply (_call_openai self prompt_messages 200).

Definition analyze_project_structure (self : AgileRepositoryAnalyzer)
    (file_structure : list string) (readme_content : string) : qualitative :=
  if negb (enabled self) then unavailable
  else
    let structure_text := join (String "010" "") (take 15 file_structure) in
    let readme_preview :=
      if truthy readme_content then slice_to 300 readme_content else "Sem README" in
    let prompt_messages := [
      {| role := "system";
         content := "Analise estrutura do projeto para práticas ágeis. "
                    ++ "Forneça: 1) Pontuação 0.0-1.0 2) Análise breve 3) 2 recomendações" |};
      {| role := "user";
         content := "Estrutura:" ++ String "010" structure_text
                    ++ String "010" (String "010" "README:")
                    ++ String "010" readme_preview |} ] in
    of_reply (_call_openai self prompt_messages 200).

(** *** Metrics *)

(** [min(1.0, raw / ceiling)], the form of every sub-score. *)
Definition normalize (raw ceiling : Q) : Q := py_min 1 (raw / ceiling).

(** What the GitHub API yields for one repository.  A field is [None]
    when fetching it raises. *)
Record repository := {
  full_name : string;
  created_at : datetime;
  commits_since_creation : option nat;
  issue_authors : option (list (option string));
  pull_authors : option (list (option string));
  explored_paths : option (list string);
  stargazers_count : option Z;
  forks_count : option Z;
  watchers_count : option Z;
  recent_messages : option (list string);
  readme : option string
}.

Record velocity := {
  total_commits : Z;
  weeks_since_creation : Q;
  commits_per_week : Q;
  velocity_score : Q
}.

Definition calculate_development_velocity (repo : repository)
    (created_date now : datetime) : velocity :=
  match commits_since_creation repo with
  | Some n =>
      let total_commits := Z.of_nat n in
      let weeks_since_creation :=
        py_max 1 (inject_Z (timedelta_days now created_date) / 7) in
      let velocity := (inject_Z total_commits / weeks_since_creation)%Q in
      {| total_commits := total_commits;
         weeks_since_creation := py_round weeks_since_creation 1;
         commits_per_week := py_round velocity 2;
         velocity_score := normalize velocity 5 |}
  | None =>
      {| total_commits := 0; weeks_since_creation := 0;
         commits_per_week := 0; velocity_score := 0 |}
  end.

Record collaboration := {
  total_issues : Z;
  total_prs : Z;
  unique_contributors : Z;
  collaboration_score : Q
}.

(** The lower-cased logins of the authors that have one. *)
Definition logins (authors : list (option string)) : gset string :=
  list_to_set (omap (fun a => match a with
                              | Some login => if truthy login then Some (lower login) else None
                              | None => None
                              end) authors).

Definition calculate_collaboration_index (repo : repository) : collaboration :=
  match issue_authors repo, pull_authors repo with
  | Some issues, Some prs =>
      let unique_contributors := logins issues ∪ logins prs in
      let total_issues := Z.of_nat (length issues) in
      let total_prs := Z.of_nat (length prs) in
      let total_contributors := Z.of_nat (size unique_contributors) in
      let activity_score := normalize (inject_Z (total_issues + total_prs)) 20 in
      let diversity_score := normalize (inject_Z total_contributors) 5 in
      let collaboration_score := ((activity_score + diversity_score) / 2)%Q in
      {| total_issues := total_issues;
         total_prs := total_prs;
         unique_contributors := total_contributors;
         collaboration_score := py_round collaboration_score 3 |}
  | _, _ =>
      {| total_issues := 0; total_prs := 0; unique_contributors := 0;
         collaboration_score := 0 |}
  end.

Record structure := {
  total_files : Z;
  has_readme : bool;
  has_tests : bool;
  has_ci : bool;
  file_structure : list string;
  structure_score : Q
}.

Definition count_true (flags : list bool) : Z :=
  Z.of_nat (length (filter (fun b => b = true) flags)).

(** [explored_paths] is the list [explore_directory] has collected. *)
Definition analyze_project_structure_metrics (repo : repository) : structure :=
  match explored_paths repo with
  | Some file_structure =>
      let has_readme := existsb (fun f => contains "readme" (lower f)) file_structure in
      let has_gitignore := bool_decide (".gitignore" ∈ file_structure) in
      let has_license := existsb (fun f => contains "license" (lower f)) file_structure in
      let has_tests := existsb (fun f => contains "test" (lower f)) file_structure in
      let has_ci :=
        existsb (fun f => contains ".github" f || contains "ci" (lower f)) file_structure in
      let structure_elements := [has_readme; has_gitignore; has_license; has_tests; has_ci] in
      let structure_score :=
        (inject_Z (count_true structure_elements)
         / inject_Z (Z.of_nat (length structure_elements)))%Q in
      {| total_files := Z.of_nat (length file_structure);
         has_readme := has_readme;
         has_tests := has_tests;
         has_ci := has_ci;
         file_structure := take 15 file_structure;
         structure_score := py_round structure_score 3 |}
  | None =>
      {| total_files := 0; has_readme := false; has_tests := false; has_ci := false;
         file_structure := []; structure_score := 0 |}
  end.

Record engagement := {
  stars : Z;
  forks : Z;
  watchers : Z;
  engagement_score : Q
}.

Definition calculate_community_engagement (repo : repository) : engagement :=
  let stars := default 0%Z (stargazers_count repo) in
  let forks := default 0%Z (forks_count repo) in
  let watchers := default 0%Z (watchers_count repo) in
  let star_score := normalize (inject_Z stars) 10 in
  let fork_score := normalize (inject_Z forks) 5 in
  let watch_score := normalize (inject_Z watchers) 10 in
  let engagement_score := ((star_score + fork_score + watch_score) / 3)%Q in
  {| stars := stars; forks := forks; watchers := watchers;
     engagement_score := py_round engagement_score 3 |}.

(** *** The composite score *)

(** Lines 298-305. *)
Definition final_score_of (velocity collaboration commit_quality structure_quality
                           structure engagement : Q) : Q :=
  (velocity * development_velocity AGILE_METRICS_WEIGHTS
   + collaboration * collaboration_index AGILE_METRICS_WEIGHTS
   + commit_quality * code_quality AGILE_METRICS_WEIGHTS
   + structure_quality * documentation_maturity AGILE_METRICS_WEIGHTS
   + structure * project_structure AGILE_METRICS_WEIGHTS
   + engagement * community_engagement AGILE_METRICS_WEIGHTS)%Q.

(** Lines 307-314. *)
Definition maturity_level_of (final_score : Q) : string :=
  if Qle_bool (8 # 10) final_score then "Excelente"
  else if Qle_bool (6 # 10) final_score then "Maduro"
  else if Qle_bool (4 # 10) final_score then "Em Desenvolvimento"
  else "Iniciante".

Record assessment := {
  repo_name : string;
  final_score : Q;
  maturity_level : string;
  velocity_metrics : velocity;
  collaboration_metrics : collaboration;
  structure_metrics : structure;
  engagement_metrics : engagement;
  ai_commit_analysis : qualitative;
  ai_structure_analysis : qualitative
}.

Definition not_available : qualitative :=
  {| score := 1 # 2; analysis := "IA não disponível"; recommendations := [] |}.

(** [analyze_repository_comprehensive]; [now] is the clock read by
    [calculate_development_velocity].  The [created_since] argument
    only selects the commits fetched for the qualitative analysis,
    which are the [recent_messages] of the repository here. *)
Definition analyze_repository_comprehensive (repo : repository)
    (ai_analyzer : option AgileRepositoryAnalyzer) (now : datetime) : assessment :=
  let velocity_metrics := calculate_development_velocity repo (created_at repo) now in
  let collaboration_metrics := calculate_collaboration_index repo in
  let structure_metrics := analyze_project_structure_metrics repo in
  let engagement_metrics := calculate_community_engagement repo in
  let commit_messages :=
    match recent_messages repo with
    | Some msgs => map strip (filter (fun m => truthy m = true) (take 15 msgs))
    | None => []
    end in
  let readme_content :=
    match recent_messages repo with
    | Some _ => default "" (readme repo)
    | None => ""
    end in
  let '(ai_commit_analysis, ai_structure_analysis) :=
    match ai_analyzer with
    | Some a =>
        if enabled a then
          (analyze_commit_quality a commit_messages,
           analyze_project_structure a (file_structure structure_metrics) readme_content)
        else (not_available, not_available)
    | None => (not_available, not_available)
    end in
  let final_score :=
    final_score_of (velocity_score velocity_metrics)
                   (collaboration_score collaboration_metrics)
                   (score ai_commit_analysis)
                   (score ai_structure_analysis)
                   (structure_score structure_metrics)
                   (engagement_score engagement_metrics) in
  {| repo_name := full_name repo;
     final_score := py_round final_score 3;
     maturity_level := maturity_level_of final_score;
     velocity_metrics := velocity_metrics;
     collaboration_metrics := collaboration_metrics;
     structure_metrics := structure_metrics;
     engagement_metrics := engagement_metrics;
     ai_commit_analysis := ai_commit_analysis;
     ai_structure_analysis := ai_structure_analysis |}.

End Repos.

(** ** Binary floating point

    A Python [float] is an IEEE 754 binary64 number.  Here a finite
    float is the rational it denotes, and an operation on floats is the
    exact operation followed by rounding to the nearest float, ties to
    the even significand.  Overflow is not modelled: the definitions
    are for magnitudes below [2^1024]. *)

Module Binary64.

(** The integer part of the binary logarithm of [q], for [0 < q]. *)
Definition log2_floor (q : Q) : Z :=
  let k := (Z.log2 (Qnum q) - Z.log2 (Zpos (Qden q)))%Z in
  if Qle_bool (2 ^ k) q then k else (k - 1)%Z.

(** The exponent of the unit in the last place of the floats near [q]:
    53 significant bits, and the fixed spacing [2^-1074] of the
    subnormal range. *)
Definition ulp_exponent (q : Q) : Z := Z.max (-1074) (log2_floor (Qabs q) - 52).

(** The float nearest to [q]. *)
Definition b64 (q : Q) : Q :=
  if Qeq_bool q 0 then 0
  else let ulp := (2 ^ ulp_exponent q)%Q in
       Qred (inject_Z (round_half_even (q / ulp)) * ulp).

(** Half the spacing [2^-52] of the floats between 1 and 2: the most
    that rounding moves a number below 2. *)
Definition half_ulp : Q := 1 # 9007199254740992.

(** [a + b] and [a * b] on floats. *)
Definition add (a b : Q) : Q := b64 (a + b).
Definition mul (a b : Q) : Q := b64 (a * b).

(** [round(x, ndigits)] of a float [x]: the decimal nearest to the
    exact value of [x], then the float nearest to that decimal. *)
Definition round (x : Q) (ndigits : nat) : Q := b64 (py_round x ndigits).

End Binary64.

(** ** [aval-repos-novos.py]: the composite score in binary64 arithmetic

    Lines 298-320 on the six sub-scores as the floats they are. *)

Module Composite64.

Import Binary64.

(** The float of a weight of [AGILE_METRICS_WEIGHTS]. *)
Definition weight (w : Repos.weight_table -> Q) : Q := b64 (w Repos.AGILE_METRICS_WEIGHTS).

(** Lines 298-305: products and sums from left to right. *)
Definition final_score (velocity collaboration commit_quality structure_quality
                        structure engagement : Q) : Q :=
  add (add (add (add (add (mul velocity (weight Repos.development_velocity))
                          (mul collaboration (weight Repos.collaboration_index)))
                     (mul commit_quality (weight Repos.code_quality)))
                (mul structure_quality (weight Repos.documentation_maturity)))
           (mul structure (weight Repos.project_structure)))
      (mul engagement (weight Repos.community_engagement)).

(** Lines 307-314: the thresholds are the floats of 0.8, 0.6 and 0.4. *)
Definition maturity_level (final_score : Q) : string :=
  if Qle_bool (b64 (8 # 10)) final_score then "Excelente"
  else if Qle_bool (b64 (6 # 10)) final_score then "Maduro"
  else if Qle_bool (b64 (4 # 10)) final_score then "Em Desenvolvimento"
  else "Iniciante".

(** Line 319: [round(final_score, 3)]. *)
Definition reported_score (final_score : Q) : Q := round final_score 3.

(** A bound, [2^-49], on what the eleven roundings of lines 298-305
    and the roundings of the six weights add up to. *)
Definition sum_error : Q := 1 # 562949953421312.

End Composite64.


(** ** [aval-usuario.py]: commit frequency and the per-user report *)

Module Usuario.

Record commit := {
  commit_sha : string;
  commit_message : string;
  commit_date : datetime;
  commit_files_count : Z;
  commit_additions : Z;
  commit_deletions : Z
}.

(** [analyze_commit_frequency(commits_data, since_date)].  [now_dt] is
    the value of [dt.datetime.now(dt.timezone.utc)] read by the call;
    [since_date] is the parsed date of the [--since] string. *)
Record issue := {
  issue_number : Z;
  issue_title : string;
  issue_body : string;
  issue_state : string;
  issue_created_at : datetime;
  issue_comments_count : Z;
  issue_labels : list string
}.

Record pull := {
  pr_number : Z;
  pr_title : string;
  pr_body : string;
  pr_state : string;
  pr_created_at : datetime;
  pr_merged : bool;
  pr_comments_count : Z;
  pr_review_comments_count : Z;
  pr_additions : Z;
  pr_deletions : Z;
  pr_changed_files : Z
}.

Record review := {
  review_type : string;
  review_body : string;
  review_created_at : datetime;
  review_pr_number : Z;
  review_path : option string
}.

Record stats := {
  commits_count : Z;
  issues_count : Z;
  prs_count : Z;
  reviews_count : Z;
  lines_added : Z;
  lines_removed : Z;
  files_changed : Z
}.

(** The dict built by [collect_user_data]. *)
Record user_data := {
  commits : list commit;
  issues : list issue;
  prs : list pull;
  reviews : list review;
  user_stats : stats
}.

(** The dict every qualitative analysis returns. *)
Record qualitative := {
  score : Q;
  analysis : string;
  recommendations : list string
}.

(** [DetailedAgileAnalyzer].  [client messages max_tokens] is the
    content of the first choice of the chat completion, [None] when
    the request raises. *)
Record DetailedAgileAnalyzer := {
  enabled : bool;
  client : list chat_message -> Z -> option string
}.

Definition _call_openai (self : DetailedAgileAnalyzer)
    (messages : list chat_message) (max_tokens : Z) : option string :=
  if negb (enabled self) then None
  else strip <$> client self messages max_tokens.

Definition keywords : list string := ["recomend"; "sugest"; "melhor"; "deve"].

Definition mentions_keyword (line : string) : bool :=
  existsb (fun keyword => contains keyword (lower line)) keywords.

(** The score read from the reply (lines 107-109, 166-168, 224-226). *)
Definition extract_score (result : string) : Q :=
  let score := match search_number result with
               | Some g => float_of_match g
               | None => 1 # 2
               end in
  py_max 0 (py_min 1 score).

(** The recommendation lines of the reply (lines 112-116, 170-174,
    228-232). *)
Definition extract_lines (result : string) : list string :=
  map (fun line => strip (strip_chars "- " line))
      (filter (fun line => mentions_keyword line = true) (split "010" result)).

Definition or_default (recommendations default : list string) : list string :=
  match recommendations with
  | [] => default
  | _ => take 3 recommendations
  end.

Definition bullet (msg : string) : string := "- " ++ msg.

Definition analyze_commits_detailed (self : DetailedAgileAnalyzer)
    (commits_data : list commit) : qualitative :=
  match commits_data with
  | [] => {| score := 1 # 2; analysis := "Nenhum commit encontrado";
             recommendations := [] |}
  | _ =>
    let messages := filter (fun m => truthy m = true) (map commit_message commits_data) in
    if negb (enabled self) || bool_decide (messages = []) then
      {| score := 1 # 2;
         analysis := "Análise básica: " ++ pretty (length messages) ++ " commits encontrados";
         recommendations := ["Configure OpenAI para análise detalhada"] |}
    else
      let messages_text := join (String "010" "") (map bullet (take 10 messages)) in
      let prompt_messages := [
        {| role := "system";
           content := "Você é um especialista em práticas ágeis e qualidade de commits. "
                      ++ "Analise as mensagens de commit e forneça: "
                      ++ "1) Uma pontuação de 0.0 a 1.0 "
                      ++ "2) Análise detalhada dos pontos fortes e fracos "
                      ++ "3) 3 recomendações específicas para melhoria" |};
        {| role := "user";
           content := "Analise estas mensagens de commit:" ++ String "010" messages_text |} ] in
      match _call_openai self prompt_messages 300 with
      | Some result =>
          if truthy result then
            {| score := extract_score result;
               analysis := result;
               recommendations := or_default (extract_lines result) [
                 "Melhore a clareza das mensagens de commit";
                 "Use formato convencional (feat:, fix:, docs:)";
                 "Descreva o 'porquê' além do 'o quê'" ] |}
          else {| score := 1 # 2; analysis := "Falha na análise de IA"; recommendations := [] |}
      | None => {| score := 1 # 2; analysis := "Falha na análise de IA"; recommendations := [] |}
      end
  end.

Definition issue_entry (i : issue) : string :=
  "Título: " ++ issue_title i ++ String "010" "Descrição: "
  ++ slice_to 500 (issue_body i) ++ "...".

Definition analyze_issues_detailed (self : DetailedAgileAnalyzer)
    (issues_data : list issue) : qualitative :=
  match issues_data with
  | [] => {| score := 1 # 2; analysis := "Nenhuma issue encontrada";
             recommendations := [] |}
  | _ =>
    if negb (enabled self) then
      {| score := 1 # 2;
         analysis := "Análise básica: " ++ pretty (length issues_data) ++ " issues encontradas";
         recommendations := ["Configure OpenAI para análise detalhada"] |}
    else
      let issues_text :=
        join (String "010" "---" ++ String "010" "") (map issue_entry (take 5 issues_data)) in
      let prompt_messages := [
        {| role := "system";
           content := "Você é um especialista em histórias de usuário ágeis. "
                      ++ "Analise as issues e forneça: "
                      ++ "1) Pontuação de 0.0 a 1.0 "
                      ++ "2) Análise da qualidade das histórias "
                      ++ "3) Recomendações específicas" |};
        {| role := "user";
           content := "Analise estas issues/histórias:" ++ String "010" issues_text |} ] in
      match _call_openai self prompt_messages 300 with
      | Some result =>
          if truthy result then
            {| score := extract_score result;
               analysis := result;
               recommendations := or_default (extract_lines result) [
                 "Adicione critérios de aceitação claros";
                 "Use formato 'Como... Eu quero... Para que...'";
                 "Inclua mais detalhes técnicos" ] |}
          else {| score := 1 # 2; analysis := "Falha na análise de IA"; recommendations := [] |}
      | None => {| score := 1 # 2; analysis := "Falha na análise de IA"; recommendations := [] |}
      end
  end.

Definition review_entry (r : review) : string :=
  "- " ++ slice_to 200 (review_body r) ++ "...".

Definition analyze_reviews_detailed (self : DetailedAgileAnalyzer)
    (reviews_data : list review) : qualitative :=
  match reviews_data with
  | [] => {| score := 1 # 2; analysis := "Nenhuma revisão encontrada";
             recommendations := [] |}
  | _ =>
    if negb (enabled self) then
      {| score := 1 # 2;
         analysis := "Análise básica: " ++ pretty (length reviews_data) ++ " revisões encontradas";
         recommendations := ["Configure OpenAI para análise detalhada"] |}
    else
      let reviews_text :=
        join (String "010" "")
             (map review_entry
                  (filter (fun r => truthy (review_body r) = true) (take 8 reviews_data))) in
      let prompt_messages := [
        {| role := "system";
           content := "Você é um especialista em revisão de código. "
                      ++ "Analise os comentários de revisão e forneça: "
                      ++ "1) Pontuação de 0.0 a 1.0 "
                      ++ "2) Análise da qualidade das revisões "
                      ++ "3) Recomendações para melhorar" |};
        {| role := "user";
           content := "Analise estes comentários de revisão:" ++ String "010" reviews_text |} ] in
      match _call_openai self prompt_messages 300 with
      | Some result =>
          if truthy result then
            {| score := extract_score result;
               analysis := result;
               recommendations := or_default (extract_lines result) [
                 "Forneça feedback mais específico";
                 "Sugira melhorias construtivas";
                 "Foque em qualidade, segurança e performance" ] |}
          else {| score := 1 # 2; analysis := "Falha na análise de IA"; recommendations := [] |}
      | None => {| score := 1 # 2; analysis := "Falha na análise de IA"; recommendations := [] |}
      end
  end.

(** The [ai_analysis] dict assembled by [main]. *)
Record ai_results := {
  ai_commits : qualitative;
  ai_issues : qualitative;
  ai_reviews : qualitative
}.

Definition disabled : qualitative :=
  {| score := 1 # 2; analysis := "IA desabilitada"; recommendations := [] |}.

(** Lines 723-727 of [main]; [ai_analyzer] is [None] under [--disable-ai]. *)
Definition run_ai_analysis (ai_analyzer : option DetailedAgileAnalyzer)
    (data : user_data) : ai_results :=
  match ai_analyzer with
  | Some a =>
      {| ai_commits := analyze_commits_detailed a (commits data);
         ai_issues := analyze_issues_detailed a (issues data);
         ai_reviews := analyze_reviews_detailed a (reviews data) |}
  | None =>
      {| ai_commits := disabled; ai_issues := disabled; ai_reviews := disabled |}
  end.

Definition analyze_commit_frequency
    (commits_data : list commit) (since_date : date) (now_dt : datetime)
  : result (gmap string pyval) :=
  match commits_data with
  | [] =>
      Ok (list_to_map [
        ("commits_per_week", PFloat 0);
        ("weeks_inactive", PInt 0);
        ("frequency_alert", PStr "Nenhum commit encontrado no período");
        ("alert_level", PStr "critical")])
  | _ =>
      let since_dt := midnight since_date in
      let weeks_in_period := Z.max 1 (timedelta_days now_dt since_dt / 7) in
      let commits_total := Z.of_nat (length commits_data) in
      commits_per_week ← truediv (inject_Z commits_total) (inject_Z weeks_in_period);
      let '(weeks_inactive, alert_level, frequency_alert) :=
        if (commits_total =? 0)%Z then
          (weeks_in_period, "critical",
           "CRÍTICO: " ++ pretty weeks_in_period ++ " semanas sem nenhum commit")
        else
          let weeks_inactive := Z.max 0 (weeks_in_period - commits_total) in
          if Qltb commits_per_week 1 then
            if Qle_bool (inject_Z weeks_in_period * (7 # 10)) (inject_Z weeks_inactive) then
              (weeks_inactive, "high",
               "ALERTA: ~" ++ format_f 0 (inject_Z weeks_inactive)
               ++ " semanas inativas de " ++ pretty weeks_in_period ++ " semanas")
            else if Qle_bool (inject_Z weeks_in_period * (4 # 10)) (inject_Z weeks_inactive) then
              (weeks_inactive, "medium",
               "Atenção: ~" ++ format_f 0 (inject_Z weeks_inactive)
               ++ " semanas com baixa atividade de " ++ pretty weeks_in_period ++ " semanas")
            else if Qltb commits_per_week (1 # 2) then
              (weeks_inactive, "low",
               "Frequência baixa: " ++ format_f 1 commits_per_week ++ " commits/semana")
            else
              (weeks_inactive, "normal",
               "Frequência adequada: " ++ format_f 1 commits_per_week ++ " commits/semana")
          else
            (weeks_inactive, "good",
             "Boa frequência: " ++ format_f 1 commits_per_week ++ " commits/semana")
      in
      Ok (list_to_map [
        ("commits_per_week", PFloat (py_round commits_per_week 2));
        ("weeks_inactive", PInt weeks_inactive);
        ("weeks_total", PInt weeks_in_period);
        ("frequency_alert", PStr frequency_alert);
        ("alert_level", PStr alert_level)])
  end.

(** *** The Markdown report

    The report is represented by its interpolated values, labelled, in
    the order Python evaluates them.  The fixed Markdown text between
    them and the rendering of numbers ([.2f], [:,]) are left out. *)

Definition report := list (string * pyval).

Definition alert_emoji_of (alert_level : pyval) : string :=
  match alert_level with
  | PStr "critical" => "🚨"
  | PStr "high" => "⚠️"
  | PStr "medium" => "⚠️"
  | PStr "low" => "📊"
  | PStr "normal" => "✅"
  | PStr "good" => "🎯"
  | _ => "📊"
  end.

Definition frequency_recommendations (alert_level : pyval) : list string :=
  match alert_level with
  | PStr "critical" => [
      "🚨 URGENTE: Estabeleça uma rotina de commits diária";
      "📅 Defina metas semanais mínimas de commits";
      "🤝 Considere pair programming para aumentar atividade" ]
  | PStr "high" => [
      "⚠️ Melhore a consistência com commits mais frequentes";
      "📊 Estabeleça uma meta de pelo menos 1 commit por semana";
      "🔄 Revise seu workflow de desenvolvimento" ]
  | PStr "medium" => [
      "📈 Aumente gradualmente a frequência de commits";
      "⏰ Considere commits menores e mais frequentes";
      "📝 Documente melhor seu progresso diário" ]
  | PStr "low" => [
      "✅ Mantenha a frequência atual";
      "🎯 Considere commits ainda mais frequentes para melhor rastreamento";
      "📊 Continue monitorando sua consistência" ]
  | PStr "normal" => [
      "✅ Boa frequência de commits";
      "🎯 Mantenha a consistência atual";
      "📈 Considere pequenos ajustes para otimizar" ]
  | PStr "good" => [
      "🎯 Excelente frequência de commits!";
      "✅ Continue com a consistência atual";
      "🌟 Sirva de exemplo para outros desenvolvedores" ]
  | _ => []
  end.

(** [for i, rec in enumerate(recs, 1)] *)
Definition numbered (recs : list string) : report :=
  imap (fun i rec => (pretty (S i), PStr rec)) recs.

(** [s.title()] of a one-word lower-case state such as [open]. *)
Definition title (s : string) : string :=
  match s with
  | "" => ""
  | String c s' =>
      String (if (97 <=? code c)%N && (code c <=? 122)%N
              then ascii_of_N (code c - 32) else c) (lower s')
  end.

Definition commit_line (c : commit) : string * pyval :=
  (strftime_ymd (commit_date c), PStr (slice_to 100 (commit_message c))).

Definition issue_line (i : issue) : report :=
  [("#", PInt (issue_number i)); ("state", PStr (issue_state i));
   ("title", PStr (issue_title i))].

Definition pr_line (pr : pull) : report :=
  let status := if pr_merged pr then "Merged" else title (pr_state pr) in
  [("#", PInt (pr_number pr)); ("status", PStr status); ("title", PStr (pr_title pr))].

(** [generate_detailed_report].  [now_dt] is the UTC clock read by the
    frequency analysis, [now_local] the local clock of [Gerado em];
    the period is shown in the zero-padded spelling of [since_date]. *)
Definition generate_detailed_report
    (username repo_name : string) (data : user_data) (ai_analysis : ai_results)
    (since_date : date) (now_dt now_local : datetime) : result report :=
  let st := user_stats data in
  frequency_analysis ← analyze_commit_frequency (commits data) since_date now_dt;
  alert_level ← getitem frequency_analysis "alert_level";
  let alert_emoji := alert_emoji_of alert_level in
  (* Resumo Executivo *)
  frequency_alert ← getitem frequency_analysis "frequency_alert";
  commits_per_week ← getitem frequency_analysis "commits_per_week";
  weeks_total ← getitem frequency_analysis "weeks_total";
  weeks_inactive ← getitem frequency_analysis "weeks_inactive";
  let summary : report := [
    ("Usuário", PStr username);
    ("Repositório", PStr repo_name);
    ("Período", PStr (strftime_ymd (midnight since_date)));
    ("Gerado em", PStr (strftime_ymd_hms now_local));
    ("Commits", PInt (commits_count st));
    ("Issues", PInt (issues_count st));
    ("Pull Requests", PInt (prs_count st));
    ("Comentários de Revisão", PInt (reviews_count st));
    ("Linhas Adicionadas", PInt (lines_added st));
    ("Linhas Removidas", PInt (lines_removed st));
    ("Arquivos Modificados", PInt (files_changed st));
    (alert_emoji, frequency_alert);
    ("Commits por Semana", commits_per_week);
    ("Semanas no Período", weeks_total);
    ("Semanas Estimadas Inativas", weeks_inactive);
    ("Qualidade de Commits", PFloat (score (ai_commits ai_analysis)));
    ("Qualidade de Issues", PFloat (score (ai_issues ai_analysis)));
    ("Qualidade de Revisões", PFloat (score (ai_reviews ai_analysis)));
    ("Pontuação", PFloat (score (ai_commits ai_analysis)));
    ("Análise de Commits", PStr (analysis (ai_commits ai_analysis))) ] in
  let commits_part : report :=
    (numbered (recommendations (ai_commits ai_analysis))
     ++ map commit_line (take 5 (commits data)))%list in
  let issues_part : report :=
    ([("Pontuação", PFloat (score (ai_issues ai_analysis)));
      ("Análise de Issues", PStr (analysis (ai_issues ai_analysis)))]
     ++ numbered (recommendations (ai_issues ai_analysis))
     ++ concat (map issue_line (take 5 (issues data))))%list in
  (* Análise de Pull Requests *)
  adds_per_pr ← truediv (inject_Z (lines_added st)) (inject_Z (Z.max 1 (prs_count st)));
  files_per_pr ← truediv (inject_Z (files_changed st)) (inject_Z (Z.max 1 (prs_count st)));
  let prs_part : report :=
    ([("Total", PInt (prs_count st));
      ("Média de Adições por PR", PFloat adds_per_pr);
      ("Média de Arquivos por PR", PFloat files_per_pr)]
     ++ concat (map pr_line (take 5 (prs data))))%list in
  let reviews_part : report :=
    ([("Pontuação", PFloat (score (ai_reviews ai_analysis)));
      ("Análise de Revisões de Código", PStr (analysis (ai_reviews ai_analysis)))]
     ++ numbered (recommendations (ai_reviews ai_analysis)))%list in
  (* Análise de Frequência e Consistência *)
  frequency_alert' ← getitem frequency_analysis "frequency_alert";
  commits_per_week' ← getitem frequency_analysis "commits_per_week";
  weeks_total' ← getitem frequency_analysis "weeks_total";
  weeks_inactive' ← getitem frequency_analysis "weeks_inactive";
  wt ← getitem frequency_analysis "weeks_total";
  wi ← getitem frequency_analysis "weeks_inactive";
  wt' ← getitem frequency_analysis "weeks_total";
  active ← truediv (as_Q wt - as_Q wi) (as_Q wt');
  let consistency : report := [
    (alert_emoji, frequency_alert');
    ("Frequência Real", commits_per_week');
    ("Período Analisado", weeks_total');
    ("Semanas Inativas (estimativa)", weeks_inactive');
    ("Taxa de Atividade", PFloat (active * 100)) ] in
  alert_level' ← getitem frequency_analysis "alert_level";
  let frequency_part : report := numbered (frequency_recommendations alert_level') in
  (* Métricas de Produtividade *)
  commits_per_week'' ← getitem frequency_analysis "commits_per_week";
  w1 ← getitem frequency_analysis "weeks_total";
  m1 ← truediv (as_Q w1) 4;
  issues_per_month ← truediv (inject_Z (issues_count st)) (py_max 1 m1);
  w2 ← getitem frequency_analysis "weeks_total";
  m2 ← truediv (as_Q w2) 4;
  prs_per_month ← truediv (inject_Z (prs_count st)) (py_max 1 m2);
  w3 ← getitem frequency_analysis "weeks_total";
  m3 ← truediv (as_Q w3) 4;
  reviews_per_month ← truediv (inject_Z (reviews_count st)) (py_max 1 m3);
  add_remove ← truediv (inject_Z (lines_added st)) (inject_Z (Z.max 1 (lines_removed st)));
  lines_per_commit ← truediv (inject_Z (lines_added st)) (inject_Z (Z.max 1 (commits_count st)));
  let productivity : report := [
    ("Commits/Semana", commits_per_week'');
    ("Issues/Mês", PFloat issues_per_month);
    ("PRs/Mês", PFloat prs_per_month);
    ("Revisões/Mês", PFloat reviews_per_month);
    ("Razão Adição/Remoção", PFloat add_remove);
    ("Linhas por Commit", PFloat lines_per_commit) ] in
  Ok (summary ++ commits_part ++ issues_part ++ prs_part ++ reviews_part
      ++ consistency ++ frequency_part ++ productivity)%list.

End Usuario.

(** ** [aval-usuario.py]: collecting the data of one user *)

Module Collect.

Import Usuario.

Definition SAMPLE_SIZE : nat := 20.

(** The outcome of reading an attribute that the API loads on demand:
    a value, no value ([None] or no such attribute), or an exception. *)
Inductive fetched (A : Type) : Type :=
| Got (a : A)
| Missing
| Failed.
Arguments Got {A} a.
Arguments Missing {A}.
Arguments Failed {A}.

(** [commit.commit]: the message and the date of the author, if any. *)
Record git_commit := {
  git_message : string;
  git_author : option datetime
}.

(** An element of [repo.get_commits(...)]: [api_files] counts the
    entries of [commit.files], [api_stats] holds the additions and
    deletions of [commit.stats]. *)
Record api_commit := {
  api_sha : string;
  api_git : option git_commit;
  api_files : fetched nat;
  api_stats : fetched (Z * Z)
}.

Record api_issue := {
  api_issue_number : Z;
  api_issue_title : string;
  api_issue_body : option string;
  api_issue_state : string;
  api_issue_created_at : datetime;
  api_issue_comments : Z;
  api_issue_labels : list string;
  api_issue_is_pull_request : bool
}.

Record api_comment := {
  api_comment_user : option string;
  api_comment_body : string;
  api_comment_created_at : datetime;
  api_comment_path : option string
}.

(** A paginated list of comments: the elements it yields, and whether
    it raises [GithubException] after them. *)
Record comment_stream := {
  yielded : list api_comment;
  raises : bool
}.

Record api_pull := {
  api_pull_number : Z;
  api_pull_title : string;
  api_pull_body : option string;
  api_pull_state : string;
  api_pull_created_at : datetime;
  api_pull_merged : bool;
  api_pull_comments : Z;
  api_pull_review_comments : Z;
  api_pull_additions : Z;
  api_pull_deletions : Z;
  api_pull_changed_files : Z;
  api_pull_user : option string;
  get_issue_comments : comment_stream;
  get_review_comments : comment_stream
}.

(** What the four requests of [collect_user_data] yield.  A request that
    raises [GithubException] part-way is the list of what it yielded
    before. *)
Record api_repo := {
  get_commits : list api_commit;
  get_issues : list api_issue;
  get_pulls : list api_pull;
  get_pulls_for_reviews : list api_pull
}.

Definition with_stats (data : user_data) (st : stats) : user_data :=
  {| commits := commits data; issues := issues data; prs := prs data;
     reviews := reviews data; user_stats := st |}.

Definition empty_data : user_data :=
  {| commits := []; issues := []; prs := []; reviews := [];
     user_stats := {| commits_count := 0; issues_count := 0; prs_count := 0;
                      reviews_count := 0; lines_added := 0; lines_removed := 0;
                      files_changed := 0 |} |}.

(** Lines 273-294: the entry of one commit and the totals after it. *)
Definition commit_entry (c : api_commit) (g : git_commit) (date : datetime)
    (st : stats) : commit * stats :=
  let entry files_count additions deletions :=
    {| commit_sha := api_sha c; commit_message := git_message g; commit_date := date;
       commit_files_count := files_count; commit_additions := additions;
       commit_deletions := deletions |} in
  match api_files c with
  | Failed => (entry 0 0 0, st)%Z
  | files =>
      let files_count := match files with Got n => Z.of_nat n | _ => 0%Z end in
      match api_stats c with
      | Got (additions, deletions) =>
          (entry files_count additions deletions,
           {| commits_count := commits_count st; issues_count := issues_count st;
              prs_count := prs_count st; reviews_count := reviews_count st;
              lines_added := lines_added st + additions;
              lines_removed := lines_removed st + deletions;
              files_changed := files_changed st + files_count |})%Z
      | _ => (entry files_count 0 0, st)%Z
      end
  end.

(** Lines 269-300: the loop over the commits of the user. *)
Fixpoint collect_commits (stream : list api_commit) (data : user_data) : user_data :=
  match stream with
  | [] => data
  | c :: rest =>
      match api_git c with
      | Some g =>
          match git_author g with
          | Some date =>
              let '(commit_data, st) := commit_entry c g date (user_stats data) in
              let data' :=
                {| commits := (commits data ++ [commit_data])%list;
                   issues := issues data; prs := prs data; reviews := reviews data;
                   user_stats :=
                     {| commits_count := commits_count st + 1;
                        issues_count := issues_count st; prs_count := prs_count st;
                        reviews_count := reviews_count st; lines_added := lines_added st;
                        lines_removed := lines_removed st;
                        files_changed := files_changed st |} |}%Z in
              if (SAMPLE_SIZE <=? length (commits data'))%nat then data'
              else collect_commits rest data'
          | None => collect_commits rest data
          end
      | None => collect_commits rest data
      end
  end.

Definition issue_entry_of (i : api_issue) : issue :=
  {| issue_number := api_issue_number i;
     issue_title := api_issue_title i;
     issue_body := default "" (api_issue_body i);
     issue_state := api_issue_state i;
     issue_created_at := api_issue_created_at i;
     issue_comments_count := api_issue_comments i;
     issue_labels := api_issue_labels i |}.

(** Lines 308-324: the loop over the issues created by the user. *)
Fixpoint collect_issues (stream : list api_issue) (data : user_data) : user_data :=
  match stream with
  | [] => data
  | i :: rest =>
      if api_issue_is_pull_request i then collect_issues rest data
      else
        let st := user_stats data in
        let data' :=
          {| commits := commits data;
             issues := (issues data ++ [issue_entry_of i])%list;
             prs := prs data; reviews := reviews data;
             user_stats :=
               {| commits_count := commits_count st;
                  issues_count := issues_count st + 1; prs_count := prs_count st;
                  reviews_count := reviews_count st; lines_added := lines_added st;
                  lines_removed := lines_removed st;
                  files_changed := files_changed st |} |}%Z in
        if (SAMPLE_SIZE <=? length (issues data'))%nat then data'
        else collect_issues rest data'
  end.

(** [user and user.login.lower() == username.lower()] *)
Definition written_by (username : string) (user : option string) : bool :=
  match user with
  | Some login => String.eqb (lower login) (lower username)
  | None => false
  end.

Definition pull_entry_of (pr : api_pull) : pull :=
  {| pr_number := api_pull_number pr;
     pr_title := api_pull_title pr;
     pr_body := default "" (api_pull_body pr);
     pr_state := api_pull_state pr;
     pr_created_at := api_pull_created_at pr;
     pr_merged := api_pull_merged pr;
     pr_comments_count := api_pull_comments pr;
     pr_review_comments_count := api_pull_review_comments pr;
     pr_additions := api_pull_additions pr;
     pr_deletions := api_pull_deletions pr;
     pr_changed_files := api_pull_changed_files pr |}.

(** Lines 331-351: the loop over the pull requests of the user. *)
Fixpoint collect_pulls (username : string) (stream : list api_pull)
    (data : user_data) : user_data :=
  match stream with
  | [] => data
  | pr :: rest =>
      if written_by username (api_pull_user pr) then
        let st := user_stats data in
        let data' :=
          {| commits := commits data; issues := issues data;
             prs := (prs data ++ [pull_entry_of pr])%list;
             reviews := reviews data;
             user_stats :=
               {| commits_count := commits_count st;
                  issues_count := issues_count st; prs_count := prs_count st + 1;
                  reviews_count := reviews_count st; lines_added := lines_added st;
                  lines_removed := lines_removed st;
                  files_changed := files_changed st |} |}%Z in
        if (SAMPLE_SIZE <=? length (prs data'))%nat then data'
        else collect_pulls username rest data'
      else collect_pulls username rest data
  end.

(** One of the two inner loops of lines 361-381 over the comments a
    stream yields; [with_path] tells the review comments, which carry a
    path, from the general ones. *)
Fixpoint collect_comments (username kind : string) (with_path : bool) (number : Z)
    (comments : list api_comment) (data : user_data) : user_data :=
  match comments with
  | [] => data
  | comment :: rest =>
      if written_by username (api_comment_user comment) then
        let st := user_stats data in
        let entry :=
          {| review_type := kind;
             review_body := api_comment_body comment;
             review_created_at := api_comment_created_at comment;
             review_pr_number := number;
             review_path :=
               if with_path then Some (default "" (api_comment_path comment)) else None |} in
        collect_comments username kind with_path number rest
          {| commits := commits data; issues := issues data; prs := prs data;
             reviews := (reviews data ++ [entry])%list;
             user_stats :=
               {| commits_count := commits_count st;
                  issues_count := issues_count st; prs_count := prs_count st;
                  reviews_count := reviews_count st + 1; lines_added := lines_added st;
                  lines_removed := lines_removed st;
                  files_changed := files_changed st |} |}%Z
      else collect_comments username kind with_path number rest data
  end.

(** Lines 358-387: the loop over all pull requests for the comments of
    the user.  An exception inside a pull request skips the rest of it,
    the size test included. *)
Fixpoint collect_reviews (username : string) (stream : list api_pull)
    (data : user_data) : user_data :=
  match stream with
  | [] => data
  | pr :: rest =>
      let data1 :=
        collect_comments username "pr_comment" false (api_pull_number pr)
          (yielded (get_issue_comments pr)) data in
      if raises (get_issue_comments pr) then collect_reviews username rest data1
      else
        let data2 :=
          collect_comments username "review_comment" true (api_pull_number pr)
            (yielded (get_review_comments pr)) data1 in
        if raises (get_review_comments pr) then collect_reviews username rest data2
        else if (SAMPLE_SIZE <=? length (reviews data2))%nat then data2
        else collect_reviews username rest data2
  end.

(** [collect_user_data] *)
Definition collect_user_data (repo : api_repo) (username : string) : user_data :=
  collect_reviews username (get_pulls_for_reviews repo)
    (collect_pulls username (get_pulls repo)
       (collect_issues (get_issues repo)
          (collect_commits (get_commits repo) empty_data))).

(** Lines 719-731 of [main]: collect, analyse, report. *)
Definition main_report (repo : api_repo) (repo_name username : string)
    (ai_analyzer : option DetailedAgileAnalyzer)
    (since_date : date) (now_dt now_local : datetime) : result report :=
  let data := collect_user_data repo username in
  let ai_analysis := run_ai_analysis ai_analyzer data in
  generate_detailed_report username repo_name data ai_analysis since_date now_dt now_local.

(** A commit of the stream that the loop keeps: it has a commit object
    with an author. *)
Definition usable (c : api_commit) : bool :=
  match api_git c with
  | Some g => match git_author g with Some _ => true | None => false end
  | None => false
  end.

End Collect.

(** ** Auxiliary notions for the properties *)

Module Notions.

(** Every character of [s] satisfies [p]. *)
Fixpoint all_chars (p : ascii -> bool) (s : string) : bool :=
  match s with
  | "" => true
  | String c s' => p c && all_chars p s'
  end.

(** The first character of [s] satisfies [p]. *)
Definition starts_with (p : ascii -> bool) (s : string) : bool :=
  match s with
  | "" => false
  | String c _ => p c
  end.

(** The order of the four maturity levels. *)
Definition tier_rank (level : string) : nat :=
  match level with
  | "Excelente" => 3
  | "Maduro" => 2
  | "Em Desenvolvimento" => 1
  | _ => 0
  end.

Definition sum_Z (l : list Z) : Z := foldr Z.add 0%Z l.

(** The counters and totals of collected data agree with its lists. *)
Definition consistent (d : Usuario.user_data) : Prop :=
  let st := Usuario.user_stats d in
  Usuario.commits_count st = Z.of_nat (length (Usuario.commits d))
  /\ Usuario.issues_count st = Z.of_nat (length (Usuario.issues d))
  /\ Usuario.prs_count st = Z.of_nat (length (Usuario.prs d))
  /\ Usuario.reviews_count st = Z.of_nat (length (Usuario.reviews d))
  /\ Usuario.lines_added st = sum_Z (map Usuario.commit_additions (Usuario.commits d))
  /\ Usuario.lines_removed st = sum_Z (map Usuario.commit_deletions (Usuario.commits d))
  /\ (0 <= Usuario.files_changed st
      <= sum_Z (map Usuario.commit_files_count (Usuario.commits d)))%Z.

(** A weighted sum that is not within [2^-48] of a threshold. *)
Definition tier_margin : Q := 1 # 281474976710656.


(** A reply without any digit. *)
Definition no_digit (s : string) : bool := all_chars (fun c => negb (is_digit c)) s.

(** A text of ASCII characters and accented Latin-1 letters (U+00C0
    to U+00FF, the two bytes 195 and 128 to 191), as Portuguese text
    is: no character of it beyond ASCII is a digit or white space. *)
Fixpoint latin_text (s : string) : bool :=
  match s with
  | "" => true
  | String c s' =>
      if (code c <? 128)%N then latin_text s'
      else if (code c =? 195)%N then
        match s' with
        | String d s'' => is_continuation d && latin_text s''
        | "" => false
        end
      else false
  end.

(** The reply path of a per-user analysis: the service answers, with
    something else than white space, a Latin text without any stem. *)
Definition answers_without_stem (self : Usuario.DetailedAgileAnalyzer) : Prop :=
  Usuario.enabled self = true
  /\ forall messages max_tokens,
       exists reply, Usuario.client self messages max_tokens = Some reply
                     /\ latin_text reply = true
                     /\ truthy (strip reply) = true
                     /\ Usuario.mentions_keyword reply = false.

(** A failed request, or a reply of white space only. *)
Definition blank (reply : option string) : Prop :=
  match reply with
  | Some r => all_chars is_space r = true
  | None => True
  end.

End Notions.

(** ** The specification's wording

  Definitions that follow the words of the specification, to be
  compared with the ones taken from the source. *)

Module Spec.

(** The tier of a score: thresholds read top-down, each inclusive at
    its lower bound. *)
Definition tier (x : Q) : string :=
  if Qle_bool (8 # 10) x then "Excelente"
  else if Qle_bool (6 # 10) x then "Maduro"
  else if Qle_bool (4 # 10) x then "Em Desenvolvimento"
  else "Iniciante".

(** The alert level of a non-zero commit count over [weeks_total] weeks. *)
Definition alert_level (commit_count weeks_total : Z) : string :=
  let commits_per_week := (inject_Z commit_count / inject_Z weeks_total)%Q in
  let weeks_inactive := Z.max 0 (weeks_total - commit_count) in
  if Qle_bool 1 commits_per_week then "good"
  else if Qle_bool ((7 # 10) * inject_Z weeks_total) (inject_Z weeks_inactive) then "high"
  else if Qle_bool ((4 # 10) * inject_Z weeks_total) (inject_Z weeks_inactive) then "medium"
  else if Qltb commits_per_week (1 # 2) then "low"
  else "normal".

End Spec.

(** ** Sample inputs *)

Module Sample.

Definition since : date := {| year := 2024; month := 8; day := 1 |}.

(** Seventy days after [since], in the afternoon. *)
Definition ten_weeks_later : datetime :=
  {| on_date := {| year := 2024; month := 10; day := 10 |}; micros := 54000000000 |}.

(** Seventy-three days after [since]. *)
Definition three_days_more : datetime :=
  {| on_date := {| year := 2024; month := 10; day := 13 |}; micros := 0 |}.

(** Seven days after [since]. *)
Definition one_week_later : datetime :=
  {| on_date := {| year := 2024; month := 8; day := 8 |}; micros := 0 |}.

(** A clock that is behind [since]. *)
Definition a_month_before : datetime :=
  {| on_date := {| year := 2024; month := 7; day := 1 |}; micros := 0 |}.

Definition a_commit : Usuario.commit := {|
  Usuario.commit_sha := "3f2a9c1";
  Usuario.commit_message := "feat: adiciona login";
  Usuario.commit_date := midnight {| year := 2024; month := 9; day := 2 |};
  Usuario.commit_files_count := 2;
  Usuario.commit_additions := 40;
  Usuario.commit_deletions := 3
|}.

Definition no_activity : Usuario.user_data := {|
  Usuario.commits := [];
  Usuario.issues := [];
  Usuario.prs := [];
  Usuario.reviews := [];
  Usuario.user_stats := {|
    Usuario.commits_count := 0; Usuario.issues_count := 0; Usuario.prs_count := 0;
    Usuario.reviews_count := 0; Usuario.lines_added := 0; Usuario.lines_removed := 0;
    Usuario.files_changed := 0 |}
|}.

Definition two_commits : Usuario.user_data := {|
  Usuario.commits := [a_commit; a_commit];
  Usuario.issues := [];
  Usuario.prs := [];
  Usuario.reviews := [];
  Usuario.user_stats := {|
    Usuario.commits_count := 2; Usuario.issues_count := 0; Usuario.prs_count := 0;
    Usuario.reviews_count := 0; Usuario.lines_added := 80; Usuario.lines_removed := 6;
    Usuario.files_changed := 4 |}
|}.

Definition english_reply : string :=
  "Score: 0.75. You should improve test coverage. Also you should add documentation.".

(** An enabled repository analyzer whose service always answers [reply]. *)
Definition answering (reply : string) : Repos.AgileRepositoryAnalyzer :=
  {| Repos.enabled := true; Repos.client := fun _ _ => Some reply |}.

(** A busy repository: 100 commits in ten weeks, 20 issues by five
    authors, no files listed, no stars, forks or watchers. *)
Definition busy_repo : Repos.repository := {|
  Repos.full_name := "unb-mds/exemplo";
  Repos.created_at := midnight since;
  Repos.commits_since_creation := Some 100%nat;
  Repos.issue_authors :=
    Some (repeat (Some "ana") 16 ++ [Some "bia"; Some "caio"; Some "davi"; Some "eva"])%list;
  Repos.pull_authors := Some [];
  Repos.explored_paths := Some [];
  Repos.stargazers_count := Some 0%Z;
  Repos.forks_count := Some 0%Z;
  Repos.watchers_count := Some 0%Z;
  Repos.recent_messages := Some ["feat: adiciona login"];
  Repos.readme := None
|}.

End Sample.

(** ** Further sample inputs *)

Module Inputs.

(** Two repositories that differ only in the letter case of the logins. *)
Definition mixed_case_repo : Repos.repository := {|
  Repos.full_name := "unb-mds/exemplo";
  Repos.created_at := midnight Sample.since;
  Repos.commits_since_creation := Some 12%nat;
  Repos.issue_authors := Some [Some "Ana"; Some "ANA"; None; Some "bia"];
  Repos.pull_authors := Some [Some "Bia"; Some "ana"];
  Repos.explored_paths := Some ["README.md"; "src"; "src/main.py"];
  Repos.stargazers_count := Some 3%Z;
  Repos.forks_count := None;
  Repos.watchers_count := Some 3%Z;
  Repos.recent_messages := Some ["feat: adiciona login"];
  Repos.readme := Some "# Exemplo"
|}.

Definition lower_case_repo : Repos.repository := {|
  Repos.full_name := "unb-mds/exemplo";
  Repos.created_at := midnight Sample.since;
  Repos.commits_since_creation := Some 12%nat;
  Repos.issue_authors := Some [Some "ana"; Some "ana"; None; Some "bia"];
  Repos.pull_authors := Some [Some "bia"; Some "ana"];
  Repos.explored_paths := Some ["README.md"; "src"; "src/main.py"];
  Repos.stargazers_count := Some 3%Z;
  Repos.forks_count := None;
  Repos.watchers_count := Some 3%Z;
  Repos.recent_messages := Some ["feat: adiciona login"];
  Repos.readme := Some "# Exemplo"
|}.

(** An enabled per-user analyzer whose service always answers [reply]. *)
Definition replying (reply : string) : Usuario.DetailedAgileAnalyzer :=
  {| Usuario.enabled := true; Usuario.client := fun _ _ => Some reply |}.

Definition portuguese_reply : string :=
  "Nota: 0.8" ++ String "010" "1. Recomendo mensagens mais claras"
  ++ String "010" "- Deve usar" ++ String "010" "* Sugestão: adicionar testes".

Definition bare_commit (sha : string) : Collect.api_commit :=
  {| Collect.api_sha := sha;
     Collect.api_git :=
       Some {| Collect.git_message := "feat: adiciona login";
               Collect.git_author := Some (midnight Sample.since) |};
     Collect.api_files := Collect.Got 2%nat;
     Collect.api_stats := Collect.Got (40, 3)%Z |}.

(** A commit without author, which the collection skips. *)
Definition orphan_commit : Collect.api_commit :=
  {| Collect.api_sha := "0000000";
     Collect.api_git :=
       Some {| Collect.git_message := "merge"; Collect.git_author := None |};
     Collect.api_files := Collect.Failed;
     Collect.api_stats := Collect.Missing |}.

Definition active_repo : Collect.api_repo :=
  {| Collect.get_commits := [orphan_commit; bare_commit "3f2a9c1"; bare_commit "77aa012"];
     Collect.get_issues := [];
     Collect.get_pulls := [];
     Collect.get_pulls_for_reviews := [] |}.

Definition idle_repo : Collect.api_repo :=
  {| Collect.get_commits := [orphan_commit];
     Collect.get_issues := [];
     Collect.get_pulls := [];
     Collect.get_pulls_for_reviews := [] |}.

End Inputs.

(** * Properties *)

(** ** Arithmetic of the primitives *)

Section Arithmetic.

Local Open Scope Q_scope.

Lemma Qltb_true (a b : Q) : Qltb a b = true <-> a < b.
Proof.
  unfold Qltb. rewrite negb_true_iff, <- not_true_iff_false, Qle_bool_iff.
  split; [apply Qnot_le_lt | apply Qlt_not_le].
Qed.

Lemma Qltb_false (a b : Q) : Qltb a b = false <-> b <= a.
Proof. unfold Qltb. rewrite negb_false_iff. apply Qle_bool_iff. Qed.

Lemma py_min_cases (a b : Q) :
  (b < a /\ py_min a b = b) \/ (a <= b /\ py_min a b = a).
Proof.
  unfold py_min. destruct (Qltb b a) eqn:E.
  - left. split; [by apply Qltb_true | done].
  - right. split; [by apply Qltb_false | done].
Qed.

Lemma py_max_cases (a b : Q) :
  (a < b /\ py_max a b = b) \/ (b <= a /\ py_max a b = a).
Proof.
  unfold py_max. destruct (Qltb a b) eqn:E.
  - left. split; [by apply Qltb_true | done].
  - right. split; [by apply Qltb_false | done].
Qed.

Lemma pow10_pos (n : nat) : 0 < pow10 n.
Proof.
  unfold pow10. change 0 with (inject_Z 0). rewrite <- Zlt_Qlt.
  apply Z.pow_pos_nonneg; lia.
Qed.

Lemma Qfloor_below (q : Q) (b : Z) : q < inject_Z b -> (Qfloor q < b)%Z.
Proof.
  intros H. apply Z.lt_nge. intros Hb.
  apply (Qlt_not_le _ _ H). eapply Qle_trans; [| apply Qfloor_le].
  by rewrite <- Zle_Qle.
Qed.

(** Rounding stays between integer bounds of its argument. *)
Lemma round_half_even_bounds (q : Q) (a b : Z) :
  inject_Z a <= q -> q <= inject_Z b -> (a <= round_half_even q <= b)%Z.
Proof.
  intros Ha Hb.
  assert (Hfa : (a <= Qfloor q)%Z).
  { rewrite <- (Qfloor_Z a). by apply Qfloor_resp_le. }
  assert (Hfb : (Qfloor q <= b)%Z).
  { rewrite <- (Qfloor_Z b). by apply Qfloor_resp_le. }
  unfold round_half_even.
  destruct (Qcompare (q - inject_Z (Qfloor q)) (1 # 2)) eqn:E.
  - destruct (Z.even (Qfloor q)); [lia |].
    apply Qeq_alt in E.
    assert (Qfloor q < b)%Z; [| lia].
    apply Qfloor_below.
    destruct (Qlt_le_dec q (inject_Z b)) as [|Hge]; [done |].
    assert (Hq : q == inject_Z b) by (by apply Qle_antisym).
    assert (Hf : Qfloor q = b) by (rewrite Hq; apply Qfloor_Z).
    rewrite Hf, Hq in E. exfalso. lra.
  - lia.
  - apply Qgt_alt in E.
    assert (Qfloor q < b)%Z; [| lia].
    apply Qfloor_below.
    destruct (Qlt_le_dec q (inject_Z b)) as [|Hge]; [done |].
    assert (Hq : q == inject_Z b) by (by apply Qle_antisym).
    assert (Hf : Qfloor q = b) by (rewrite Hq; apply Qfloor_Z).
    rewrite Hf, Hq in E. exfalso. lra.
Qed.

(** [round(q, n)] of a score is a score. *)
Lemma py_round_unit (q : Q) (n : nat) : 0 <= q <= 1 -> 0 <= py_round q n <= 1.
Proof.
  intros [H0 H1]. unfold py_round. rewrite Qred_correct.
  pose proof (pow10_pos n) as Hp.
  destruct (round_half_even_bounds (q * pow10 n) 0 (10 ^ Z.of_nat n)) as [Hl Hu].
  - change (inject_Z 0) with 0. nra.
  - fold (pow10 n). nra.
  - rewrite Zle_Qle in Hl, Hu. fold (pow10 n) in Hu. change (inject_Z 0) with 0 in Hl.
    split.
    + apply Qle_shift_div_l; [done | lra].
    + apply Qle_shift_div_r; [done | lra].
Qed.

End Arithmetic.

(** ** The repository score *)

Section Composite.

Import Repos.
Local Open Scope Q_scope.

Definition unit_score (x : Q) : Prop := 0 <= x <= 1.


(** What [analyze_repository_comprehensive] returns as score and level. *)
Lemma comprehensive_score_and_level repo ai_analyzer now :
  let r := analyze_repository_comprehensive repo ai_analyzer now in
  let total := final_score_of (velocity_score (velocity_metrics r))
                              (collaboration_score (collaboration_metrics r))
                              (score (ai_commit_analysis r))
                              (score (ai_structure_analysis r))
                              (structure_score (structure_metrics r))
                              (engagement_score (engagement_metrics r)) in
  final_score r = py_round total 3 /\ maturity_level r = maturity_level_of total.
Proof.
  unfold analyze_repository_comprehensive.
  destruct ai_analyzer as [a |]; [destruct (enabled a) |]; done.
Qed.

Lemma weights_sum_to_one :
  development_velocity AGILE_METRICS_WEIGHTS + collaboration_index AGILE_METRICS_WEIGHTS
  + code_quality AGILE_METRICS_WEIGHTS + documentation_maturity AGILE_METRICS_WEIGHTS
  + project_structure AGILE_METRICS_WEIGHTS + community_engagement AGILE_METRICS_WEIGHTS
  == 1.
Proof. reflexivity. Qed.

Lemma weights_nonnegative :
  Forall (fun w => 0 <= w AGILE_METRICS_WEIGHTS)
         [development_velocity; collaboration_index; code_quality;
          documentation_maturity; project_structure; community_engagement].
Proof. repeat constructor; discriminate. Qed.

Lemma final_score_of_unit v c q d s e :
  unit_score v -> unit_score c -> unit_score q ->
  unit_score d -> unit_score s -> unit_score e ->
  unit_score (final_score_of v c q d s e).
Proof.
  unfold unit_score, final_score_of. cbn [development_velocity collaboration_index
    code_quality documentation_maturity project_structure community_engagement
    AGILE_METRICS_WEIGHTS].
  intros. lra.
Qed.


(** C7 (amended).  For a positive ceiling, [min(1.0, raw / ceiling)]
    is at most 1, is in [0,1] for a non-negative raw value, is 0 at
    raw 0 and is 1 from the ceiling on; a negative raw value is not
    clamped and yields the negative quotient. *)
Theorem normalize_saturates_above_only (raw ceiling : Q) :
  0 < ceiling ->
  normalize raw ceiling <= 1
  /\ (0 <= raw -> 0 <= normalize raw ceiling)
  /\ (raw == 0 -> normalize raw ceiling == 0)
  /\ (ceiling <= raw -> normalize raw ceiling == 1)
  /\ (raw < 0 -> normalize raw ceiling == raw / ceiling /\ normalize raw ceiling < 0).
Proof.
  intros Hc. unfold normalize.
  assert (Hq : forall x, raw <= x * ceiling -> raw / ceiling <= x)
    by (intros; by apply Qle_shift_div_r).
  assert (Hq' : forall x, x * ceiling <= raw -> x <= raw / ceiling)
    by (intros; by apply Qle_shift_div_l).
  destruct (py_min_cases 1 (raw / ceiling)) as [[Hlt ->] | [Hge ->]];
    (split; [| split; [| split; [| split]]]).
  - lra.
  - intros. apply Hq'. lra.
  - intros E. rewrite E. unfold Qdiv. lra.
  - intros. specialize (Hq' 1). lra.
  - intros. split; [reflexivity |]. apply Qlt_shift_div_r; [done | lra].
  - lra.
  - lra.
  - intros E. exfalso. rewrite E in Hge. unfold Qdiv in Hge. lra.
  - reflexivity.
  - intros. exfalso. specialize (Hq 0). lra.
Qed.

Lemma normalize_saturates_above_only_witness :
  normalize 12 5 <= 1.
Proof.
  apply (normalize_saturates_above_only 12 5). reflexivity.
Defined.

(** C7, as stated, fails: a raw value of -1 against the ceiling 5
    gives -0.2, below the floor 0. *)
Lemma normalize_negative_not_clamped : ~ (0 <= normalize (-1) 5 <= 1).
Proof. vm_compute. intros [H _]. by apply H. Qed.

(** C8.  The six weights are non-negative and sum to 1, and for six
    signals in [0,1] both the weighted sum and the reported
    [final_score], its rounding to 3 decimals, lie in [0,1]. *)
Theorem final_score_in_unit_interval (v c q d s e : Q) :
  unit_score v -> unit_score c -> unit_score q ->
  unit_score d -> unit_score s -> unit_score e ->
  Forall (fun w => 0 <= w AGILE_METRICS_WEIGHTS)
         [development_velocity; collaboration_index; code_quality;
          documentation_maturity; project_structure; community_engagement]
  /\ development_velocity AGILE_METRICS_WEIGHTS + collaboration_index AGILE_METRICS_WEIGHTS
     + code_quality AGILE_METRICS_WEIGHTS + documentation_maturity AGILE_METRICS_WEIGHTS
     + project_structure AGILE_METRICS_WEIGHTS + community_engagement AGILE_METRICS_WEIGHTS
     == 1
  /\ unit_score (final_score_of v c q d s e)
  /\ unit_score (py_round (final_score_of v c q d s e) 3).
Proof.
  intros Hv Hc Hq Hd Hs He.
  pose proof (final_score_of_unit v c q d s e Hv Hc Hq Hd Hs He) as Hu.
  repeat split; try apply Hu; try apply py_round_unit; try done.
  apply weights_nonnegative.
Qed.

Lemma final_score_in_unit_interval_witness :
  unit_score (py_round (final_score_of 1 (1 # 2) (3 # 4) 0 (3 # 5) (1 # 3)) 3).
Proof.
  apply (final_score_in_unit_interval 1 (1 # 2) (3 # 4) 0 (3 # 5) (1 # 3));
    split; vm_compute; discriminate.
Defined.

End Composite.

(** ** Scores and recommendations read from a reply *)

Section Extraction.

Lemma kept_is_long (text : string) :
  Forall (fun rec => 10 < py_len rec) (Repos._extract_recommendations text).
Proof.
  unfold Repos._extract_recommendations. apply Forall_take, Forall_forall.
  intros rec [Hkeep _]%list_elem_of_filter.
  unfold Repos.keep in Hkeep. apply andb_true_iff in Hkeep as [_ Hlen].
  by apply Nat.ltb_lt in Hlen.
Qed.

Lemma extract_recommendations_capped (text : string) :
  length (Repos._extract_recommendations text) <= 2.
Proof. unfold Repos._extract_recommendations. rewrite length_take. lia. Qed.

Lemma of_reply_capped (reply : option string) :
  length (Repos.recommendations (Repos.of_reply reply)) <= 2.
Proof.
  unfold Repos.of_reply. destruct reply as [result |]; [| simpl; lia].
  destruct (truthy result); [apply extract_recommendations_capped | simpl; lia].
Qed.

Lemma commit_quality_capped self commit_messages :
  length (Repos.recommendations (Repos.analyze_commit_quality self commit_messages)) <= 2.
Proof.
  unfold Repos.analyze_commit_quality.
  destruct (_ || _); [simpl; lia | apply of_reply_capped].
Qed.

Lemma project_structure_capped self file_structure readme_content :
  length (Repos.recommendations
            (Repos.analyze_project_structure self file_structure readme_content)) <= 2.
Proof.
  unfold Repos.analyze_project_structure.
  destruct (negb _); [simpl; lia | apply of_reply_capped].
Qed.

Lemma or_default_capped (recommendations default : list string) :
  length default <= 3 -> length (Usuario.or_default recommendations default) <= 3.
Proof.
  intros Hd. unfold Usuario.or_default.
  destruct recommendations; [done |]. rewrite length_take. lia.
Qed.

Lemma commits_detailed_capped self commits_data :
  length (Usuario.recommendations (Usuario.analyze_commits_detailed self commits_data)) <= 3.
Proof.
  unfold Usuario.analyze_commits_detailed.
  destruct commits_data as [| c cs]; [simpl; lia |].
  destruct (_ || _); [simpl; lia |].
  destruct (Usuario._call_openai _ _ _) as [result |]; [| simpl; lia].
  destruct (truthy result); [| simpl; lia].
  apply or_default_capped. simpl. lia.
Qed.

Lemma issues_detailed_capped self issues_data :
  length (Usuario.recommendations (Usuario.analyze_issues_detailed self issues_data)) <= 3.
Proof.
  unfold Usuario.analyze_issues_detailed.
  destruct issues_data as [| i rest]; [simpl; lia |].
  destruct (negb _); [simpl; lia |].
  destruct (Usuario._call_openai _ _ _) as [result |]; [| simpl; lia].
  destruct (truthy result); [| simpl; lia].
  apply or_default_capped. simpl. lia.
Qed.

Lemma reviews_detailed_capped self reviews_data :
  length (Usuario.recommendations (Usuario.analyze_reviews_detailed self reviews_data)) <= 3.
Proof.
  unfold Usuario.analyze_reviews_detailed.
  destruct reviews_data as [| r rs]; [simpl; lia |].
  destruct (negb _); [simpl; lia |].
  destruct (Usuario._call_openai _ _ _) as [result |]; [| simpl; lia].
  destruct (truthy result); [| simpl; lia].
  apply or_default_capped. simpl. lia.
Qed.

(** C10.  Whatever the service replies, a repository-level analysis
    returns at most 2 recommendations and a per-user detailed
    analysis at most 3, on the reply path and on every fallback
    path, also as assembled by the two callers. *)
Theorem recommendations_within_cap :
  (forall text, length (Repos._extract_recommendations text) <= 2)
  /\ (forall self commit_messages,
        length (Repos.recommendations
                  (Repos.analyze_commit_quality self commit_messages)) <= 2)
  /\ (forall self file_structure readme_content,
        length (Repos.recommendations
                  (Repos.analyze_project_structure self file_structure readme_content)) <= 2)
  /\ (forall repo ai_analyzer now,
        let r := Repos.analyze_repository_comprehensive repo ai_analyzer now in
        length (Repos.recommendations (Repos.ai_commit_analysis r)) <= 2
        /\ length (Repos.recommendations (Repos.ai_structure_analysis r)) <= 2)
  /\ (forall self commits_data,
        length (Usuario.recommendations
                  (Usuario.analyze_commits_detailed self commits_data)) <= 3)
  /\ (forall self issues_data,
        length (Usuario.recommendations
                  (Usuario.analyze_issues_detailed self issues_data)) <= 3)
  /\ (forall self reviews_data,
        length (Usuario.recommendations
                  (Usuario.analyze_reviews_detailed self reviews_data)) <= 3)
  /\ (forall ai_analyzer data,
        let a := Usuario.run_ai_analysis ai_analyzer data in
        length (Usuario.recommendations (Usuario.ai_commits a)) <= 3
        /\ length (Usuario.recommendations (Usuario.ai_issues a)) <= 3
        /\ length (Usuario.recommendations (Usuario.ai_reviews a)) <= 3).
Proof.
  split; [apply extract_recommendations_capped |].
  split; [apply commit_quality_capped |].
  split; [apply project_structure_capped |].
  split.
  { intros repo [a |] now; unfold Repos.analyze_repository_comprehensive;
      [destruct (Repos.enabled a) |]; simpl;
      auto using commit_quality_capped, project_structure_capped with lia. }
  split; [apply commits_detailed_capped |].
  split; [apply issues_detailed_capped |].
  split; [apply reviews_detailed_capped |].
  intros [a |] data; simpl;
    auto using commits_detailed_capped, issues_detailed_capped, reviews_detailed_capped
      with lia.
Qed.

(** C5 (amended).  For the English sample reply the repository-level
    analysis returns score 0.75 and no recommendation: the text is a
    single line and holds none of the stems recomend, sugest, melhor,
    deve.  Every recommendation the extractor does return is longer
    than 10 characters, counted as [len] counts them, after its
    leading markers are stripped. *)
Theorem english_reply_scored_without_recommendations :
  (forall m ms,
      let r := Repos.analyze_commit_quality
                 (Sample.answering Sample.english_reply) (m :: ms) in
      (Repos.score r == 3 # 4)%Q
      /\ Repos.analysis r = Sample.english_reply
      /\ Repos.recommendations r = [])
  /\ (forall text,
        Forall (fun rec => 10 < py_len rec) (Repos._extract_recommendations text)).
Proof.
  split; [| apply kept_is_long].
  intros m ms. vm_compute. repeat split.
Qed.

(** C5, as stated, fails: the sample reply yields no recommendation,
    not two. *)
Lemma english_reply_two_recommendations_fails :
  ~ ((Repos.score (Repos.analyze_commit_quality
                     (Sample.answering Sample.english_reply) ["fix: typo"]) == 3 # 4)%Q
     /\ length (Repos.recommendations
                  (Repos.analyze_commit_quality
                     (Sample.answering Sample.english_reply) ["fix: typo"])) = 2).
Proof. vm_compute. intros [_ H]. discriminate H. Qed.

End Extraction.

(** ** The commit-frequency heuristic *)

Section Frequency.

Import Usuario.

Lemma Qle_bool_false (a b : Q) : Qle_bool a b = false <-> (b < a)%Q.
Proof.
  rewrite <- not_true_iff_false, Qle_bool_iff.
  split; [apply Qnot_le_lt | apply Qlt_not_le].
Qed.

Ltac tests_to_props :=
  repeat match goal with
         | H : Qltb _ _ = true |- _ => apply Qltb_true in H
         | H : Qltb _ _ = false |- _ => apply Qltb_false in H
         | H : Qle_bool _ _ = true |- _ => apply Qle_bool_iff in H
         | H : Qle_bool _ _ = false |- _ => apply Qle_bool_false in H
         end.

Lemma truediv_ok (a b : Q) : ~ (b == 0)%Q -> truediv a b = Ok (Qred (a / b)).
Proof.
  intros Hb. unfold truediv. destruct (Qeq_bool b 0) eqn:E; [| done].
  by apply Qeq_bool_iff in E.
Qed.

Lemma inject_Z_nonzero (z : Z) : (1 <= z)%Z -> ~ (inject_Z z == 0)%Q.
Proof. intros Hz E. unfold Qeq in E. simpl in E. lia. Qed.

(** The five entries of the dict returned for a non-empty list. *)
Lemma full_dict_lookups (cpw : Q) (wi wt : Z) (msg lvl : string) :
  let d : gmap string pyval :=
    list_to_map [("commits_per_week", PFloat cpw); ("weeks_inactive", PInt wi);
                 ("weeks_total", PInt wt); ("frequency_alert", PStr msg);
                 ("alert_level", PStr lvl)] in
  d !! "commits_per_week" = Some (PFloat cpw)
  /\ d !! "weeks_inactive" = Some (PInt wi)
  /\ d !! "weeks_total" = Some (PInt wt)
  /\ d !! "frequency_alert" = Some (PStr msg)
  /\ d !! "alert_level" = Some (PStr lvl).
Proof. repeat split. Qed.

(** The result for an empty list: four entries, no [weeks_total]. *)
Lemma empty_list_result (since_date : date) (now_dt : datetime) :
  exists d : gmap string pyval,
    analyze_commit_frequency [] since_date now_dt = Ok d
    /\ d !! "commits_per_week" = Some (PFloat 0)
    /\ d !! "weeks_inactive" = Some (PInt 0)
    /\ d !! "frequency_alert" = Some (PStr "Nenhum commit encontrado no período")
    /\ d !! "alert_level" = Some (PStr "critical")
    /\ d !! "weeks_total" = None.
Proof. eexists. repeat split. Qed.

(** The result for a non-empty list, entry by entry. *)
Lemma nonempty_list_result (commits_data : list commit) (since_date : date)
    (now_dt : datetime) :
  commits_data <> [] ->
  let weeks := Z.max 1 (timedelta_days now_dt (midnight since_date) / 7) in
  let count := Z.of_nat (length commits_data) in
  exists (d : gmap string pyval) (msg : string),
    analyze_commit_frequency commits_data since_date now_dt = Ok d
    /\ d !! "commits_per_week"
       = Some (PFloat (py_round (Qred (inject_Z count / inject_Z weeks)) 2))
    /\ d !! "weeks_inactive" = Some (PInt (Z.max 0 (weeks - count)))
    /\ d !! "weeks_total" = Some (PInt weeks)
    /\ d !! "frequency_alert" = Some (PStr msg)
    /\ d !! "alert_level" = Some (PStr (Spec.alert_level count weeks)).
Proof.
  intros Hne weeks count.
  destruct commits_data as [| c cs]; [done |].
  unfold analyze_commit_frequency.
  fold weeks. fold count.
  assert (Hweeks : (1 <= weeks)%Z) by (unfold weeks; lia).
  rewrite truediv_ok by (by apply inject_Z_nonzero).
  cbn [mbind result_bind].
  set (cpw := Qred (inject_Z count / inject_Z weeks)).
  assert (Hcpw : (cpw == inject_Z count / inject_Z weeks)%Q) by apply Qred_correct.
  assert (Hcount : (count =? 0)%Z = false) by (apply Z.eqb_neq; unfold count; simpl; lia).
  rewrite Hcount.
  unfold Spec.alert_level.
  set (x := (inject_Z count / inject_Z weeks)%Q) in *.
  set (wi := Z.max 0 (weeks - count)).
  destruct (Qltb cpw 1) eqn:E1;
    [destruct (Qle_bool (inject_Z weeks * (7 # 10)) (inject_Z wi)) eqn:E7;
     [| destruct (Qle_bool (inject_Z weeks * (4 # 10)) (inject_Z wi)) eqn:E4;
        [| destruct (Qltb cpw (1 # 2)) eqn:E5]] |];
    destruct (Qle_bool 1 x) eqn:S1;
    destruct (Qle_bool ((7 # 10) * inject_Z weeks) (inject_Z wi)) eqn:S7;
    destruct (Qle_bool ((4 # 10) * inject_Z weeks) (inject_Z wi)) eqn:S4;
    destruct (Qltb x (1 # 2)) eqn:S5;
    tests_to_props;
    try (exfalso; lra);
    (eexists; eexists; split; [reflexivity | apply full_dict_lookups]).
Qed.

(** C2.  The code at the failing input: with no commits and a
    ten-week window the result has [weeks_inactive] 0 and no
    [weeks_total], where the claim has both equal to 10; only the
    level "critical" agrees. *)
Theorem zero_commits_ten_week_window :
  (timedelta_days Sample.ten_weeks_later (midnight Sample.since) / 7 = 10)%Z
  /\ exists d : gmap string pyval,
       analyze_commit_frequency [] Sample.since Sample.ten_weeks_later = Ok d
       /\ d !! "weeks_inactive" = Some (PInt 0)
       /\ d !! "weeks_total" = None
       /\ d !! "alert_level" = Some (PStr "critical").
Proof. split; [reflexivity |]. eexists. repeat split. Qed.

(** C3.  For a user with no collected commit the frequency result has
    no [weeks_total] entry, and [generate_detailed_report] raises
    [KeyError] on that key instead of returning a report. *)
Theorem report_without_commits_raises
    (username repo_name : string) (data : user_data) (ai_analysis : ai_results)
    (since_date : date) (now_dt now_local : datetime) :
  commits data = [] ->
  (exists d : gmap string pyval,
      analyze_commit_frequency (commits data) since_date now_dt = Ok d
      /\ d !! "weeks_total" = None)
  /\ generate_detailed_report username repo_name data ai_analysis
       since_date now_dt now_local
     = Raise (KeyError "weeks_total").
Proof.
  intros Hempty. split.
  - rewrite Hempty. eexists. split; reflexivity.
  - unfold generate_detailed_report. rewrite Hempty. reflexivity.
Qed.

Lemma report_without_commits_raises_witness :
  generate_detailed_report "ana" "unb-mds/exemplo" Sample.no_activity
    (run_ai_analysis None Sample.no_activity)
    Sample.since Sample.ten_weeks_later Sample.ten_weeks_later
  = Raise (KeyError "weeks_total").
Proof.
  apply (report_without_commits_raises "ana" "unb-mds/exemplo" Sample.no_activity).
  reflexivity.
Defined.

(** C4 (amended).  The result is a function of the commit list, the
    since date and the clock the call reads: two calls agree whenever
    their lists have the same length and the same number of whole
    weeks has elapsed between the since date and the clock. *)
Theorem frequency_determined_by_count_and_weeks
    (commits1 commits2 : list commit) (since1 since2 : date) (now1 now2 : datetime) :
  length commits1 = length commits2 ->
  (timedelta_days now1 (midnight since1) / 7
   = timedelta_days now2 (midnight since2) / 7)%Z ->
  analyze_commit_frequency commits1 since1 now1
  = analyze_commit_frequency commits2 since2 now2.
Proof.
  intros Hlen Hweeks.
  destruct commits1 as [| c1 cs1], commits2 as [| c2 cs2]; try discriminate Hlen.
  - reflexivity.
  - unfold analyze_commit_frequency. rewrite Hweeks, Hlen. reflexivity.
Qed.

Lemma frequency_determined_by_count_and_weeks_witness :
  analyze_commit_frequency [Sample.a_commit; Sample.a_commit]
    Sample.since Sample.ten_weeks_later
  = analyze_commit_frequency [Sample.a_commit; Sample.a_commit]
      Sample.since Sample.three_days_more.
Proof.
  apply frequency_determined_by_count_and_weeks; reflexivity.
Defined.

(** C4, as stated, fails: the same two commits and the same since
    date give level "high" when the clock is ten weeks later and
    "good" when it is one week later. *)
Lemma frequency_depends_on_clock :
  analyze_commit_frequency [Sample.a_commit; Sample.a_commit]
    Sample.since Sample.ten_weeks_later
  <> analyze_commit_frequency [Sample.a_commit; Sample.a_commit]
       Sample.since Sample.one_week_later.
Proof.
  intros H.
  assert (E : (d ← analyze_commit_frequency [Sample.a_commit; Sample.a_commit]
                     Sample.since Sample.ten_weeks_later; getitem d "alert_level")
              = (d ← analyze_commit_frequency [Sample.a_commit; Sample.a_commit]
                       Sample.since Sample.one_week_later; getitem d "alert_level"))
    by (by rewrite H).
  vm_compute in E. discriminate E.
Qed.

(** C6.  For a non-empty commit list the result has
    [weeks_inactive = max(0, weeks_total - commit_count)] and the
    level of the top-down rule (good, high, medium, low, normal);
    12 commits over ten weeks give "good" with 0 inactive weeks, and
    2 commits over ten weeks give "high". *)
Theorem nonempty_frequency_levels :
  (forall (commits_data : list commit) (since_date : date) (now_dt : datetime),
      commits_data <> [] ->
      let weeks := Z.max 1 (timedelta_days now_dt (midnight since_date) / 7) in
      let count := Z.of_nat (length commits_data) in
      exists d : gmap string pyval,
        analyze_commit_frequency commits_data since_date now_dt = Ok d
        /\ d !! "weeks_total" = Some (PInt weeks)
        /\ d !! "weeks_inactive" = Some (PInt (Z.max 0 (weeks - count)))
        /\ d !! "alert_level" = Some (PStr (Spec.alert_level count weeks)))
  /\ (exists d : gmap string pyval,
        analyze_commit_frequency (repeat Sample.a_commit 12)
          Sample.since Sample.ten_weeks_later = Ok d
        /\ d !! "weeks_total" = Some (PInt 10)
        /\ d !! "weeks_inactive" = Some (PInt 0)
        /\ d !! "alert_level" = Some (PStr "good"))
  /\ (exists d : gmap string pyval,
        analyze_commit_frequency (repeat Sample.a_commit 2)
          Sample.since Sample.ten_weeks_later = Ok d
        /\ d !! "weeks_total" = Some (PInt 10)
        /\ d !! "weeks_inactive" = Some (PInt 8)
        /\ d !! "alert_level" = Some (PStr "high")).
Proof.
  split; [| split; eexists; repeat split].
  intros commits_data since_date now_dt Hne weeks count.
  destruct (nonempty_list_result commits_data since_date now_dt Hne)
    as (d & msg & Hd & _ & Hwi & Hwt & _ & Hlvl).
  exists d. auto.
Qed.

Lemma nonempty_frequency_levels_witness :
  exists d : gmap string pyval,
    analyze_commit_frequency [Sample.a_commit] Sample.since Sample.ten_weeks_later = Ok d
    /\ d !! "weeks_total" = Some (PInt 10)
    /\ d !! "weeks_inactive" = Some (PInt 9)
    /\ d !! "alert_level" = Some (PStr "high").
Proof.
  apply (proj1 nonempty_frequency_levels [Sample.a_commit]). discriminate.
Defined.

(** C9.  The code against the claim.  For every since date and clock
    the call returns a result and never raises, and the week count
    [max(1, days // 7)] is at least 1, and is 1 when the since date
    lies after the clock.  But the result holds that count under
    [weeks_total] only for a non-empty commit list: for an empty list
    the early return of lines 400-406 leaves [weeks_total] out. *)
Theorem weeks_total_absent_without_commits (since_date : date) (now_dt : datetime) :
  let days := timedelta_days now_dt (midnight since_date) in
  let weeks := Z.max 1 (days / 7) in
  (1 <= weeks)%Z
  /\ ((days < 0)%Z -> weeks = 1%Z)
  /\ (forall commits_data : list commit,
        exists d : gmap string pyval,
          analyze_commit_frequency commits_data since_date now_dt = Ok d
          /\ d !! "weeks_total" = match commits_data with
                                  | [] => None
                                  | _ :: _ => Some (PInt weeks)
                                  end).
Proof.
  intros days weeks. split; [unfold weeks; lia |]. split.
  - intros Hneg. unfold weeks.
    assert (days / 7 < 0)%Z by (apply Z.div_lt_upper_bound; lia). lia.
  - intros [| c cs].
    + destruct (empty_list_result since_date now_dt) as (d & Hd & _ & _ & _ & _ & Hwt).
      eauto.
    + destruct (nonempty_list_result (c :: cs) since_date now_dt)
        as (d & msg & Hd & _ & _ & Hwt & _); [done |].
      exists d. auto.
Qed.

Lemma weeks_total_absent_without_commits_witness :
  Z.max 1 (timedelta_days Sample.a_month_before (midnight Sample.since) / 7) = 1%Z
  /\ exists d : gmap string pyval,
       analyze_commit_frequency [] Sample.since Sample.a_month_before = Ok d
       /\ d !! "weeks_total" = None.
Proof.
  pose proof (weeks_total_absent_without_commits Sample.since Sample.a_month_before) as H.
  cbv zeta in H. destruct H as (_ & Hone & Hall).
  split; [apply Hone; reflexivity | apply (Hall [])].
Defined.

Lemma py_max_one_nonzero (q : Q) : ~ (py_max 1 q == 0)%Q.
Proof. destruct (py_max_cases 1 q) as [[H ->] | [H ->]]; lra. Qed.

Ltac divisor_nonzero :=
  first [ apply inject_Z_nonzero; lia
        | apply py_max_one_nonzero
        | intros E; discriminate E ].

(** X18.  With at least one collected commit the report is produced:
    no key of the frequency result is missing and no division in the
    report is by zero, whatever the statistics and the analyses. *)
Lemma report_with_commits_produced
    (username repo_name : string) (data : user_data) (ai_analysis : ai_results)
    (since_date : date) (now_dt now_local : datetime) :
  commits data <> [] ->
  exists r : report,
    generate_detailed_report username repo_name data ai_analysis
      since_date now_dt now_local = Ok r.
Proof.
  intros Hne.
  destruct (nonempty_list_result (commits data) since_date now_dt Hne)
    as (d & msg & Hd & Hcpw & Hwi & Hwt & Hmsg & Hlvl).
  unfold generate_detailed_report. rewrite Hd. cbn [mbind result_bind].
  unfold getitem. rewrite Hlvl, Hmsg, Hcpw, Hwt, Hwi. cbn [mbind result_bind as_Q].
  repeat (rewrite truediv_ok by divisor_nonzero; cbn [mbind result_bind]).
  eexists. reflexivity.
Qed.

End Frequency.

(** ** Sanity checks on sample inputs *)

Section Checks.

Example split_two_lines : split "010" ("ab" ++ String "010" "" ++ "c") = ["ab"; "c"].
Proof. reflexivity. Qed.

Example search_number_score : search_number "Score: 0.75. You" = Some "0.75".
Proof. reflexivity. Qed.

Example float_of_match_score : float_of_match "0.75" = (3 # 4)%Q.
Proof. reflexivity. Qed.

Example round_thousandths : py_round (7997 # 10000) 3 = (4 # 5)%Q.
Proof. reflexivity. Qed.

Example format_one_decimal : format_f 1 (12 # 10) = "1.2".
Proof. vm_compute. reflexivity. Qed.

Example ordinal_of_since : toordinal Sample.since = 739099%Z.
Proof. reflexivity. Qed.

Example report_of_two_commits_has_weeks :
  (r ← Usuario.generate_detailed_report "ana" "unb-mds/exemplo" Sample.two_commits
         (Usuario.run_ai_analysis None Sample.two_commits)
         Sample.since Sample.ten_weeks_later Sample.ten_weeks_later;
   Ok (r !! 13%nat))
  = Ok (Some ("Semanas no Período", PInt 10)).
Proof. vm_compute. reflexivity. Qed.

Example portuguese_reply_recommendations :
  Repos._extract_recommendations
    ("Nota: 0.8" ++ String "010" "1. Recomendo mensagens mais claras"
     ++ String "010" "- Deve usar" ++ String "010" "* Sugestão: adicionar testes")
  = ["Recomendo mensagens mais claras"; "Sugestão: adicionar testes"].
Proof. reflexivity. Qed.

(** A line of 10 characters and 12 bytes is not a recommendation. *)
Example ten_character_line_dropped :
  py_len "deve ação!" = 10%nat
  /\ String.length "deve ação!" = 12%nat
  /\ Repos._extract_recommendations "deve ação!" = []
  /\ Repos._extract_recommendations "Sugestões:" = []
  /\ Repos._extract_recommendations "deve ações!" = ["deve ações!"].
Proof. repeat split. Qed.

Example slice_counts_characters : slice_to 3 "ação!" = "açã".
Proof. reflexivity. Qed.

End Checks.

(** ** Scores read from a reply: bounds and fallbacks *)

Section Scores.

Import Notions.
Local Open Scope Q_scope.

Lemma clamp_unit (x : Q) : unit_score (py_max 0 (py_min 1 x)).
Proof.
  unfold unit_score.
  destruct (py_min_cases 1 x) as [[H1 ->] | [H1 ->]];
    [destruct (py_max_cases 0 x) as [[H2 ->] | [H2 ->]]
    | destruct (py_max_cases 0 1) as [[H2 ->] | [H2 ->]]]; lra.
Qed.

Lemma half_unit : unit_score (1 # 2).
Proof. unfold unit_score. lra. Qed.

Lemma repos_of_reply_unit (reply : option string) :
  unit_score (Repos.score (Repos.of_reply reply)).
Proof.
  unfold Repos.of_reply. destruct reply as [result |]; [| apply half_unit].
  destruct (truthy result); [apply clamp_unit | apply half_unit].
Qed.

Lemma commit_quality_unit self commit_messages :
  unit_score (Repos.score (Repos.analyze_commit_quality self commit_messages)).
Proof.
  unfold Repos.analyze_commit_quality.
  destruct (_ || _); [apply half_unit | apply repos_of_reply_unit].
Qed.

Lemma project_structure_unit self file_structure readme_content :
  unit_score (Repos.score
                (Repos.analyze_project_structure self file_structure readme_content)).
Proof.
  unfold Repos.analyze_project_structure.
  destruct (negb _); [apply half_unit | apply repos_of_reply_unit].
Qed.

Lemma commits_detailed_unit self commits_data :
  unit_score (Usuario.score (Usuario.analyze_commits_detailed self commits_data)).
Proof.
  unfold Usuario.analyze_commits_detailed.
  destruct commits_data as [| c cs]; [apply half_unit |].
  destruct (_ || _); [apply half_unit |].
  destruct (Usuario._call_openai _ _ _) as [result |]; [| apply half_unit].
  destruct (truthy result); [apply clamp_unit | apply half_unit].
Qed.

Lemma issues_detailed_unit self issues_data :
  unit_score (Usuario.score (Usuario.analyze_issues_detailed self issues_data)).
Proof.
  unfold Usuario.analyze_issues_detailed.
  destruct issues_data as [| i rest]; [apply half_unit |].
  destruct (negb _); [apply half_unit |].
  destruct (Usuario._call_openai _ _ _) as [result |]; [| apply half_unit].
  destruct (truthy result); [apply clamp_unit | apply half_unit].
Qed.

Lemma reviews_detailed_unit self reviews_data :
  unit_score (Usuario.score (Usuario.analyze_reviews_detailed self reviews_data)).
Proof.
  unfold Usuario.analyze_reviews_detailed.
  destruct reviews_data as [| r rest]; [apply half_unit |].
  destruct (negb _); [apply half_unit |].
  destruct (Usuario._call_openai _ _ _) as [result |]; [| apply half_unit].
  destruct (truthy result); [apply clamp_unit | apply half_unit].
Qed.

(** X1.  Whatever the service replies, including a numeral far outside
    the scale, every qualitative analysis of both scripts returns a
    score in [0,1]. *)
Theorem qualitative_scores_in_unit_interval :
  (forall self commit_messages,
      unit_score (Repos.score (Repos.analyze_commit_quality self commit_messages)))
  /\ (forall self file_structure readme_content,
        unit_score (Repos.score
                      (Repos.analyze_project_structure self file_structure readme_content)))
  /\ (forall self commits_data,
        unit_score (Usuario.score (Usuario.analyze_commits_detailed self commits_data)))
  /\ (forall self issues_data,
        unit_score (Usuario.score (Usuario.analyze_issues_detailed self issues_data)))
  /\ (forall self reviews_data,
        unit_score (Usuario.score (Usuario.analyze_reviews_detailed self reviews_data)))
  /\ (forall ai_analyzer data,
        let a := Usuario.run_ai_analysis ai_analyzer data in
        unit_score (Usuario.score (Usuario.ai_commits a))
        /\ unit_score (Usuario.score (Usuario.ai_issues a))
        /\ unit_score (Usuario.score (Usuario.ai_reviews a))).
Proof.
  split; [apply commit_quality_unit |].
  split; [apply project_structure_unit |].
  split; [apply commits_detailed_unit |].
  split; [apply issues_detailed_unit |].
  split; [apply reviews_detailed_unit |].
  intros [a |] data; simpl;
    auto using commits_detailed_unit, issues_detailed_unit, reviews_detailed_unit, half_unit.
Qed.

(** *** Replies without a numeral, and blank replies *)

Lemma search_number_no_digit (s : string) : no_digit s = true -> search_number s = None.
Proof.
  unfold no_digit. induction s as [| c s IH]; [done |].
  simpl. intros [Hc Hs]%andb_true_iff.
  apply negb_true_iff in Hc. rewrite Hc. auto.
Qed.

Lemma all_chars_lstrip p q s : all_chars p s = true -> all_chars p (lstrip_by q s) = true.
Proof.
  induction s as [| c s IH]; [done |].
  intros H. simpl. destruct (q c); [| done].
  simpl in H. apply andb_true_iff in H as [_ H]. auto.
Qed.

Lemma all_chars_rstrip p q s : all_chars p s = true -> all_chars p (rstrip_by q s) = true.
Proof.
  induction s as [| c s IH]; [done |].
  simpl. intros [Hc Hs]%andb_true_iff. specialize (IH Hs).
  destruct (rstrip_by q s) as [| d t] eqn:E.
  - destruct (q c); [done |]. simpl. by rewrite Hc.
  - change (p c && all_chars p (String d t) = true). by rewrite Hc, IH.
Qed.

Lemma all_chars_strip p s : all_chars p s = true -> all_chars p (strip s) = true.
Proof. intros H. unfold strip, strip_by. by apply all_chars_rstrip, all_chars_lstrip. Qed.

Lemma lstrip_all p s : all_chars p s = true -> lstrip_by p s = "".
Proof.
  induction s as [| c s IH]; [done |].
  simpl. intros [Hc Hs]%andb_true_iff. rewrite Hc. auto.
Qed.

Lemma strip_blank s : all_chars is_space s = true -> strip s = "".
Proof. intros H. unfold strip, strip_by. by rewrite lstrip_all. Qed.

Lemma usuario_score_no_digit (result : string) :
  no_digit result = true -> Usuario.extract_score result = (1 # 2).
Proof. intros H. unfold Usuario.extract_score. by rewrite search_number_no_digit. Qed.

(** X2.  When the replies of the service are Latin text (ASCII and
    accented letters) without any digit, every qualitative analysis
    returns the neutral score 0.5. *)
Theorem reply_without_numeral_scores_half
    (repos_analyzer : Repos.AgileRepositoryAnalyzer)
    (user_analyzer : Usuario.DetailedAgileAnalyzer) :
  (forall messages max_tokens reply,
      Repos.client repos_analyzer messages max_tokens = Some reply ->
      latin_text reply = true /\ no_digit reply = true) ->
  (forall messages max_tokens reply,
      Usuario.client user_analyzer messages max_tokens = Some reply ->
      latin_text reply = true /\ no_digit reply = true) ->
  (forall commit_messages,
      Repos.score (Repos.analyze_commit_quality repos_analyzer commit_messages) = 1 # 2)
  /\ (forall file_structure readme_content,
        Repos.score (Repos.analyze_project_structure repos_analyzer
                       file_structure readme_content) = 1 # 2)
  /\ (forall commits_data,
        Usuario.score (Usuario.analyze_commits_detailed user_analyzer commits_data) = 1 # 2)
  /\ (forall issues_data,
        Usuario.score (Usuario.analyze_issues_detailed user_analyzer issues_data) = 1 # 2)
  /\ (forall reviews_data,
        Usuario.score (Usuario.analyze_reviews_detailed user_analyzer reviews_data) = 1 # 2).
Proof.
  intros Hrepos Huser.
  assert (Hr : forall messages max_tokens,
             Repos.score (Repos.of_reply (Repos._call_openai repos_analyzer
                                            messages max_tokens)) = 1 # 2).
  { intros messages max_tokens. unfold Repos._call_openai.
    destruct (negb _); [done |].
    destruct (Repos.client _ _ _) as [reply |] eqn:E; [| done].
    simpl. destruct (truthy _); [| done]. simpl.
    rewrite search_number_no_digit; [done |]. unfold no_digit. apply all_chars_strip.
    by destruct (Hrepos _ _ _ E). }
  assert (Hu : forall messages max_tokens result,
             Usuario._call_openai user_analyzer messages max_tokens = Some result ->
             Usuario.extract_score result = 1 # 2).
  { intros messages max_tokens result. unfold Usuario._call_openai.
    destruct (negb _); [done |].
    destruct (Usuario.client _ _ _) as [reply |] eqn:E; [| done].
    simpl. intros [= <-]. apply usuario_score_no_digit.
    unfold no_digit. apply all_chars_strip. by destruct (Huser _ _ _ E). }
  split; [| split; [| split; [| split]]].
  - intros. unfold Repos.analyze_commit_quality. destruct (_ || _); [done | apply Hr].
  - intros. unfold Repos.analyze_project_structure. destruct (negb _); [done | apply Hr].
  - intros [| c cs]; [done |]. unfold Usuario.analyze_commits_detailed.
    destruct (_ || _); [done |].
    destruct (Usuario._call_openai _ _ _) as [result |] eqn:E; [| done].
    destruct (truthy result); [| done]. simpl. by eapply Hu.
  - intros [| i rest]; [done |]. unfold Usuario.analyze_issues_detailed.
    destruct (negb _); [done |].
    destruct (Usuario._call_openai _ _ _) as [result |] eqn:E; [| done].
    destruct (truthy result); [| done]. simpl. by eapply Hu.
  - intros [| r rest]; [done |]. unfold Usuario.analyze_reviews_detailed.
    destruct (negb _); [done |].
    destruct (Usuario._call_openai _ _ _) as [result |] eqn:E; [| done].
    destruct (truthy result); [| done]. simpl. by eapply Hu.
Qed.

Lemma reply_without_numeral_scores_half_witness :
  Repos.score (Repos.analyze_commit_quality
                 (Sample.answering "Ótimo trabalho, mas deve melhorar.") ["fix: typo"]) = 1 # 2.
Proof.
  apply (reply_without_numeral_scores_half
           (Sample.answering "Ótimo trabalho, mas deve melhorar.")
           {| Usuario.enabled := false; Usuario.client := fun _ _ => None |}).
  - intros messages max_tokens reply [= <-]. split; reflexivity.
  - intros messages max_tokens reply [=].
Defined.

(** X3.  A request that fails, or a reply made of white space only, is
    an unavailable analysis: the repository-level analyses return the
    fixed result with score 0.5 and no recommendation, and the per-user
    analyses return score 0.5 with at most the one fixed hint. *)
Theorem blank_reply_is_unavailable
    (repos_analyzer : Repos.AgileRepositoryAnalyzer)
    (user_analyzer : Usuario.DetailedAgileAnalyzer) :
  (forall messages max_tokens, blank (Repos.client repos_analyzer messages max_tokens)) ->
  (forall messages max_tokens, blank (Usuario.client user_analyzer messages max_tokens)) ->
  (forall commit_messages,
      Repos.analyze_commit_quality repos_analyzer commit_messages = Repos.unavailable)
  /\ (forall file_structure readme_content,
        Repos.analyze_project_structure repos_analyzer file_structure readme_content
        = Repos.unavailable)
  /\ (forall commits_data,
        let r := Usuario.analyze_commits_detailed user_analyzer commits_data in
        Usuario.score r = 1 # 2 /\ (length (Usuario.recommendations r) <= 1)%nat)
  /\ (forall issues_data,
        let r := Usuario.analyze_issues_detailed user_analyzer issues_data in
        Usuario.score r = 1 # 2 /\ (length (Usuario.recommendations r) <= 1)%nat)
  /\ (forall reviews_data,
        let r := Usuario.analyze_reviews_detailed user_analyzer reviews_data in
        Usuario.score r = 1 # 2 /\ (length (Usuario.recommendations r) <= 1)%nat).
Proof.
  intros Hrepos Huser.
  assert (Hr : forall messages max_tokens,
             Repos.of_reply (Repos._call_openai repos_analyzer messages max_tokens)
             = Repos.unavailable).
  { intros messages max_tokens. unfold Repos._call_openai.
    destruct (negb _); [done |].
    specialize (Hrepos messages max_tokens).
    destruct (Repos.client _ _ _) as [reply |]; [| done].
    simpl in *. by rewrite strip_blank. }
  assert (Hu : forall messages max_tokens,
             match Usuario._call_openai user_analyzer messages max_tokens with
             | Some result => truthy result = false
             | None => True
             end).
  { intros messages max_tokens. unfold Usuario._call_openai.
    destruct (negb _); [done |].
    specialize (Huser messages max_tokens).
    destruct (Usuario.client _ _ _) as [reply |]; [| done].
    simpl in *. by rewrite strip_blank. }
  split; [| split; [| split; [| split]]].
  - intros. unfold Repos.analyze_commit_quality. destruct (_ || _); [done | apply Hr].
  - intros. unfold Repos.analyze_project_structure. destruct (negb _); [done | apply Hr].
  - intros [| c cs]; [simpl; split; [done | lia] |].
    unfold Usuario.analyze_commits_detailed.
    destruct (_ || _); [simpl; split; [done | lia] |].
    match goal with |- context [Usuario._call_openai ?a ?m ?k] =>
      specialize (Hu m k); destruct (Usuario._call_openai a m k) as [result |] end;
      [rewrite Hu |]; simpl; split; (done || lia).
  - intros [| i rest]; [simpl; split; [done | lia] |].
    unfold Usuario.analyze_issues_detailed.
    destruct (negb _); [simpl; split; [done | lia] |].
    match goal with |- context [Usuario._call_openai ?a ?m ?k] =>
      specialize (Hu m k); destruct (Usuario._call_openai a m k) as [result |] end;
      [rewrite Hu |]; simpl; split; (done || lia).
  - intros [| r rest]; [simpl; split; [done | lia] |].
    unfold Usuario.analyze_reviews_detailed.
    destruct (negb _); [simpl; split; [done | lia] |].
    match goal with |- context [Usuario._call_openai ?a ?m ?k] =>
      specialize (Hu m k); destruct (Usuario._call_openai a m k) as [result |] end;
      [rewrite Hu |]; simpl; split; (done || lia).
Qed.

Lemma blank_reply_is_unavailable_witness :
  Repos.analyze_commit_quality (Sample.answering (String "010" "  ")) ["fix: typo"]
  = Repos.unavailable.
Proof.
  apply (blank_reply_is_unavailable
           (Sample.answering (String "010" "  "))
           {| Usuario.enabled := true; Usuario.client := fun _ _ => None |}).
  - intros messages max_tokens. reflexivity.
  - intros messages max_tokens. exact I.
Defined.

End Scores.

(** ** Repository metrics *)

Section Metrics.

Import Repos Notions.
Local Open Scope Q_scope.

Lemma normalize_unit (raw ceiling : Q) :
  0 <= raw -> 0 < ceiling -> unit_score (normalize raw ceiling).
Proof.
  intros Hr Hc. unfold unit_score, normalize.
  assert (0 <= raw / ceiling) by (apply Qle_shift_div_l; [done | lra]).
  destruct (py_min_cases 1 (raw / ceiling)) as [[H1 ->] | [H1 ->]]; lra.
Qed.

Lemma normalize_one_iff (raw ceiling : Q) :
  0 < ceiling -> (normalize raw ceiling == 1 <-> ceiling <= raw).
Proof.
  intros Hc. unfold normalize.
  destruct (py_min_cases 1 (raw / ceiling)) as [[H1 ->] | [H1 ->]].
  - split.
    + intros E. rewrite E in H1. lra.
    + intros Hle. exfalso. apply (Qlt_not_le _ _ H1).
      apply Qle_shift_div_l; [done | lra].
  - split; [| reflexivity]. intros _.
    destruct (Qlt_le_dec raw ceiling) as [Hlt | Hle]; [| done].
    exfalso. apply (Qlt_not_le (raw / ceiling) 1); [| done].
    apply Qlt_shift_div_r; [done | lra].
Qed.

Lemma weeks_at_least_one (days : Z) :
  let weeks := py_max 1 (inject_Z days / 7) in
  1 <= weeks /\ 7 * weeks == inject_Z (Z.max 7 days).
Proof.
  intros weeks. subst weeks.
  assert (E : 7 * (inject_Z days / 7) == inject_Z days) by field.
  destruct (py_max_cases 1 (inject_Z days / 7)) as [[H ->] | [H ->]].
  - split; [lra |]. rewrite E.
    assert (inject_Z 7 < inject_Z days) by (change (inject_Z 7) with 7; lra).
    rewrite <- Zlt_Qlt in H0. by rewrite Z.max_r by lia.
  - split; [lra |].
    assert (inject_Z days <= inject_Z 7) by (change (inject_Z 7) with 7; lra).
    rewrite <- Zle_Qle in H0. by rewrite Z.max_l by lia.
Qed.

Lemma velocity_unit (repo : repository) (created_date now : datetime) :
  unit_score (velocity_score (calculate_development_velocity repo created_date now)).
Proof.
  unfold calculate_development_velocity.
  destruct (commits_since_creation repo) as [n |];
    [| cbn [velocity_score]; unfold unit_score; lra].
  cbn [velocity_score].
  destruct (weeks_at_least_one (timedelta_days now created_date)) as [Hw _].
  assert (Hn : 0 <= inject_Z (Z.of_nat n))
    by (change 0 with (inject_Z 0); rewrite <- Zle_Qle; lia).
  apply normalize_unit; [| lra]. apply Qle_shift_div_l; lra.
Qed.

(** X4.  The velocity score lies in [0,1] for every repository and
    clock, a repository younger than a week (or a clock behind its
    creation) counting as one week old; it reaches 1 exactly when the
    commits number at least five per week of age, and is 0 when the
    commits cannot be fetched. *)
Theorem velocity_score_saturates (repo : repository) (created_date now : datetime) :
  let m := calculate_development_velocity repo created_date now in
  let days := timedelta_days now created_date in
  unit_score (velocity_score m)
  /\ match commits_since_creation repo with
     | Some n =>
         total_commits m = Z.of_nat n
         /\ (velocity_score m == 1 <-> (5 * Z.max 7 days <= 7 * Z.of_nat n)%Z)
     | None => velocity_score m = 0 /\ total_commits m = 0%Z
     end.
Proof.
  intros m days. subst m. unfold calculate_development_velocity. fold days.
  destruct (commits_since_creation repo) as [n |];
    [| cbn [velocity_score total_commits]; split; [unfold unit_score; lra | done]].
  cbn [velocity_score total_commits].
  destruct (weeks_at_least_one days) as [Hw Hmax].
  set (weeks := py_max 1 (inject_Z days / 7)) in *.
  assert (Hn : 0 <= inject_Z (Z.of_nat n))
    by (change 0 with (inject_Z 0); rewrite <- Zle_Qle; lia).
  assert (Hv : 0 <= inject_Z (Z.of_nat n) / weeks)
    by (apply Qle_shift_div_l; lra).
  split; [by apply normalize_unit |]. split; [done |].
  rewrite normalize_one_iff by lra.
  assert (Hiff : 5 <= inject_Z (Z.of_nat n) / weeks <-> 5 * weeks <= inject_Z (Z.of_nat n)).
  { split.
    - intros H5. destruct (Qlt_le_dec (inject_Z (Z.of_nat n)) (5 * weeks)) as [Hlt | ]; [| done].
      exfalso. apply (Qlt_not_le (inject_Z (Z.of_nat n) / weeks) 5); [| done].
      apply Qlt_shift_div_r; lra.
    - intros H5. apply Qle_shift_div_l; lra. }
  rewrite Hiff, Zle_Qle, !inject_Z_mult, <- Hmax.
  change (inject_Z 5) with 5. change (inject_Z 7) with 7. split; intros; lra.
Qed.

Lemma velocity_score_saturates_witness :
  velocity_score (calculate_development_velocity Sample.busy_repo
                    (midnight Sample.since) Sample.ten_weeks_later) == 1.
Proof.
  pose proof (velocity_score_saturates Sample.busy_repo
                (midnight Sample.since) Sample.ten_weeks_later) as [_ [_ H]].
  apply H. vm_compute. discriminate.
Defined.

Lemma round_half_even_error (q : Q) :
  q - (1 # 2) <= inject_Z (round_half_even q) <= q + (1 # 2).
Proof.
  pose proof (Qfloor_le q) as Hlo. pose proof (Qlt_floor q) as Hhi.
  rewrite inject_Z_plus in Hhi. change (inject_Z 1) with 1 in Hhi.
  unfold round_half_even.
  destruct (Qcompare (q - inject_Z (Qfloor q)) (1 # 2)) eqn:E.
  - apply Qeq_alt in E. destruct (Z.even (Qfloor q));
      rewrite ?inject_Z_plus; change (inject_Z 1) with 1; lra.
  - apply Qlt_alt in E. lra.
  - apply Qgt_alt in E. rewrite inject_Z_plus. change (inject_Z 1) with 1. lra.
Qed.

Lemma py_round_3_error (q : Q) :
  q - (1 # 2000) <= py_round q 3 <= q + (1 # 2000).
Proof.
  unfold py_round. rewrite Qred_correct.
  pose proof (round_half_even_error (q * pow10 3)) as H.
  change (pow10 3) with 1000 in *.
  set (r := inject_Z (round_half_even (q * 1000))) in *.
  assert (E : r / 1000 == r * (1 # 1000)) by (unfold Qdiv; reflexivity).
  rewrite E. lra.
Qed.

Lemma maturity_level_cases (x : Q) :
  (8 # 10 <= x /\ maturity_level_of x = "Excelente")
  \/ (6 # 10 <= x < 8 # 10 /\ maturity_level_of x = "Maduro")
  \/ (4 # 10 <= x < 6 # 10 /\ maturity_level_of x = "Em Desenvolvimento")
  \/ (x < 4 # 10 /\ maturity_level_of x = "Iniciante").
Proof.
  unfold maturity_level_of.
  destruct (Qle_bool (8 # 10) x) eqn:E8; [apply Qle_bool_iff in E8; by left |].
  destruct (Qle_bool (6 # 10) x) eqn:E6;
    [apply Qle_bool_iff in E6; apply Qle_bool_false in E8; right; left; done |].
  destruct (Qle_bool (4 # 10) x) eqn:E4;
    [apply Qle_bool_iff in E4; apply Qle_bool_false in E6; right; right; left; done |].
  apply Qle_bool_false in E4. right; right; right; done.
Qed.

(** X9.  The maturity level never goes down when the weighted sum goes
    up: the four levels are ordered Iniciante, Em Desenvolvimento,
    Maduro, Excelente, and a larger sum gives the same or a higher
    one. *)
Theorem maturity_level_monotone (x y : Q) :
  x <= y -> (tier_rank (maturity_level_of x) <= tier_rank (maturity_level_of y))%nat.
Proof.
  intros Hxy.
  destruct (maturity_level_cases x) as [[Hx ->] | [[Hx ->] | [[Hx ->] | [Hx ->]]]];
    destruct (maturity_level_cases y) as [[Hy ->] | [[Hy ->] | [[Hy ->] | [Hy ->]]]];
    simpl; try lia; exfalso; lra.
Qed.

Lemma maturity_level_monotone_witness :
  (tier_rank (maturity_level_of (45 # 100)) <= tier_rank (maturity_level_of (7 # 10)))%nat.
Proof. apply maturity_level_monotone. vm_compute. discriminate. Defined.

(** *** Collaboration *)

Lemma size_list_to_set_le (l : list string) :
  (size (list_to_set l : gset string) <= length l)%nat.
Proof.
  induction l as [| x l IH]; [by rewrite list_to_set_nil, size_empty |].
  rewrite list_to_set_cons, size_union_alt, size_singleton. simpl.
  assert (size (list_to_set l ∖ {[x]} : gset string) <= size (list_to_set l : gset string))%nat
    by (apply subseteq_size; set_solver).
  lia.
Qed.

Lemma length_omap_le {A B} (f : A -> option B) (l : list A) :
  (length (omap f l) <= length l)%nat.
Proof. induction l as [| x l IH]; csimpl; [lia |]. destruct (f x); csimpl; lia. Qed.

Lemma size_logins_le (authors : list (option string)) :
  (size (logins authors) <= length authors)%nat.
Proof.
  unfold logins. etrans; [apply size_list_to_set_le | apply length_omap_le].
Qed.

Lemma py_min_one_saturated (x : Q) : 1 <= x -> py_min 1 x = 1.
Proof.
  intros H. unfold py_min. destruct (Qltb x 1) eqn:E; [| done].
  apply Qltb_true in E. lra.
Qed.

Lemma normalize_saturated (raw ceiling : Q) :
  0 < ceiling -> ceiling <= raw -> normalize raw ceiling = 1.
Proof.
  intros Hc Hr. unfold normalize. apply py_min_one_saturated.
  apply Qle_shift_div_l; [done | lra].
Qed.

Lemma inject_Z_nonneg (z : Z) : (0 <= z)%Z -> 0 <= inject_Z z.
Proof. intros H. change 0 with (inject_Z 0). by rewrite <- Zle_Qle. Qed.

Lemma collaboration_unit (repo : repository) :
  unit_score (collaboration_score (calculate_collaboration_index repo)).
Proof.
  unfold calculate_collaboration_index.
  destruct (issue_authors repo) as [issues |], (pull_authors repo) as [prs |];
    cbn [collaboration_score]; try (unfold unit_score; lra).
  apply py_round_unit.
  destruct (normalize_unit (inject_Z (Z.of_nat (length issues) + Z.of_nat (length prs))) 20)
    as [? ?]; [apply inject_Z_nonneg; lia | lra |].
  destruct (normalize_unit (inject_Z (Z.of_nat (size (logins issues ∪ logins prs)))) 5)
    as [? ?]; [apply inject_Z_nonneg; lia | lra |].
  split; [apply Qle_shift_div_l | apply Qle_shift_div_r]; lra.
Qed.

(** X5.  The collaboration score lies in [0,1] for every repository;
    the contributors counted never exceed the issues and pull requests
    together; and with at least 20 issues and pull requests by at
    least 5 contributors the score is 1. *)
Theorem collaboration_index_bounds (repo : repository) :
  let m := calculate_collaboration_index repo in
  unit_score (collaboration_score m)
  /\ (0 <= unique_contributors m <= total_issues m + total_prs m)%Z
  /\ ((20 <= total_issues m + total_prs m)%Z -> (5 <= unique_contributors m)%Z ->
      collaboration_score m = 1).
Proof.
  intros m. split; [apply collaboration_unit |]. subst m.
  unfold calculate_collaboration_index.
  destruct (issue_authors repo) as [issues |], (pull_authors repo) as [prs |];
    cbn [collaboration_score unique_contributors total_issues total_prs];
    try (split; [lia | intros; lia]).
  split.
  - split; [lia |].
    pose proof (size_logins_le issues). pose proof (size_logins_le prs).
    assert (size (logins issues ∪ logins prs) <= size (logins issues) + size (logins prs))%nat.
    { rewrite size_union_alt.
      assert (size (logins prs ∖ logins issues) <= size (logins prs))%nat
        by (apply subseteq_size; set_solver).
      lia. }
    lia.
  - intros H20 H5.
    rewrite (normalize_saturated _ 20), (normalize_saturated _ 5);
      [reflexivity | lra | | lra |].
    + change 5 with (inject_Z 5). by rewrite <- Zle_Qle.
    + change 20 with (inject_Z 20). by rewrite <- Zle_Qle.
Qed.

Lemma collaboration_index_bounds_witness :
  collaboration_score (calculate_collaboration_index Sample.busy_repo) = 1.
Proof.
  apply (collaboration_index_bounds Sample.busy_repo); vm_compute; discriminate.
Defined.

Lemma lower_char_idempotent (c : ascii) : lower_char (lower_char c) = lower_char c.
Proof. destruct c as [[] [] [] [] [] [] [] []]; reflexivity. Qed.

Lemma lower_idempotent (s : string) : lower (lower s) = lower s.
Proof.
  induction s as [| c s IH]; [done |]. simpl. by rewrite lower_char_idempotent, IH.
Qed.

Lemma truthy_lower (s : string) : truthy (lower s) = truthy s.
Proof. by destruct s. Qed.

Lemma logins_lower (authors : list (option string)) :
  logins (map (option_map lower) authors) = logins authors.
Proof.
  unfold logins. f_equal.
  induction authors as [| a authors IH]; [done |].
  destruct a as [login |]; csimpl; [| done].
  rewrite truthy_lower, lower_idempotent.
  destruct (truthy login); csimpl; by rewrite IH.
Qed.

(** X6.  Contributors are told apart without regard to letter case:
    writing the logins of a repository in lower case changes nothing
    in its collaboration metrics. *)
Theorem contributors_counted_without_case (repo repo' : repository) :
  issue_authors repo' = option_map (map (option_map lower)) (issue_authors repo) ->
  pull_authors repo' = option_map (map (option_map lower)) (pull_authors repo) ->
  calculate_collaboration_index repo' = calculate_collaboration_index repo.
Proof.
  intros Hi Hp. unfold calculate_collaboration_index. rewrite Hi, Hp.
  destruct (issue_authors repo) as [issues |], (pull_authors repo) as [prs |]; try done.
  simpl. by rewrite !logins_lower, !length_map.
Qed.

Lemma contributors_counted_without_case_witness :
  calculate_collaboration_index Inputs.lower_case_repo
  = calculate_collaboration_index Inputs.mixed_case_repo.
Proof. apply contributors_counted_without_case; reflexivity. Defined.

(** *** Project structure *)

Lemma structure_score_fraction (repo : repository) :
  let m := analyze_project_structure_metrics repo in
  let shown := count_true [has_readme m; has_tests m; has_ci m] in
  exists k : Z, (shown <= k <= shown + 2)%Z /\ (0 <= k <= 5)%Z
                /\ structure_score m = Qred (inject_Z k / 5).
Proof.
  unfold analyze_project_structure_metrics.
  destruct (explored_paths repo) as [paths |]; [| by exists 0%Z].
  cbn [has_readme has_tests has_ci structure_score].
  generalize (existsb (fun f => contains "readme" (lower f)) paths).
  generalize (bool_decide (".gitignore" ∈ paths)).
  generalize (existsb (fun f => contains "license" (lower f)) paths).
  generalize (existsb (fun f => contains "test" (lower f)) paths).
  generalize (existsb (fun f => contains ".github" f || contains "ci" (lower f)) paths).
  intros ci tests license gitignore readme.
  exists (count_true [readme; gitignore; license; tests; ci]).
  destruct ci, tests, license, gitignore, readme; vm_compute; repeat split; discriminate.
Qed.

Lemma structure_unit (repo : repository) :
  unit_score (structure_score (analyze_project_structure_metrics repo)).
Proof.
  destruct (structure_score_fraction repo) as (k & _ & Hk & ->).
  unfold unit_score. rewrite Qred_correct.
  pose proof (inject_Z_nonneg k (proj1 Hk)).
  assert (inject_Z k <= 5) by (change 5 with (inject_Z 5); rewrite <- Zle_Qle; lia).
  split; [apply Qle_shift_div_l | apply Qle_shift_div_r]; lra.
Qed.

(** X7.  The structure score is a fifth of the number of checklist
    items found, so one of 0, 0.2, 0.4, 0.6, 0.8 and 1; two items of
    the checklist (the ignore file and the license) count in the score
    without being returned as flags.  At most 15 paths are returned,
    while [total_files] counts them all. *)
Theorem structure_score_is_checklist_fraction (repo : repository) :
  let m := analyze_project_structure_metrics repo in
  let shown := count_true [has_readme m; has_tests m; has_ci m] in
  (exists k : Z, (shown <= k <= shown + 2)%Z /\ (0 <= k <= 5)%Z
                 /\ structure_score m == inject_Z k / 5)
  /\ (length (file_structure m) <= 15)%nat
  /\ Z.of_nat (length (file_structure m)) = Z.min 15 (total_files m).
Proof.
  intros m shown. split.
  - destruct (structure_score_fraction repo) as (k & Hs & Hk & E).
    exists k. fold m in E. rewrite E. repeat split; try apply Hs; try apply Hk.
    apply Qred_correct.
  - subst m. unfold analyze_project_structure_metrics.
    destruct (explored_paths repo) as [paths |]; cbn [file_structure total_files];
      [| simpl; split; lia].
    rewrite length_take. split; lia.
Qed.

(** *** Community engagement *)

Lemma engagement_unit (repo : repository) :
  (0 <= default 0 (stargazers_count repo))%Z ->
  (0 <= default 0 (forks_count repo))%Z ->
  (0 <= default 0 (watchers_count repo))%Z ->
  unit_score (engagement_score (calculate_community_engagement repo)).
Proof.
  intros Hs Hf Hw. unfold calculate_community_engagement. cbn [engagement_score].
  apply py_round_unit.
  destruct (normalize_unit (inject_Z (default 0%Z (stargazers_count repo))) 10) as [? ?];
    [by apply inject_Z_nonneg | lra |].
  destruct (normalize_unit (inject_Z (default 0%Z (forks_count repo))) 5) as [? ?];
    [by apply inject_Z_nonneg | lra |].
  destruct (normalize_unit (inject_Z (default 0%Z (watchers_count repo))) 10) as [? ?];
    [by apply inject_Z_nonneg | lra |].
  split; [apply Qle_shift_div_l | apply Qle_shift_div_r]; lra.
Qed.

(** X8.  With star, fork and watcher counts that are absent or
    non-negative, the engagement score lies in [0,1]; an absent count
    is read as 0; and 10 stars, 5 forks and 10 watchers give the
    score 1. *)
Theorem engagement_score_bounds (repo : repository) :
  (0 <= default 0 (stargazers_count repo))%Z ->
  (0 <= default 0 (forks_count repo))%Z ->
  (0 <= default 0 (watchers_count repo))%Z ->
  let m := calculate_community_engagement repo in
  unit_score (engagement_score m)
  /\ (stargazers_count repo = None -> stars m = 0%Z)
  /\ (forks_count repo = None -> forks m = 0%Z)
  /\ (watchers_count repo = None -> watchers m = 0%Z)
  /\ ((10 <= stars m)%Z -> (5 <= forks m)%Z -> (10 <= watchers m)%Z ->
      engagement_score m = 1).
Proof.
  intros Hs Hf Hw m. split; [by apply engagement_unit |].
  subst m. unfold calculate_community_engagement.
  cbn [stars forks watchers engagement_score].
  split; [by intros -> |]. split; [by intros -> |]. split; [by intros -> |].
  intros H1 H2 H3.
  rewrite (normalize_saturated _ 10), (normalize_saturated _ 5), (normalize_saturated _ 10);
    [reflexivity | lra | | lra | | lra |].
  - change 10 with (inject_Z 10). by rewrite <- Zle_Qle.
  - change 5 with (inject_Z 5). by rewrite <- Zle_Qle.
  - change 10 with (inject_Z 10). by rewrite <- Zle_Qle.
Qed.

Lemma engagement_score_bounds_witness :
  unit_score (engagement_score (calculate_community_engagement Sample.busy_repo)).
Proof.
  apply (engagement_score_bounds Sample.busy_repo); vm_compute; discriminate.
Defined.

(** *** The composite score of a repository *)

Lemma comprehensive_ai_scores_unit repo ai_analyzer now :
  let r := analyze_repository_comprehensive repo ai_analyzer now in
  unit_score (score (ai_commit_analysis r)) /\ unit_score (score (ai_structure_analysis r)).
Proof.
  unfold analyze_repository_comprehensive.
  destruct ai_analyzer as [a |]; [destruct (enabled a) |]; cbn;
    auto using commit_quality_unit, project_structure_unit, half_unit.
Qed.

Lemma comprehensive_metrics repo ai_analyzer now :
  let r := analyze_repository_comprehensive repo ai_analyzer now in
  velocity_metrics r = calculate_development_velocity repo (created_at repo) now
  /\ collaboration_metrics r = calculate_collaboration_index repo
  /\ structure_metrics r = analyze_project_structure_metrics repo
  /\ engagement_metrics r = calculate_community_engagement repo.
Proof.
  unfold analyze_repository_comprehensive.
  destruct ai_analyzer as [a |]; [destruct (enabled a) |]; done.
Qed.

(** X10.  For every repository whose star, fork and watcher counts are
    absent or non-negative, whatever the analyzer replies and whatever
    could not be fetched, the reported [final_score] lies in [0,1]. *)
Theorem comprehensive_final_score_in_unit_interval
    (repo : repository) (ai_analyzer : option AgileRepositoryAnalyzer) (now : datetime) :
  (0 <= default 0 (stargazers_count repo))%Z ->
  (0 <= default 0 (forks_count repo))%Z ->
  (0 <= default 0 (watchers_count repo))%Z ->
  unit_score (final_score (analyze_repository_comprehensive repo ai_analyzer now)).
Proof.
  intros Hs Hf Hw.
  destruct (comprehensive_score_and_level repo ai_analyzer now) as [-> _].
  destruct (comprehensive_metrics repo ai_analyzer now) as (-> & -> & -> & ->).
  destruct (comprehensive_ai_scores_unit repo ai_analyzer now) as [Hc Hd].
  apply py_round_unit, final_score_of_unit;
    auto using velocity_unit, collaboration_unit, structure_unit, engagement_unit.
Qed.

Lemma comprehensive_final_score_in_unit_interval_witness :
  unit_score (final_score (analyze_repository_comprehensive Sample.busy_repo
                             (Some (Sample.answering "Nota 7")) Sample.ten_weeks_later)).
Proof.
  apply comprehensive_final_score_in_unit_interval; vm_compute; discriminate.
Defined.

End Metrics.

(** ** The composite score in binary64 arithmetic *)

Section Floats.

Import Notions.
Import Binary64.
Local Open Scope Q_scope.

Lemma Qabs_nonneg_eq (q : Q) : 0 <= q -> Qabs q = q.
Proof.
  destruct q as [[| n | n] d]; intros H; try reflexivity.
  exfalso. by apply H.
Qed.

Lemma log2_floor_below_two (q : Q) : 0 < q -> q < 2 -> (log2_floor q <= 0)%Z.
Proof.
  intros H0 H2. unfold log2_floor.
  set (k := (Z.log2 (Qnum q) - Z.log2 (Z.pos (Qden q)))%Z).
  destruct (Qle_bool (2 ^ k) q) eqn:E.
  - apply Qle_bool_iff in E.
    apply Z.lt_succ_r. change (Z.succ 0) with 1%Z.
    apply (Qpower_lt_compat_l_inv 2); [| reflexivity].
    rewrite Qpower_1_r. lra.
  - assert (Hk : (k <= 1)%Z); [| lia].
    unfold k. destruct q as [n d]. cbn [Qnum Qden] in *.
    unfold Qlt in H0, H2. cbn in H0, H2.
    assert (Hn : (n < 2 * Z.pos d)%Z) by lia.
    assert (Hl : (Z.log2 n <= Z.log2 (2 * Z.pos d))%Z) by (apply Z.log2_le_mono; lia).
    rewrite Z.log2_double in Hl by lia. lia.
Qed.


(** [log2_floor] is the integer binary logarithm. *)
Lemma log2_floor_spec (q : Q) :
  0 < q -> 2 ^ log2_floor q <= q /\ q < 2 ^ (log2_floor q + 1).
Proof.
  intros H0. unfold log2_floor.
  set (k := (Z.log2 (Qnum q) - Z.log2 (Z.pos (Qden q)))%Z).
  assert (Hk : 2 ^ (k - 1) < q /\ q < 2 ^ (k + 1)).
  { unfold k. destruct q as [n d]. cbn [Qnum Qden].
    assert (Hn : (0 < n)%Z) by (unfold Qlt in H0; cbn in H0; lia).
    destruct (Z.log2_spec n Hn) as [Hn1 Hn2].
    destruct (Z.log2_spec (Z.pos d) eq_refl) as [Hd1 Hd2].
    pose proof (Z.log2_nonneg n) as Ha. pose proof (Z.log2_nonneg (Z.pos d)) as Hb.
    set (a := Z.log2 n) in *. set (b := Z.log2 (Z.pos d)) in *.
    assert (Ea : inject_Z (2 ^ a) == 2 ^ a) by (by apply Zpower_Qpower).
    assert (Eb : inject_Z (2 ^ b) == 2 ^ b) by (by apply Zpower_Qpower).
    assert (Ea' : inject_Z (2 ^ Z.succ a) == 2 * 2 ^ a).
    { rewrite Z.pow_succ_r by done. rewrite inject_Z_mult, Ea. reflexivity. }
    assert (Eb' : inject_Z (2 ^ Z.succ b) == 2 * 2 ^ b).
    { rewrite Z.pow_succ_r by done. rewrite inject_Z_mult, Eb. reflexivity. }
    assert (Pa : 0 < 2 ^ a) by (by apply Qpower_0_lt).
    assert (Pb : 0 < 2 ^ b) by (by apply Qpower_0_lt).
    rewrite Zle_Qle in Hn1, Hd1. rewrite Zlt_Qlt in Hn2, Hd2.
    rewrite Ea in Hn1. rewrite Eb in Hd1. rewrite Ea' in Hn2. rewrite Eb' in Hd2.
    assert (Eq : n # d == inject_Z n / inject_Z (Z.pos d)) by apply Qmake_Qdiv.
    assert (Pd : 0 < inject_Z (Z.pos d)) by (by rewrite <- (Zlt_Qlt 0)).
    assert (E1 : 2 ^ (a - b - 1) == 2 ^ a / (2 * 2 ^ b)).
    { replace (a - b - 1)%Z with (a - (b + 1))%Z by lia.
      rewrite Qpower_minus by discriminate.
      rewrite Qpower_plus by discriminate. rewrite Qpower_1_r.
      field; try split; lra. }
    assert (E2 : 2 ^ (a - b + 1) == 2 * 2 ^ a / 2 ^ b).
    { replace (a - b + 1)%Z with (a + 1 - b)%Z by lia.
      rewrite Qpower_minus by discriminate.
      rewrite Qpower_plus by discriminate. rewrite Qpower_1_r.
      field. lra. }
    rewrite E1, E2, Eq. split.
    - apply Qlt_shift_div_l; [done |].
      assert (2 ^ a / (2 * 2 ^ b) * (2 * 2 ^ b) == 2 ^ a) by (field; lra).
      assert (X : 2 ^ a / (2 * 2 ^ b) * inject_Z (Z.pos d)
                  < 2 ^ a / (2 * 2 ^ b) * (2 * 2 ^ b)).
      { apply Qmult_lt_l; [| done]. apply Qlt_shift_div_l; lra. }
      lra.
    - apply Qlt_shift_div_r; [done |].
      assert (2 * 2 ^ a / 2 ^ b * 2 ^ b == 2 * 2 ^ a) by (field; lra).
      assert (X : 2 * 2 ^ a / 2 ^ b * 2 ^ b <= 2 * 2 ^ a / 2 ^ b * inject_Z (Z.pos d)).
      { apply Qmult_le_l; [| done]. apply Qlt_shift_div_l; lra. }
      lra. }
  destruct Hk as [Hk1 Hk2].
  destruct (Qle_bool (2 ^ k) q) eqn:E.
  - apply Qle_bool_iff in E. done.
  - replace (k - 1 + 1)%Z with k by lia. split; [lra |].
    apply Qnot_le_lt. intros Hle. apply Qle_bool_iff in Hle. congruence.
Qed.

Lemma log2_floor_comp (x y : Q) : 0 < x -> x == y -> log2_floor x = log2_floor y.
Proof.
  intros Hx E.
  assert (Hy : 0 < y) by (by rewrite <- E).
  destruct (log2_floor_spec x Hx) as [X1 X2].
  destruct (log2_floor_spec y Hy) as [Y1 Y2].
  assert (log2_floor x < log2_floor y + 1)%Z.
  { apply (Qpower_lt_compat_l_inv 2); [| reflexivity]. lra. }
  assert (log2_floor y < log2_floor x + 1)%Z.
  { apply (Qpower_lt_compat_l_inv 2); [| reflexivity]. lra. }
  lia.
Qed.

Lemma round_half_even_comp (x y : Q) : x == y -> round_half_even x = round_half_even y.
Proof.
  intros E. unfold round_half_even.
  rewrite (Qfloor_comp _ _ E).
  assert (Ec : (x - inject_Z (Qfloor y) ?= 1 # 2) = (y - inject_Z (Qfloor y) ?= 1 # 2))
    by (by rewrite E).
  by rewrite Ec.
Qed.

(** The float of a number does not depend on how the fraction is
    written. *)
Lemma b64_comp (x y : Q) : x == y -> b64 x = b64 y.
Proof.
  intros E. unfold b64.
  assert (E0 : Qeq_bool x 0 = Qeq_bool y 0).
  { destruct (Qeq_bool x 0) eqn:Ex, (Qeq_bool y 0) eqn:Ey; try done.
    - apply Qeq_bool_iff in Ex. apply Qeq_bool_neq in Ey. rewrite <- E in Ey. done.
    - apply Qeq_bool_iff in Ey. apply Qeq_bool_neq in Ex. rewrite E in Ex. done. }
  rewrite E0. destruct (Qeq_bool y 0) eqn:Ey; [done |].
  apply Qeq_bool_neq in Ey.
  assert (Ee : ulp_exponent x = ulp_exponent y).
  { unfold ulp_exponent. f_equal. f_equal. apply log2_floor_comp.
    - assert (Hx : ~ x == 0) by (by rewrite E).
      apply Qabs_case; intros H;
        destruct (Qlt_le_dec 0 x) as [Hp | Hn]; try lra;
        exfalso; apply Hx; lra.
    - by rewrite E. }
  cbv zeta. rewrite Ee.
  rewrite (round_half_even_comp (x / 2 ^ ulp_exponent y) (y / 2 ^ ulp_exponent y))
    by (by rewrite E).
  done.
Qed.

(** The float of a number below 2 is within [2^-53] of it. *)
Lemma b64_error (q : Q) :
  0 <= q -> q < 2 -> 0 <= b64 q /\ q - half_ulp <= b64 q <= q + half_ulp.
Proof.
  intros H0 H2. unfold b64.
  destruct (Qeq_bool q 0) eqn:E.
  - apply Qeq_bool_iff in E. unfold half_ulp. lra.
  - assert (Hq : 0 < q).
    { apply Qeq_bool_neq in E. lra. }
    set (u := 2 ^ ulp_exponent q).
    assert (Hu : 0 < u) by (by apply Qpower_0_lt).
    assert (Hu' : u <= 1 # 4503599627370496).
    { change (1 # 4503599627370496) with (2 ^ (-52)). unfold u.
      apply Qpower_le_compat_l; [| discriminate].
      unfold ulp_exponent. rewrite Qabs_nonneg_eq by lra.
      pose proof (log2_floor_below_two q Hq H2). lia. }
    cbv zeta. rewrite Qred_correct.
    set (x := q / u).
    assert (Hx : x * u == q) by (unfold x; field; lra).
    pose proof (round_half_even_error x) as [Hlo Hhi].
    destruct (round_half_even_bounds x 0 (Qceiling x)) as [Hr _].
    { change (inject_Z 0) with 0. unfold x. apply Qle_shift_div_l; lra. }
    { apply Qle_ceiling. }
    rewrite Zle_Qle in Hr. change (inject_Z 0) with 0 in Hr.
    set (r := inject_Z (round_half_even x)) in *.
    unfold half_ulp. split; [nra | split; nra].
Qed.

Lemma ulp_exponent_below_two (q : Q) : 0 < q -> q < 2 -> (ulp_exponent q <= -52)%Z.
Proof.
  intros H0 H2. unfold ulp_exponent. rewrite Qabs_nonneg_eq by lra.
  pose proof (log2_floor_below_two q H0 H2). lia.
Qed.

(** Rounding to a float does not cross 1. *)
Lemma b64_at_most_one (q : Q) : 0 <= q -> q <= 1 -> b64 q <= 1.
Proof.
  intros H0 H1. unfold b64.
  destruct (Qeq_bool q 0) eqn:E; [discriminate |].
  assert (Hq : 0 < q).
  { apply Qeq_bool_neq in E. lra. }
  pose proof (ulp_exponent_below_two q Hq) as He.
  set (n := ulp_exponent q) in *.
  assert (Hn : (n <= -52)%Z) by (apply He; lra).
  cbv zeta. rewrite Qred_correct.
  set (u := 2 ^ n).
  assert (Hu : 0 < u) by (by apply Qpower_0_lt).
  assert (Hi : inject_Z (2 ^ (- n)) * u == 1).
  { rewrite Zpower_Qpower by lia. change (inject_Z 2) with 2.
    rewrite Qpower_opp. unfold u. field. apply Qpower_not_0. discriminate. }
  destruct (round_half_even_bounds (q / u) 0 (2 ^ (- n))) as [_ Hr].
  { change (inject_Z 0) with 0. apply Qle_shift_div_l; lra. }
  { apply Qle_shift_div_r; [done |]. lra. }
  rewrite Zle_Qle in Hr.
  set (r := inject_Z (round_half_even (q / u))) in *.
  set (m := inject_Z (2 ^ (- n))) in *.
  nra.
Qed.

Import Composite64.

(** The floats of the six weights: only 0.25 is exact. *)
Lemma weights_as_floats :
  weight Repos.development_velocity = 1 # 4
  /\ weight Repos.collaboration_index = 3602879701896397 # 18014398509481984
  /\ weight Repos.code_quality = 3602879701896397 # 18014398509481984
  /\ weight Repos.documentation_maturity = 5404319552844595 # 36028797018963968
  /\ weight Repos.project_structure = 3602879701896397 # 36028797018963968
  /\ weight Repos.community_engagement = 3602879701896397 # 36028797018963968.
Proof. vm_compute. done. Qed.

(** One rounded operation: name its result and bound its error. *)
Ltac float_step t :=
  let H := fresh in
  let x := fresh "x" in
  pose proof (b64_error t) as H; unfold half_ulp in H;
  set (x := b64 t) in *;
  destruct H as (? & ? & ?); [lra | lra |].

(** The computed sum against the exact weighted sum. *)
Lemma final_score_error (v c q d s e : Q) :
  unit_score v -> unit_score c -> unit_score q ->
  unit_score d -> unit_score s -> unit_score e ->
  let total := Repos.final_score_of v c q d s e in
  0 <= final_score v c q d s e
  /\ total - sum_error <= final_score v c q d s e <= total + sum_error.
Proof.
  intros Hv Hc Hq Hd Hs He total. subst total. unfold unit_score in *.
  unfold Repos.final_score_of, final_score, add, mul.
  cbn [Repos.development_velocity Repos.collaboration_index Repos.code_quality
       Repos.documentation_maturity Repos.project_structure Repos.community_engagement
       Repos.AGILE_METRICS_WEIGHTS].
  destruct weights_as_floats as (-> & -> & -> & -> & -> & ->).
  unfold sum_error.
  float_step (v * (1 # 4)).
  float_step (c * (3602879701896397 # 18014398509481984)).
  float_step (q * (3602879701896397 # 18014398509481984)).
  float_step (d * (5404319552844595 # 36028797018963968)).
  float_step (s * (3602879701896397 # 36028797018963968)).
  float_step (e * (3602879701896397 # 36028797018963968)).
  repeat match goal with
         | |- context [b64 (?a + ?b)] => is_var a; is_var b; float_step (a + b)
         end.
  split; [lra | split; lra].
Qed.






(** Signals 0.9, 1, 0.5, 0.5, 1, 1: the decimals sum to 0.8, the
    computed sum is 0.7999999999999999 and the level is "Maduro". *)
Example decimal_sum_at_upper_threshold :
  final_score (b64 (9 # 10)) 1 (1 # 2) (1 # 2) 1 1 = 7205759403792793 # 9007199254740992
  /\ maturity_level (final_score (b64 (9 # 10)) 1 (1 # 2) (1 # 2) 1 1) = "Maduro"
  /\ Repos.final_score_of (9 # 10) 1 (1 # 2) (1 # 2) 1 1 == 8 # 10
  /\ Spec.tier (Repos.final_score_of (9 # 10) 1 (1 # 2) (1 # 2) 1 1) = "Excelente".
Proof. vm_compute. done. Qed.

(** Signals 0.32, 0.725, 0.5, 0.5, 0, 0: the decimals sum to 0.4, the
    computed sum is 0.39999999999999997 and the level is "Iniciante". *)
Example decimal_sum_at_lower_threshold :
  final_score (b64 (32 # 100)) (b64 (725 # 1000)) (1 # 2) (1 # 2) 0 0
  = 7205759403792793 # 18014398509481984
  /\ maturity_level (final_score (b64 (32 # 100)) (b64 (725 # 1000)) (1 # 2) (1 # 2) 0 0)
     = "Iniciante"
  /\ Repos.final_score_of (32 # 100) (725 # 1000) (1 # 2) (1 # 2) 0 0 == 4 # 10
  /\ Spec.tier (Repos.final_score_of (32 # 100) (725 # 1000) (1 # 2) (1 # 2) 0 0)
     = "Em Desenvolvimento".
Proof. vm_compute. done. Qed.

(** Signals 1, 1, 0.999, 0.999, 0, 0: the computed sum is below 0.8
    and the level is "Maduro", while the reported score is 0.8. *)
Example rounded_score_in_higher_tier :
  maturity_level (final_score 1 1 (b64 (999 # 1000)) (b64 (999 # 1000)) 0 0) = "Maduro"
  /\ reported_score (final_score 1 1 (b64 (999 # 1000)) (b64 (999 # 1000)) 0 0)
     = b64 (8 # 10)
  /\ maturity_level (reported_score (final_score 1 1 (b64 (999 # 1000)) (b64 (999 # 1000)) 0 0))
     = "Excelente".
Proof. vm_compute. done. Qed.

(** Signals 0.15, 0, 0.5, 0.5, 0, 0: the decimals sum to 0.2125, a
    tie; the computed sum is 0.21250000000000002 and is reported as
    0.213, where the decimal tie would go to 0.212. *)
Example computed_sum_above_tie :
  final_score (b64 (15 # 100)) 0 (1 # 2) (1 # 2) 0 0 = 1914029841632461 # 9007199254740992
  /\ reported_score (final_score (b64 (15 # 100)) 0 (1 # 2) (1 # 2) 0 0) = b64 (213 # 1000)
  /\ py_round (Repos.final_score_of (15 # 100) 0 (1 # 2) (1 # 2) 0 0) 3 == 212 # 1000.
Proof. vm_compute. done. Qed.

(** Signals 0.05, 0.25, 0.5, 0.5, 0, 0: the computed sum is the float
    0.2375, below the decimal, and is reported as 0.237. *)
Example computed_sum_below_tie :
  final_score (b64 (5 # 100)) (b64 (25 # 100)) (1 # 2) (1 # 2) 0 0
  = 4278419646001971 # 18014398509481984
  /\ reported_score (final_score (b64 (5 # 100)) (b64 (25 # 100)) (1 # 2) (1 # 2) 0 0)
     = b64 (237 # 1000)
  /\ py_round (Repos.final_score_of (5 # 100) (25 # 100) (1 # 2) (1 # 2) 0 0) 3 == 238 # 1000.
Proof. vm_compute. done. Qed.

Lemma py_round_3_thousandth (x : Q) :
  0 <= x -> x <= 1 + sum_error ->
  exists k : Z, (0 <= k <= 1000)%Z /\ py_round x 3 == inject_Z k / 1000.
Proof.
  intros H0 H1. exists (round_half_even (x * pow10 3)). split.
  - change (pow10 3) with 1000.
    pose proof (round_half_even_error (x * 1000)) as [_ Hhi].
    destruct (round_half_even_bounds (x * 1000) 0 (Qceiling (x * 1000))) as [Hr _].
    { change (inject_Z 0) with 0. lra. }
    { apply Qle_ceiling. }
    split; [done |].
    assert (Hlt : inject_Z (round_half_even (x * 1000)) < inject_Z 1001).
    { change (inject_Z 1001) with 1001. unfold sum_error in H1. lra. }
    rewrite <- Zlt_Qlt in Hlt. lia.
  - unfold py_round. rewrite Qred_correct. reflexivity.
Qed.

(** X11.  For six signals in [0,1] the reported [final_score] is the
    float of a whole number of thousandths between 0 and 1, lies in
    [0,1], and differs from the exact weighted sum by at most
    [0.0005 + 2^-48]. *)
Theorem reported_score_is_rounded_thousandth (v c q d s e : Q) :
  unit_score v -> unit_score c -> unit_score q ->
  unit_score d -> unit_score s -> unit_score e ->
  let exact := Repos.final_score_of v c q d s e in
  let reported := reported_score (final_score v c q d s e) in
  unit_score reported
  /\ (exists k : Z, (0 <= k <= 1000)%Z /\ reported = b64 (inject_Z k / 1000))
  /\ exact - (1 # 2000) - tier_margin <= reported <= exact + (1 # 2000) + tier_margin.
Proof.
  intros Hv Hc Hq Hd Hs He exact reported.
  destruct (final_score_error v c q d s e Hv Hc Hq Hd Hs He) as [H0 Hclose].
  fold exact in Hclose.
  pose proof (final_score_of_unit v c q d s e Hv Hc Hq Hd Hs He) as Hu.
  fold exact in Hu. unfold unit_score in Hu.
  set (total := final_score v c q d s e) in *.
  assert (H1 : total <= 1 + sum_error) by lra.
  destruct (py_round_3_thousandth total H0 H1) as (k & Hk & Ek).
  pose proof (py_round_3_error total) as Hr.
  assert (Hk1 : inject_Z k / 1000 <= 1).
  { apply Qle_shift_div_r; [reflexivity |].
    change (1 * 1000) with (inject_Z 1000). rewrite <- Zle_Qle. lia. }
  assert (Hk0 : 0 <= inject_Z k / 1000).
  { apply Qle_shift_div_l; [reflexivity |].
    change (0 * 1000) with (inject_Z 0). rewrite <- Zle_Qle. lia. }
  assert (Eb : reported = b64 (inject_Z k / 1000)).
  { unfold reported, reported_score, round. by apply b64_comp. }
  split; [| split].
  - rewrite Eb. split; [apply b64_error; lra | by apply b64_at_most_one].
  - eauto.
  - rewrite Eb.
    destruct (b64_error (inject_Z k / 1000)) as (_ & ? & ?); [done | lra |].
    unfold half_ulp, tier_margin, sum_error in *. rewrite <- Ek in *. lra.
Qed.

Lemma reported_score_is_rounded_thousandth_witness :
  unit_score (reported_score (final_score 1 (b64 (1 # 3)) (b64 (7 # 10)) (1 # 2) (b64 (3 # 5)) 0)).
Proof.
  apply (reported_score_is_rounded_thousandth
           1 (b64 (1 # 3)) (b64 (7 # 10)) (1 # 2) (b64 (3 # 5)) 0);
    split; vm_compute; discriminate.
Defined.

End Floats.

(** ** Recommendation lines *)

Section Lines.

Import Notions.

Lemma string_app_cons (x : ascii) (a b : string) : String x a ++ b = String x (a ++ b).
Proof. reflexivity. Qed.

Lemma string_app_assoc (a b c : string) : (a ++ b) ++ c = a ++ b ++ c.
Proof. induction a as [| x a IH]; [done |]. rewrite !string_app_cons. by f_equal. Qed.

Lemma string_app_nil_r (a : string) : a ++ "" = a.
Proof. induction a as [| x a IH]; [done |]. rewrite string_app_cons. by f_equal. Qed.

Lemma prefix_empty (s : string) : String.prefix "" s = true.
Proof. by destruct s. Qed.

Lemma prefix_app (k b c : string) :
  String.prefix k b = true -> String.prefix k (b ++ c) = true.
Proof.
  revert b. induction k as [| x k IH]; intros b; [intros _; apply prefix_empty |].
  destruct b as [| y b]; [done |]. rewrite string_app_cons. simpl.
  destruct (ascii_dec x y); [apply IH | done].
Qed.

Lemma contains_unfold (k s : string) :
  contains k s
  = String.prefix k s || match s with "" => false | String _ s' => contains k s' end.
Proof. by destruct s. Qed.

Lemma contains_app_r (k a t : string) : contains k t = true -> contains k (a ++ t) = true.
Proof.
  intros H. induction a as [| x a IH]; [done |].
  rewrite string_app_cons, contains_unfold, IH. apply orb_true_r.
Qed.

Lemma contains_app_l (k b c : string) : contains k b = true -> contains k (b ++ c) = true.
Proof.
  induction b as [| x b IH].
  - rewrite contains_unfold. rewrite orb_false_r. intros H.
    rewrite contains_unfold. rewrite (prefix_app k "" c H). done.
  - rewrite contains_unfold. intros [H | H]%orb_true_iff.
    + rewrite contains_unfold. by rewrite (prefix_app k (String x b) c H).
    + rewrite string_app_cons, contains_unfold, (IH H). apply orb_true_r.
Qed.

(** A stem found in a part of a text is found in the text. *)
Lemma contains_within (k pre line post : string) :
  contains k line = true -> contains k (pre ++ line ++ post) = true.
Proof. intros H. by apply contains_app_r, contains_app_l. Qed.

Lemma lower_app (a b : string) : lower (a ++ b) = lower a ++ lower b.
Proof.
  induction a as [| x a IH]; [done |].
  rewrite string_app_cons. simpl. rewrite string_app_cons. by f_equal.
Qed.

Lemma split_nonempty (sep : ascii) (s : string) : split sep s <> [].
Proof.
  destruct s as [| c s]; [done |]. simpl.
  destruct (Ascii.eqb c sep); [done |]. by destruct (split sep s).
Qed.

(** Joining the lines of a text with the separator gives the text back. *)
Lemma join_split (sep : ascii) (s : string) : join (String sep "") (split sep s) = s.
Proof.
  induction s as [| c s IH]; [done |]. simpl.
  pose proof (split_nonempty sep s) as Hne.
  destruct (Ascii.eqb_spec c sep) as [-> | Hc].
  - destruct (split sep s) as [| w ws]; [done |].
    change (join (String sep "") ("" :: w :: ws))
      with ("" ++ String sep "" ++ join (String sep "") (w :: ws)).
    by rewrite IH.
  - destruct (split sep s) as [| w ws]; [done |].
    destruct ws as [| w' ws].
    + simpl in *. by rewrite IH.
    + change (join (String sep "") (String c w :: w' :: ws))
        with (String c (w ++ String sep "" ++ join (String sep "") (w' :: ws))).
      by rewrite <- IH.
Qed.

Lemma join_elem (sep : string) (parts : list string) (line : string) :
  line ∈ parts -> exists pre post, join sep parts = pre ++ line ++ post.
Proof.
  induction parts as [| p ps IH]; [by intros ?%elem_of_nil |].
  intros [-> | Hin]%elem_of_cons.
  - destruct ps as [| q qs].
    + exists "", "". simpl. by rewrite string_app_nil_r.
    + exists "", (sep ++ join sep (q :: qs)). done.
  - destruct ps as [| q qs]; [by apply elem_of_nil in Hin |].
    destruct (IH Hin) as (pre & post & E).
    exists (p ++ sep ++ pre), post.
    change (join sep (p :: q :: qs)) with (p ++ sep ++ join sep (q :: qs)).
    by rewrite E, !string_app_assoc.
Qed.

Lemma line_within (text line : string) :
  line ∈ split "010" text -> exists pre post, text = pre ++ line ++ post.
Proof.
  intros Hin. destruct (join_elem (String "010" "") _ _ Hin) as (pre & post & E).
  rewrite join_split in E. eauto.
Qed.

Lemma existsb_contains_within (stems : list string) (pre line post : string) :
  existsb (fun k => contains k (lower line)) stems = true ->
  existsb (fun k => contains k (lower (pre ++ line ++ post))) stems = true.
Proof.
  rewrite !existsb_exists. intros (k & Hk & Hc). exists k. split; [done |].
  rewrite !lower_app. by apply contains_within.
Qed.

Lemma lstrip_suffix p s : exists pre, s = pre ++ lstrip_by p s.
Proof.
  induction s as [| c s [pre IH]]; [by exists "" |].
  simpl. destruct (p c); [| by exists ""].
  exists (String c pre). rewrite string_app_cons. by f_equal.
Qed.

Lemma rstrip_prefix p s : exists post, s = rstrip_by p s ++ post.
Proof.
  induction s as [| c s [post IH]]; [by exists "" |].
  simpl. destruct (rstrip_by p s) as [| d t] eqn:E.
  - destruct (p c); [by exists (String c s) | by exists s].
  - exists post. rewrite string_app_cons. by f_equal.
Qed.

Lemma strip_within (s : string) : exists pre post, s = pre ++ strip s ++ post.
Proof.
  unfold strip, strip_by.
  destruct (lstrip_suffix is_space s) as [pre E1].
  destruct (rstrip_prefix is_space (lstrip_by is_space s)) as [post E2].
  exists pre, post. by rewrite <- E2.
Qed.

Lemma no_stem_no_line (stems : list string) (text : string) :
  existsb (fun k => contains k (lower text)) stems = false ->
  filter (fun line => existsb (fun k => contains k (lower line)) stems = true)
         (split "010" text) = [].
Proof.
  intros H.
  destruct (filter _ (split "010" text)) as [| line rest] eqn:E; [done |].
  assert (Hin : line ∈ filter
                  (fun line => existsb (fun k => contains k (lower line)) stems = true)
                  (split "010" text)) by (rewrite E; apply list_elem_of_here).
  apply list_elem_of_filter in Hin as [Hk Hl].
  destruct (line_within text line Hl) as (pre & post & ->).
  apply (existsb_contains_within stems pre line post) in Hk. congruence.
Qed.

Lemma repos_no_stem (text : string) :
  Repos.mentions_keyword text = false -> Repos._extract_recommendations text = [].
Proof.
  intros H. unfold Repos._extract_recommendations.
  unfold Repos.mentions_keyword in *. by rewrite (no_stem_no_line _ _ H).
Qed.

Lemma usuario_no_stem (text : string) :
  Usuario.mentions_keyword text = false -> Usuario.extract_lines text = [].
Proof.
  intros H. unfold Usuario.extract_lines.
  unfold Usuario.mentions_keyword in *. by rewrite (no_stem_no_line _ _ H).
Qed.

Lemma no_stem_strip (stems : list string) (text : string) :
  existsb (fun k => contains k (lower text)) stems = false ->
  existsb (fun k => contains k (lower (strip text))) stems = false.
Proof.
  intros H.
  destruct (existsb (fun k => contains k (lower (strip text))) stems) eqn:E; [| done].
  destruct (strip_within text) as (pre & post & Ht).
  apply (existsb_contains_within stems pre (strip text) post) in E.
  rewrite <- Ht in E. congruence.
Qed.

(** X12.  A reply in which none of the stems recomend, sugest, melhor
    and deve occurs, in any letter case, yields no recommendation at
    repository level. *)
Theorem reply_without_stem_gives_no_recommendation
    (self : Repos.AgileRepositoryAnalyzer) :
  (forall messages max_tokens reply,
      Repos.client self messages max_tokens = Some reply ->
      Repos.mentions_keyword reply = false) ->
  (forall commit_messages,
      Repos.recommendations (Repos.analyze_commit_quality self commit_messages) = [])
  /\ (forall file_structure readme_content,
        Repos.recommendations
          (Repos.analyze_project_structure self file_structure readme_content) = []).
Proof.
  intros Hc.
  assert (Hr : forall messages max_tokens,
             Repos.recommendations
               (Repos.of_reply (Repos._call_openai self messages max_tokens)) = []).
  { intros messages max_tokens. unfold Repos._call_openai.
    destruct (negb _); [done |].
    destruct (Repos.client _ _ _) as [reply |] eqn:E; [| done].
    simpl. destruct (truthy _); [| done]. simpl.
    apply repos_no_stem. apply no_stem_strip. by apply (Hc _ _ _ E). }
  split; intros.
  - unfold Repos.analyze_commit_quality. destruct (_ || _); [done | apply Hr].
  - unfold Repos.analyze_project_structure. destruct (negb _); [done | apply Hr].
Qed.

Lemma reply_without_stem_gives_no_recommendation_witness :
  Repos.recommendations
    (Repos.analyze_commit_quality (Sample.answering Sample.english_reply) ["fix: typo"]) = [].
Proof.
  apply (reply_without_stem_gives_no_recommendation (Sample.answering Sample.english_reply)).
  intros messages max_tokens reply [= <-]. reflexivity.
Defined.

(** X13.  When the service answers a per-user analysis with a Latin
    text (ASCII and accented letters) that is not blank and in which
    none of the stems occurs, the three fixed recommendations of that
    analysis are returned in place of an empty list. *)
Theorem reply_without_stem_gets_fixed_recommendations
    (self : Usuario.DetailedAgileAnalyzer) :
  answers_without_stem self ->
  (forall commits_data,
      (exists c, c ∈ commits_data /\ truthy (Usuario.commit_message c) = true) ->
      Usuario.recommendations (Usuario.analyze_commits_detailed self commits_data)
      = ["Melhore a clareza das mensagens de commit";
         "Use formato convencional (feat:, fix:, docs:)";
         "Descreva o 'porquê' além do 'o quê'"])
  /\ (forall issues_data,
        issues_data <> [] ->
        Usuario.recommendations (Usuario.analyze_issues_detailed self issues_data)
        = ["Adicione critérios de aceitação claros";
           "Use formato 'Como... Eu quero... Para que...'";
           "Inclua mais detalhes técnicos"])
  /\ (forall reviews_data,
        reviews_data <> [] ->
        Usuario.recommendations (Usuario.analyze_reviews_detailed self reviews_data)
        = ["Forneça feedback mais específico";
           "Sugira melhorias construtivas";
           "Foque em qualidade, segurança e performance"]).
Proof.
  intros [Hen Hc].
  assert (Hr : forall messages max_tokens,
             exists result, Usuario._call_openai self messages max_tokens = Some result
                            /\ truthy result = true
                            /\ Usuario.extract_lines result = []).
  { intros messages max_tokens. unfold Usuario._call_openai. rewrite Hen. simpl.
    destruct (Hc messages max_tokens) as (reply & -> & _ & Ht & Hk).
    exists (strip reply). split; [done |]. split; [done |].
    apply usuario_no_stem. unfold Usuario.mentions_keyword in *. by apply no_stem_strip. }
  split; [| split].
  - intros commits_data (c & Hin & Hmsg).
    destruct commits_data as [| c0 cs]; [by apply elem_of_nil in Hin |].
    unfold Usuario.analyze_commits_detailed. rewrite Hen.
    assert (Hne : filter (fun m => truthy m = true)
                         (map Usuario.commit_message (c0 :: cs)) <> []).
    { intros E. apply (filter_nil_not_elem_of _ _ (Usuario.commit_message c) E Hmsg).
      apply list_elem_of_In, in_map, list_elem_of_In, Hin. }
    rewrite bool_decide_eq_false_2 by done. cbn [negb orb].
    match goal with |- context [Usuario._call_openai self ?m ?k] =>
      destruct (Hr m k) as (result & -> & -> & ->) end.
    reflexivity.
  - intros issues_data Hne. destruct issues_data as [| i rest]; [done |].
    unfold Usuario.analyze_issues_detailed. rewrite Hen. cbn [negb].
    match goal with |- context [Usuario._call_openai self ?m ?k] =>
      destruct (Hr m k) as (result & -> & -> & ->) end.
    reflexivity.
  - intros reviews_data Hne. destruct reviews_data as [| r rest]; [done |].
    unfold Usuario.analyze_reviews_detailed. rewrite Hen. cbn [negb].
    match goal with |- context [Usuario._call_openai self ?m ?k] =>
      destruct (Hr m k) as (result & -> & -> & ->) end.
    reflexivity.
Qed.

Lemma reply_without_stem_gets_fixed_recommendations_witness :
  Usuario.recommendations
    (Usuario.analyze_commits_detailed (Inputs.replying Sample.english_reply)
       [Sample.a_commit])
  = ["Melhore a clareza das mensagens de commit";
     "Use formato convencional (feat:, fix:, docs:)";
     "Descreva o 'porquê' além do 'o quê'"].
Proof.
  apply (reply_without_stem_gets_fixed_recommendations
           (Inputs.replying Sample.english_reply)).
  - split; [reflexivity |]. intros messages max_tokens.
    exists Sample.english_reply. repeat split.
  - exists Sample.a_commit. split; [apply list_elem_of_here | reflexivity].
Defined.

Lemma or_default_nonempty (recommendations default : list string) :
  default <> [] -> Usuario.or_default recommendations default <> [].
Proof. intros Hd. by destruct recommendations. Qed.

(** X14.  A per-user analysis returns an empty recommendation list only
    when there was nothing to analyse or the request failed; in both
    cases the score is the neutral 0.5. *)
Theorem empty_recommendations_mean_no_data_or_failure
    (self : Usuario.DetailedAgileAnalyzer) :
  (forall commits_data,
      let r := Usuario.analyze_commits_detailed self commits_data in
      Usuario.recommendations r = [] ->
      Usuario.score r = (1 # 2)%Q
      /\ (Usuario.analysis r = "Nenhum commit encontrado"
          \/ Usuario.analysis r = "Falha na análise de IA"))
  /\ (forall issues_data,
        let r := Usuario.analyze_issues_detailed self issues_data in
        Usuario.recommendations r = [] ->
        Usuario.score r = (1 # 2)%Q
        /\ (Usuario.analysis r = "Nenhuma issue encontrada"
            \/ Usuario.analysis r = "Falha na análise de IA"))
  /\ (forall reviews_data,
        let r := Usuario.analyze_reviews_detailed self reviews_data in
        Usuario.recommendations r = [] ->
        Usuario.score r = (1 # 2)%Q
        /\ (Usuario.analysis r = "Nenhuma revisão encontrada"
            \/ Usuario.analysis r = "Falha na análise de IA")).
Proof.
  split; [| split].
  - intros [| c cs]; [by (simpl; auto) |]. unfold Usuario.analyze_commits_detailed.
    destruct (_ || _); [done |].
    destruct (Usuario._call_openai _ _ _) as [result |]; [| by (simpl; auto)].
    destruct (truthy result); [| by (simpl; auto)].
    simpl. intros H. by apply or_default_nonempty in H.
  - intros [| i rest]; [by (simpl; auto) |]. unfold Usuario.analyze_issues_detailed.
    destruct (negb _); [done |].
    destruct (Usuario._call_openai _ _ _) as [result |]; [| by (simpl; auto)].
    destruct (truthy result); [| by (simpl; auto)].
    simpl. intros H. by apply or_default_nonempty in H.
  - intros [| r rest]; [by (simpl; auto) |]. unfold Usuario.analyze_reviews_detailed.
    destruct (negb _); [done |].
    destruct (Usuario._call_openai _ _ _) as [result |]; [| by (simpl; auto)].
    destruct (truthy result); [| by (simpl; auto)].
    simpl. intros H. by apply or_default_nonempty in H.
Qed.

Lemma empty_recommendations_mean_no_data_or_failure_witness :
  Usuario.score (Usuario.analyze_commits_detailed (Inputs.replying "   ") [Sample.a_commit])
  = (1 # 2)%Q.
Proof.
  apply (proj1 (empty_recommendations_mean_no_data_or_failure (Inputs.replying "   "))
           [Sample.a_commit]).
  reflexivity.
Defined.

Lemma lstrip_not_started p s : starts_with p (lstrip_by p s) = false.
Proof.
  induction s as [| c s IH]; [done |]. simpl. destruct (p c) eqn:E; [done |]. by simpl.
Qed.

Lemma lstrip_unchanged p s : starts_with p s = false -> lstrip_by p s = s.
Proof. destruct s as [| c s]; [done |]. simpl. by intros ->. Qed.

Lemma rstrip_keeps_start p q s :
  starts_with q s = false -> starts_with q (rstrip_by p s) = false.
Proof.
  destruct s as [| c s]; [done |]. simpl. intros Hq.
  destruct (rstrip_by p s); [by destruct (p c) | done].
Qed.

Lemma clean_not_marked (line : string) :
  starts_with Repos.is_marker (Repos.clean line) = false.
Proof.
  unfold Repos.clean, strip, strip_by.
  pose proof (lstrip_not_started Repos.is_marker line) as Hm.
  set (x := lstrip_by Repos.is_marker line) in *.
  assert (Hs : starts_with is_space x = false).
  { destruct x as [| c x]; [done |]. simpl in *. unfold Repos.is_marker in Hm.
    destruct (is_space c); [| done]. by rewrite orb_true_r in Hm. }
  rewrite (lstrip_unchanged _ _ Hs). by apply rstrip_keeps_start.
Qed.

(** X15.  For a reply in Latin text (ASCII and accented letters),
    every repository-level recommendation is a line of the reply that
    mentions a stem, without its leading list markers and its
    surrounding white space; it is longer than 10 characters, counted
    as [len] counts them, and does not begin with a digit, a dot, a
    dash, an asterisk or white space. *)
Theorem recommendation_is_cleaned_keyword_line (text rec : string) :
  latin_text text = true ->
  rec ∈ Repos._extract_recommendations text ->
  exists line,
    line ∈ split "010" text
    /\ Repos.mentions_keyword line = true
    /\ rec = Repos.clean line
    /\ 10 < py_len rec
    /\ starts_with Repos.is_marker rec = false.
Proof.
  unfold Repos._extract_recommendations.
  intros _ (i & Hi & _)%elem_of_take. apply list_elem_of_lookup_2 in Hi.
  apply list_elem_of_filter in Hi as [Hkeep Hin].
  apply list_elem_of_In, in_map_iff in Hin as (line & <- & Hin).
  apply list_elem_of_In, list_elem_of_filter in Hin as [Hk Hl].
  exists line. repeat split; try done.
  - unfold Repos.keep in Hkeep. apply andb_true_iff in Hkeep as [_ Hlen].
    by apply Nat.ltb_lt in Hlen.
  - apply clean_not_marked.
Qed.

Lemma recommendation_is_cleaned_keyword_line_witness :
  exists line,
    line ∈ split "010" Inputs.portuguese_reply
    /\ Repos.mentions_keyword line = true
    /\ "Sugestão: adicionar testes" = Repos.clean line
    /\ 10 < py_len "Sugestão: adicionar testes"
    /\ starts_with Repos.is_marker "Sugestão: adicionar testes" = false.
Proof.
  apply (recommendation_is_cleaned_keyword_line Inputs.portuguese_reply).
  - reflexivity.
  - vm_compute. apply list_elem_of_further, list_elem_of_here.
Defined.

End Lines.

(** ** More on the commit-frequency heuristic *)

Section Levels.

Import Usuario Notions.
Local Open Scope Q_scope.

(** The level of the top-down rule, by integer comparisons. *)
Lemma alert_level_by_counts (count weeks : Z) :
  (1 <= count)%Z -> (1 <= weeks)%Z ->
  Spec.alert_level count weeks
  = if (weeks <=? count)%Z then "good"
    else if (10 * count <=? 3 * weeks)%Z then "high"
    else if (10 * count <=? 6 * weeks)%Z then "medium"
    else "normal".
Proof.
  intros Hc Hw. unfold Spec.alert_level.
  assert (Hw0 : 0 < inject_Z weeks)
    by (change 0 with (inject_Z 0); rewrite <- Zlt_Qlt; lia).
  set (x := inject_Z count / inject_Z weeks).
  assert (Hx1 : 1 <= x <-> inject_Z weeks <= inject_Z count).
  { subst x. split.
    - intros H. destruct (Qlt_le_dec (inject_Z count) (inject_Z weeks)) as [Hlt |]; [| done].
      exfalso. apply (Qlt_not_le (inject_Z count / inject_Z weeks) 1); [| done].
      apply Qlt_shift_div_r; lra.
    - intros H. apply Qle_shift_div_l; lra. }
  assert (Hx2 : x < 1 # 2 <-> 2 * inject_Z count < inject_Z weeks).
  { subst x. split.
    - intros H. destruct (Qlt_le_dec (2 * inject_Z count) (inject_Z weeks)) as [| Hle];
        [done |].
      exfalso. apply (Qlt_not_le _ _ H). apply Qle_shift_div_l; lra.
    - intros H. apply Qlt_shift_div_r; lra. }
  destruct (Z.leb_spec weeks count) as [Hge | Hlt].
  - assert (H1 : Qle_bool 1 x = true)
      by (apply Qle_bool_iff, Hx1; by rewrite <- Zle_Qle).
    by rewrite H1.
  - assert (H1 : Qle_bool 1 x = false).
    { apply Qle_bool_false. apply Qnot_le_lt. rewrite Hx1, <- Zle_Qle. lia. }
    rewrite H1. rewrite Z.max_r by lia.
    assert (Ewi : inject_Z (weeks - count) == inject_Z weeks - inject_Z count)
      by (unfold Z.sub; rewrite inject_Z_plus, inject_Z_opp; ring).
    assert (Hlt' : inject_Z count < inject_Z weeks) by (by rewrite <- Zlt_Qlt).
    destruct (Z.leb_spec (10 * count) (3 * weeks)) as [H3 | H3].
    { assert (H7 : Qle_bool ((7 # 10) * inject_Z weeks) (inject_Z (weeks - count)) = true).
      { apply Qle_bool_iff. rewrite Ewi.
        rewrite Zle_Qle, !inject_Z_mult in H3.
        change (inject_Z 10) with 10 in H3. change (inject_Z 3) with 3 in H3. lra. }
      by rewrite H7. }
    assert (H7 : Qle_bool ((7 # 10) * inject_Z weeks) (inject_Z (weeks - count)) = false).
    { apply Qle_bool_false. rewrite Ewi.
      rewrite Zlt_Qlt, !inject_Z_mult in H3.
      change (inject_Z 10) with 10 in H3. change (inject_Z 3) with 3 in H3. lra. }
    rewrite H7.
    destruct (Z.leb_spec (10 * count) (6 * weeks)) as [H6 | H6].
    { assert (H4 : Qle_bool ((4 # 10) * inject_Z weeks) (inject_Z (weeks - count)) = true).
      { apply Qle_bool_iff. rewrite Ewi.
        rewrite Zle_Qle, !inject_Z_mult in H6.
        change (inject_Z 10) with 10 in H6. change (inject_Z 6) with 6 in H6. lra. }
      by rewrite H4. }
    assert (H4 : Qle_bool ((4 # 10) * inject_Z weeks) (inject_Z (weeks - count)) = false).
    { apply Qle_bool_false. rewrite Ewi.
      rewrite Zlt_Qlt, !inject_Z_mult in H6.
      change (inject_Z 10) with 10 in H6. change (inject_Z 6) with 6 in H6. lra. }
    rewrite H4.
    assert (H5 : Qltb x (1 # 2) = false).
    { apply Qltb_false. apply Qnot_lt_le. rewrite Hx2.
      rewrite Zlt_Qlt, !inject_Z_mult in H6.
      change (inject_Z 10) with 10 in H6. change (inject_Z 6) with 6 in H6.
      apply Qle_not_lt. lra. }
    by rewrite H5.
Qed.

(** X16.  For a non-empty commit list the level depends on the commit
    count and the week count by integer comparisons: "good" from one
    commit per week on, "high" up to 3 commits per 10 weeks, "medium"
    up to 6 per 10 weeks, "normal" above; the levels "low" and
    "critical" are never returned for it. *)
Theorem levels_by_integer_thresholds
    (commits_data : list commit) (since_date : date) (now_dt : datetime) :
  commits_data <> [] ->
  let weeks := Z.max 1 (timedelta_days now_dt (midnight since_date) / 7) in
  let count := Z.of_nat (length commits_data) in
  exists (d : gmap string pyval) (level : string),
    analyze_commit_frequency commits_data since_date now_dt = Ok d
    /\ d !! "alert_level" = Some (PStr level)
    /\ level = (if (weeks <=? count)%Z then "good"
                else if (10 * count <=? 3 * weeks)%Z then "high"
                else if (10 * count <=? 6 * weeks)%Z then "medium"
                else "normal")
    /\ level <> "low" /\ level <> "critical".
Proof.
  intros Hne weeks count.
  destruct (nonempty_list_result commits_data since_date now_dt Hne)
    as (d & msg & Hd & _ & _ & _ & _ & Hlvl).
  fold weeks count in Hlvl.
  assert (Hc : (1 <= count)%Z) by (unfold count; destruct commits_data; [done | simpl; lia]).
  assert (Hw : (1 <= weeks)%Z) by (unfold weeks; lia).
  rewrite (alert_level_by_counts count weeks Hc Hw) in Hlvl.
  eexists d, _. split; [done |]. split; [done |]. split; [done |].
  destruct (weeks <=? count)%Z; [done |].
  destruct (10 * count <=? 3 * weeks)%Z; [done |].
  by destruct (10 * count <=? 6 * weeks)%Z.
Qed.

Lemma levels_by_integer_thresholds_witness :
  exists (d : gmap string pyval) (level : string),
    analyze_commit_frequency (repeat Sample.a_commit 5)
      Sample.since Sample.ten_weeks_later = Ok d
    /\ d !! "alert_level" = Some (PStr level)
    /\ level = "medium"
    /\ level <> "low" /\ level <> "critical".
Proof.
  apply (levels_by_integer_thresholds (repeat Sample.a_commit 5)
           Sample.since Sample.ten_weeks_later).
  discriminate.
Defined.

(** X17.  For a non-empty commit list the estimated inactive weeks are
    the weeks of the window without the commits, each commit standing
    for one week: never negative and always fewer than the weeks of the
    window, so that a user with a commit is never shown as inactive
    throughout. *)
Theorem weeks_inactive_within_window
    (commits_data : list commit) (since_date : date) (now_dt : datetime) :
  commits_data <> [] ->
  let count := Z.of_nat (length commits_data) in
  exists (d : gmap string pyval) (weeks_inactive weeks_total : Z),
    analyze_commit_frequency commits_data since_date now_dt = Ok d
    /\ d !! "weeks_inactive" = Some (PInt weeks_inactive)
    /\ d !! "weeks_total" = Some (PInt weeks_total)
    /\ (0 <= weeks_inactive < weeks_total)%Z
    /\ (weeks_inactive + Z.min count weeks_total = weeks_total)%Z.
Proof.
  intros Hne count.
  destruct (nonempty_list_result commits_data since_date now_dt Hne)
    as (d & msg & Hd & _ & Hwi & Hwt & _).
  fold count in Hwi.
  assert (Hc : (1 <= count)%Z) by (unfold count; destruct commits_data; [done | simpl; lia]).
  eexists d, _, _. split; [done |]. split; [done |]. split; [done |]. lia.
Qed.

Lemma weeks_inactive_within_window_witness :
  exists (d : gmap string pyval) (weeks_inactive weeks_total : Z),
    analyze_commit_frequency [Sample.a_commit] Sample.since Sample.a_month_before = Ok d
    /\ d !! "weeks_inactive" = Some (PInt weeks_inactive)
    /\ d !! "weeks_total" = Some (PInt weeks_total)
    /\ (0 <= weeks_inactive < weeks_total)%Z
    /\ (weeks_inactive + Z.min 1 weeks_total = weeks_total)%Z.
Proof.
  apply (weeks_inactive_within_window [Sample.a_commit] Sample.since Sample.a_month_before).
  discriminate.
Defined.

End Levels.

(** ** The report and the collected data *)

Section Collecting.

Import Usuario Collect Notions.

Local Arguments Nat.leb : simpl never.

Lemma report_with_commits_produced_witness :
  exists r : report,
    generate_detailed_report "ana" "unb-mds/exemplo" Sample.two_commits
      (run_ai_analysis None Sample.two_commits)
      Sample.since Sample.ten_weeks_later Sample.ten_weeks_later = Ok r.
Proof. apply report_with_commits_produced. discriminate. Defined.

Lemma sum_Z_snoc {A} (f : A -> Z) (l : list A) (x : A) :
  sum_Z (map f (l ++ [x])) = (sum_Z (map f l) + f x)%Z.
Proof.
  unfold sum_Z. induction l as [| y l IH]; simpl; [lia |]. rewrite IH. lia.
Qed.

(** The entry of one commit against the totals. *)
Lemma commit_entry_totals (c : api_commit) (g : git_commit) (date : datetime) (st : stats) :
  let cd := (commit_entry c g date st).1 in
  let st' := (commit_entry c g date st).2 in
  commits_count st' = commits_count st
  /\ issues_count st' = issues_count st
  /\ prs_count st' = prs_count st
  /\ reviews_count st' = reviews_count st
  /\ lines_added st' = (lines_added st + commit_additions cd)%Z
  /\ lines_removed st' = (lines_removed st + commit_deletions cd)%Z
  /\ (0 <= commit_files_count cd)%Z
  /\ (files_changed st <= files_changed st'
      <= files_changed st + commit_files_count cd)%Z.
Proof.
  unfold commit_entry.
  destruct (api_files c) as [n | |], (api_stats c) as [[additions deletions] | |];
    simpl; repeat split; lia.
Qed.

Lemma collect_commits_consistent (stream : list api_commit) (data : user_data) :
  consistent data -> consistent (collect_commits stream data).
Proof.
  revert data. induction stream as [| c rest IH]; intros data Hd; [done |].
  simpl. destruct (api_git c) as [g |]; [| by apply IH].
  destruct (git_author g) as [date |]; [| by apply IH].
  pose proof (commit_entry_totals c g date (user_stats data)) as Ht.
  destruct (commit_entry c g date (user_stats data)) as [cd st]. simpl in Ht.
  destruct Ht as (H1 & H2 & H3 & H4 & H5 & H6 & H7 & H8).
  destruct Hd as (D1 & D2 & D3 & D4 & D5 & D6 & D7).
  match goal with |- consistent (if _ then ?d else _) =>
    assert (Hd' : consistent d) end.
  { unfold consistent. simpl. rewrite !sum_Z_snoc, length_app. simpl.
    repeat split; lia. }
  destruct (_ <=? _)%nat; [done | by apply IH].
Qed.

Lemma collect_commits_frame (stream : list api_commit) (data : user_data) :
  let after := collect_commits stream data in
  issues after = issues data /\ prs after = prs data /\ reviews after = reviews data.
Proof.
  revert data. induction stream as [| c rest IH]; intros data; [done |].
  simpl. destruct (api_git c) as [g |]; [| by apply IH].
  destruct (git_author g) as [date |]; [| by apply IH].
  destruct (commit_entry c g date (user_stats data)) as [cd st].
  destruct (_ <=? _)%nat; [done |].
  match goal with |- context [collect_commits rest ?d] => by destruct (IH d) as (-> & -> & ->) end.
Qed.

Lemma collect_commits_bound (stream : list api_commit) (data : user_data) :
  length (commits data) < SAMPLE_SIZE ->
  length (commits (collect_commits stream data)) <= SAMPLE_SIZE.
Proof.
  revert data. induction stream as [| c rest IH]; intros data Hlen; [simpl; lia |].
  simpl. destruct (api_git c) as [g |]; [| by apply IH].
  destruct (git_author g) as [date |]; [| by apply IH].
  destruct (commit_entry c g date (user_stats data)) as [cd st].
  match goal with |- context [(?a <=? ?b)%nat] =>
    destruct (Nat.leb_spec a b) as [Hge | Hlt] end.
  - unfold SAMPLE_SIZE in *. simpl in *. rewrite length_app in *. simpl in *. lia.
  - apply IH. unfold SAMPLE_SIZE in *. simpl in *. lia.
Qed.

Lemma collect_commits_unusable (stream : list api_commit) (data : user_data) :
  existsb usable stream = false -> collect_commits stream data = data.
Proof.
  induction stream as [| c rest IH]; [done |].
  simpl. intros [Hc Hr]%orb_false_iff. unfold usable in Hc.
  destruct (api_git c) as [g |]; [| by apply IH].
  destruct (git_author g) as [date |]; [done | by apply IH].
Qed.

Lemma collect_commits_keeps (stream : list api_commit) (data : user_data) :
  commits data <> [] -> commits (collect_commits stream data) <> [].
Proof.
  revert data. induction stream as [| c rest IH]; intros data Hne; [done |].
  simpl. destruct (api_git c) as [g |]; [| by apply IH].
  destruct (git_author g) as [date |]; [| by apply IH].
  destruct (commit_entry c g date (user_stats data)) as [cd st].
  destruct (_ <=? _)%nat; [| apply IH]; simpl; by destruct (commits data).
Qed.

Lemma collect_commits_usable (stream : list api_commit) (data : user_data) :
  existsb usable stream = true -> commits (collect_commits stream data) <> [].
Proof.
  revert data. induction stream as [| c rest IH]; intros data; [done |].
  simpl. intros H. unfold usable in H.
  destruct (api_git c) as [g |]; [| by apply IH].
  destruct (git_author g) as [date |]; [| by apply IH].
  destruct (commit_entry c g date (user_stats data)) as [cd st].
  destruct (_ <=? _)%nat; [| apply collect_commits_keeps]; simpl; by destruct (commits data).
Qed.

(** The issues kept are the first plain issues of the stream, up to
    the sample size. *)
Lemma collect_issues_sample (stream : list api_issue) (data : user_data) :
  length (issues data) < SAMPLE_SIZE ->
  issues (collect_issues stream data)
  = (issues data
     ++ map issue_entry_of (take (SAMPLE_SIZE - length (issues data))
                                 (filter (fun i => api_issue_is_pull_request i = false) stream)))%list.
Proof.
  revert data. induction stream as [| i rest IH]; intros data Hlen.
  - rewrite filter_nil, take_nil. simpl. by rewrite app_nil_r.
  - simpl. destruct (api_issue_is_pull_request i) eqn:Ei.
    + rewrite filter_cons_False by congruence. by apply IH.
    + rewrite filter_cons_True by done.
      destruct (SAMPLE_SIZE - length (issues data)) as [| k] eqn:Ek; [lia |].
      simpl. rewrite length_app. simpl.
      destruct (Nat.leb_spec SAMPLE_SIZE (length (issues data) + 1)) as [Hge | Hlt].
      * simpl. assert (k = 0) as -> by lia. by rewrite take_0.
      * rewrite IH by (simpl; rewrite length_app; simpl; lia).
        simpl. rewrite length_app. simpl.
        replace (SAMPLE_SIZE - (length (issues data) + 1)) with k by lia.
        by rewrite <- app_assoc.
Qed.

Lemma collect_issues_consistent (stream : list api_issue) (data : user_data) :
  consistent data -> consistent (collect_issues stream data).
Proof.
  revert data. induction stream as [| i rest IH]; intros data Hd; [done |].
  simpl. destruct (api_issue_is_pull_request i); [by apply IH |].
  destruct Hd as (D1 & D2 & D3 & D4 & D5 & D6 & D7).
  match goal with |- consistent (if _ then ?d else _) =>
    assert (Hd' : consistent d) end.
  { unfold consistent. simpl. rewrite length_app. simpl. repeat split; lia. }
  destruct (_ <=? _)%nat; [done | by apply IH].
Qed.

Lemma collect_issues_frame (stream : list api_issue) (data : user_data) :
  let after := collect_issues stream data in
  commits after = commits data /\ prs after = prs data /\ reviews after = reviews data.
Proof.
  revert data. induction stream as [| i rest IH]; intros data; [done |].
  simpl. destruct (api_issue_is_pull_request i); [by apply IH |].
  destruct (_ <=? _)%nat; [done |].
  match goal with |- context [collect_issues rest ?d] => by destruct (IH d) as (-> & -> & ->) end.
Qed.

(** The pull requests kept are the first ones of the stream opened by
    the user, up to the sample size. *)
Lemma collect_pulls_sample (username : string) (stream : list api_pull) (data : user_data) :
  length (prs data) < SAMPLE_SIZE ->
  prs (collect_pulls username stream data)
  = (prs data
     ++ map pull_entry_of (take (SAMPLE_SIZE - length (prs data))
                                (filter (fun pr => written_by username (api_pull_user pr) = true) stream)))%list.
Proof.
  revert data. induction stream as [| pr rest IH]; intros data Hlen.
  - rewrite filter_nil, take_nil. simpl. by rewrite app_nil_r.
  - simpl. destruct (written_by username (api_pull_user pr)) eqn:Ei.
    + rewrite filter_cons_True by done.
      destruct (SAMPLE_SIZE - length (prs data)) as [| k] eqn:Ek; [lia |].
      simpl. rewrite length_app. simpl.
      destruct (Nat.leb_spec SAMPLE_SIZE (length (prs data) + 1)) as [Hge | Hlt].
      * simpl. assert (k = 0) as -> by lia. by rewrite take_0.
      * rewrite IH by (simpl; rewrite length_app; simpl; lia).
        simpl. rewrite length_app. simpl.
        replace (SAMPLE_SIZE - (length (prs data) + 1)) with k by lia.
        by rewrite <- app_assoc.
    + rewrite filter_cons_False by congruence. by apply IH.
Qed.

Lemma collect_pulls_consistent (username : string) (stream : list api_pull)
    (data : user_data) :
  consistent data -> consistent (collect_pulls username stream data).
Proof.
  revert data. induction stream as [| pr rest IH]; intros data Hd; [done |].
  simpl. destruct (written_by username (api_pull_user pr)); [| by apply IH].
  destruct Hd as (D1 & D2 & D3 & D4 & D5 & D6 & D7).
  match goal with |- consistent (if _ then ?d else _) =>
    assert (Hd' : consistent d) end.
  { unfold consistent. simpl. rewrite length_app. simpl. repeat split; lia. }
  destruct (_ <=? _)%nat; [done | by apply IH].
Qed.

Lemma collect_pulls_frame (username : string) (stream : list api_pull) (data : user_data) :
  let after := collect_pulls username stream data in
  commits after = commits data /\ issues after = issues data
  /\ reviews after = reviews data.
Proof.
  revert data. induction stream as [| pr rest IH]; intros data; [done |].
  simpl. destruct (written_by username (api_pull_user pr)); [| by apply IH].
  destruct (_ <=? _)%nat; [done |].
  match goal with |- context [collect_pulls username rest ?d] =>
    by destruct (IH d) as (-> & -> & ->) end.
Qed.

Lemma collect_comments_consistent username kind with_path number comments data :
  consistent data ->
  consistent (collect_comments username kind with_path number comments data).
Proof.
  revert data. induction comments as [| comment rest IH]; intros data Hd; [done |].
  simpl. destruct (written_by username (api_comment_user comment)); [| by apply IH].
  apply IH. destruct Hd as (D1 & D2 & D3 & D4 & D5 & D6 & D7).
  unfold consistent. simpl. rewrite length_app. simpl. repeat split; lia.
Qed.

Lemma collect_comments_frame username kind with_path number comments data :
  let after := collect_comments username kind with_path number comments data in
  commits after = commits data /\ issues after = issues data /\ prs after = prs data.
Proof.
  revert data. induction comments as [| comment rest IH]; intros data; [done |].
  simpl. destruct (written_by username (api_comment_user comment)); [| by apply IH].
  match goal with |- context [collect_comments _ _ _ _ rest ?d] =>
    by destruct (IH d) as (-> & -> & ->) end.
Qed.

Lemma collect_reviews_consistent (username : string) (stream : list api_pull)
    (data : user_data) :
  consistent data -> consistent (collect_reviews username stream data).
Proof.
  revert data. induction stream as [| pr rest IH]; intros data Hd; [done |].
  simpl.
  destruct (raises (get_issue_comments pr));
    [by apply IH, collect_comments_consistent |].
  destruct (raises (get_review_comments pr));
    [by apply IH, collect_comments_consistent, collect_comments_consistent |].
  destruct (_ <=? _)%nat;
    [| apply IH]; by apply collect_comments_consistent, collect_comments_consistent.
Qed.

Lemma collect_reviews_frame (username : string) (stream : list api_pull) (data : user_data) :
  let after := collect_reviews username stream data in
  commits after = commits data /\ issues after = issues data /\ prs after = prs data.
Proof.
  revert data. induction stream as [| pr rest IH]; intros data; [done |].
  simpl.
  pose proof (collect_comments_frame username "pr_comment" false (api_pull_number pr)
                (yielded (get_issue_comments pr)) data) as (E1 & E2 & E3).
  set (data1 := collect_comments username "pr_comment" false _ _ data) in *.
  pose proof (collect_comments_frame username "review_comment" true (api_pull_number pr)
                (yielded (get_review_comments pr)) data1) as (F1 & F2 & F3).
  set (data2 := collect_comments username "review_comment" true _ _ data1) in *.
  destruct (raises (get_issue_comments pr)).
  { destruct (IH data1) as (-> & -> & ->). done. }
  destruct (raises (get_review_comments pr)).
  { destruct (IH data2) as (-> & -> & ->). by rewrite F1, F2, F3. }
  destruct (_ <=? _)%nat; [by rewrite F1, F2, F3 |].
  destruct (IH data2) as (-> & -> & ->). by rewrite F1, F2, F3.
Qed.

Lemma empty_data_consistent : consistent empty_data.
Proof. unfold consistent. simpl. repeat split; lia. Qed.

(** The lists of commits, issues and pull requests that
    [collect_user_data] returns, loop by loop. *)
Lemma collected_lists (repo : api_repo) (username : string) :
  let data := collect_user_data repo username in
  commits data = commits (collect_commits (get_commits repo) empty_data)
  /\ issues data = map issue_entry_of (take SAMPLE_SIZE (filter (fun i => api_issue_is_pull_request i = false) (get_issues repo)))
  /\ prs data
     = map pull_entry_of (take SAMPLE_SIZE (filter (fun pr => written_by username (api_pull_user pr) = true) (get_pulls repo))).
Proof.
  unfold collect_user_data.
  set (d1 := collect_commits (get_commits repo) empty_data).
  set (d2 := collect_issues (get_issues repo) d1).
  set (d3 := collect_pulls username (get_pulls repo) d2).
  destruct (collect_reviews_frame username (get_pulls_for_reviews repo) d3) as (-> & -> & ->).
  destruct (collect_pulls_frame username (get_pulls repo) d2) as (E1 & E2 & _).
  destruct (collect_issues_frame (get_issues repo) d1) as (G1 & G2 & _).
  destruct (collect_commits_frame (get_commits repo) empty_data) as (K1 & K2 & _).
  fold d1 in K1, K2. fold d2 in G1, G2. fold d3 in E1, E2.
  split; [by rewrite E1, G1 |]. split.
  - rewrite E2. unfold d2.
    rewrite collect_issues_sample by (rewrite K1; simpl; unfold SAMPLE_SIZE; lia).
    by rewrite K1.
  - unfold d3.
    rewrite collect_pulls_sample by (rewrite G2, K2; simpl; unfold SAMPLE_SIZE; lia).
    by rewrite G2, K2.
Qed.

(** X19.  In the data collected for a user every counter equals the
    length of its list, the added and removed line totals are the sums
    over the collected commits, and the changed-file total is at most
    the sum of their file counts (a commit whose statistics cannot be
    read adds no files to the total). *)
Theorem collected_counters_match_lists (repo : api_repo) (username : string) :
  let data := collect_user_data repo username in
  let st := user_stats data in
  commits_count st = Z.of_nat (length (commits data))
  /\ issues_count st = Z.of_nat (length (issues data))
  /\ prs_count st = Z.of_nat (length (prs data))
  /\ reviews_count st = Z.of_nat (length (reviews data))
  /\ lines_added st = sum_Z (map commit_additions (commits data))
  /\ lines_removed st = sum_Z (map commit_deletions (commits data))
  /\ (0 <= files_changed st <= sum_Z (map commit_files_count (commits data)))%Z.
Proof.
  apply collect_reviews_consistent, collect_pulls_consistent, collect_issues_consistent,
    collect_commits_consistent, empty_data_consistent.
Qed.

(** X20.  At most 20 commits, 20 issues and 20 pull requests are
    collected; the issues are the first 20 of the stream that are not
    pull requests, and the pull requests the first 20 opened by the
    user, whose login is compared without regard to letter case, both
    in the order of the stream. *)
Theorem collected_samples_are_first_twenty (repo : api_repo) (username : string) :
  let data := collect_user_data repo username in
  length (commits data) <= 20
  /\ length (issues data) <= 20
  /\ length (prs data) <= 20
  /\ issues data = map issue_entry_of (take 20 (filter (fun i => api_issue_is_pull_request i = false) (get_issues repo)))
  /\ prs data = map pull_entry_of (take 20 (filter (fun pr => written_by username (api_pull_user pr) = true) (get_pulls repo))).
Proof.
  intros data. destruct (collected_lists repo username) as (Ec & Ei & Ep).
  fold data in Ec, Ei, Ep. change SAMPLE_SIZE with 20 in *.
  rewrite Ec, Ei, Ep, !length_map, !length_take.
  split; [| repeat split; lia].
  apply (collect_commits_bound (get_commits repo) empty_data). simpl. unfold SAMPLE_SIZE. lia.
Qed.

(** X21.  The run for one user ends with a report exactly when the
    commit stream holds a commit with an author; when it holds none,
    the run raises [KeyError] on [weeks_total], whatever issues, pull
    requests and comments the user has. *)
Theorem report_needs_a_usable_commit
    (repo : api_repo) (repo_name username : string)
    (ai_analyzer : option DetailedAgileAnalyzer)
    (since_date : date) (now_dt now_local : datetime) :
  (existsb usable (get_commits repo) = true ->
   exists r : report,
     main_report repo repo_name username ai_analyzer since_date now_dt now_local = Ok r)
  /\ (existsb usable (get_commits repo) = false ->
      main_report repo repo_name username ai_analyzer since_date now_dt now_local
      = Raise (KeyError "weeks_total")).
Proof.
  unfold main_report.
  destruct (collected_lists repo username) as (Ec & _).
  split; intros H.
  - apply report_with_commits_produced. rewrite Ec. by apply collect_commits_usable.
  - unfold generate_detailed_report.
    rewrite Ec, (collect_commits_unusable _ _ H). reflexivity.
Qed.

Lemma report_needs_a_usable_commit_witness :
  (exists r : report,
      main_report Inputs.active_repo "unb-mds/exemplo" "ana" None
        Sample.since Sample.ten_weeks_later Sample.ten_weeks_later = Ok r)
  /\ main_report Inputs.idle_repo "unb-mds/exemplo" "ana" None
       Sample.since Sample.ten_weeks_later Sample.ten_weeks_later
     = Raise (KeyError "weeks_total").
Proof.
  split.
  - apply (report_needs_a_usable_commit Inputs.active_repo). reflexivity.
  - apply (report_needs_a_usable_commit Inputs.idle_repo). reflexivity.
Defined.

End Collecting.
